(** * Concept assignment, representation extraction and comparative analysis

    A shallow embedding of the cognitive-framing pipeline, from the
    ingested documents to the tables:

    - [concepts/concept_definitions.py]      (the concept registry),
    - [concept_assignment/concept_assignment.py] (keyword / embedding
      scoring, thresholding, batch assignment, the choice of concepts,
      saving the instances),
    - [representation/representation_extraction.py] (keyword extraction,
      building the representations),
    - [analysis/comparative_analysis.py]     (per-source metrics),
    - [canonicalization/canonicalization.py] (segmentation),
    - [ingestion/ingestion.py]               (deduplication),
    - [views/view_generator.py]              (tables and their files),
    - [run_analysis.py]                      (reloading the instances, the
      loop over the concepts).

    Modelling conventions.

    - A Python [str] is a [string]; a character is a code point below 256
      and the character classes of [re] ([\w], [\s]), [str.lower] and
      [str.split] are written out for that range.
    - A Python [float] holding a keyword score is an exact rational [Q]:
      every constant of the scoring table is a decimal.  Quantities that
      involve an embedding (norms need a square root) are real numbers [R];
      a keyword score enters them through [Q2R].  These are the exact
      values, which numpy and Python round; no statement below bounds a
      real-valued score or an average from above by them.  The module
      [Rounded] has the scoring arithmetic as it is computed, in the
      binary32 or binary64 format of the arrays and in the binary64 format
      of a Python [float].
    - A [dict] is an association list in insertion order ([Dict.get],
      [Dict.set]), since the order of the keys is observable in the results;
      a [set] is a duplicate-free list ([PySet]).
    - The embedding model is a function from texts to vectors that may fail;
      the concept-embedding cache, the one piece of mutable state, is passed
      in and returned.
    - An exception is a value: [Raise] in [PyResult], or [None] where the
      source catches it on the spot.
    - What comes from outside the program is an input: the articles a
      fetch returns, the digest function of [hashlib], the formatting of a
      float, the files already present. *)

From Stdlib Require Import List String Ascii Bool Arith NArith ZArith.
From Stdlib Require Import QArith Qminmax Qreals Reals Psatz Lia.
From Stdlib Require Import Sorted Permutation.
From Stdlib Require PrimFloat SpecFloat FloatOps FloatAxioms DecimalString.
Import ListNotations.

Local Open Scope string_scope.
Local Open Scope list_scope.

(* ================================================================== *)
(** ** Python strings *)

Module Str.

Definition code (c : ascii) : N := N_of_ascii c.

Definition in_range (lo hi : N) (c : ascii) : bool :=
  (lo <=? code c)%N && (code c <=? hi)%N.

(** [\w] of [re] on [str] patterns, for code points below 256. *)
Definition is_word_char (c : ascii) : bool :=
  in_range 48 57 c || in_range 65 90 c || in_range 95 95 c
  || in_range 97 122 c || in_range 170 170 c || in_range 178 179 c
  || in_range 181 181 c || in_range 185 186 c || in_range 188 190 c
  || in_range 192 214 c || in_range 216 246 c || in_range 248 255 c.

(** [\s] of [re], which is also [str.isspace], the separator of
    [str.split()]. *)
Definition is_space_char (c : ascii) : bool :=
  in_range 9 13 c || in_range 28 32 c || in_range 133 133 c
  || in_range 160 160 c.

(** [str.lower] on one character of the range modelled, where it maps a
    character to one character of the range.  Outside it [str.lower] can
    lengthen a string (U+0130 gives two code points), so no statement
    relies on the length of a lowercased string. *)
Definition lower_char (c : ascii) : ascii :=
  if in_range 65 90 c || in_range 192 214 c || in_range 216 222 c
  then ascii_of_N (code c + 32)
  else c.

Fixpoint map (f : ascii -> ascii) (s : string) : string :=
  match s with
  | EmptyString => EmptyString
  | String c s' => String (f c) (map f s')
  end.

(** [s.lower()] *)
Definition lower (s : string) : string := map lower_char s.

(** [re.sub(r'[^\w\s]', ' ', s)] *)
Definition sub_punct (s : string) : string :=
  map (fun c => if is_word_char c || is_space_char c then c else " "%char) s.

(** [s.split()]: the maximal runs of non-whitespace characters. *)
Fixpoint split (s : string) : list string :=
  match s with
  | EmptyString => []
  | String c s' =>
      if is_space_char c then split s'
      else
        let rest := split s' in
        match s', rest with
        | String c' _, t :: ts =>
            if is_space_char c' then String c EmptyString :: rest
            else String c t :: ts
        | _, _ => String c EmptyString :: rest
        end
  end.

(** [needle in hay] *)
Fixpoint contains (needle hay : string) : bool :=
  String.prefix needle hay
  || match hay with
     | EmptyString => false
     | String _ hay' => contains needle hay'
     end.

(** [w in ws] for a list or a set of strings. *)
Definition mem (w : string) (ws : list string) : bool :=
  existsb (String.eqb w) ws.

(** [sep.join(parts)] *)
Fixpoint join (sep : string) (parts : list string) : string :=
  match parts with
  | [] => EmptyString
  | [p] => p
  | p :: ps => p ++ sep ++ join sep ps
  end.

End Str.

(* ================================================================== *)
(** ** Python sets of strings

    A [set] is a duplicate-free list; only membership and size are
    observed by the code below, never the iteration order. *)

Module PySet.

Definition t := list string.

Definition empty : t := [].

(** [s.add(x)] *)
Definition add (x : string) (s : t) : t :=
  if Str.mem x s then s else s ++ [x].

(** [s.update(xs)] *)
Definition update (xs : list string) (s : t) : t :=
  fold_left (fun acc x => add x acc) xs s.

(** [set(xs)] *)
Definition of_list (xs : list string) : t := update xs empty.

End PySet.

(* ================================================================== *)
(** ** concepts/concept_definitions.py *)

Module Concept.

Record t : Type := mk {
  id : string;
  name : string;
  description : string;
  inclusion_criteria : list string;
  exclusion_criteria : list string;
  seed_terms : list string
}.

End Concept.

(** ** canonicalization/canonicalization.py: the [TextSegment] record *)

Module TextSegment.

Record t : Type := mk {
  id : string;
  document_id : string;
  text : string;
  position : Z
}.

End TextSegment.

(* ================================================================== *)
(** ** Keyword scoring: [ConceptAssigner._keyword_match_score] *)

(** [_normalize_text_for_keywords] *)
Definition _normalize_text_for_keywords (text : string) : string :=
  Str.sub_punct (Str.lower text).

(** The body of the loop over [concept.seed_terms]; the loop state is
    [(phrase_matches, all_seed_words)]. *)
Definition seed_term_step (normalized_text : string) (words : PySet.t)
    (st : nat * PySet.t) (term : string) : nat * PySet.t :=
  let '(phrase_matches, all_seed_words) := st in
  let normalized_term := Str.lower term in
  if Str.contains normalized_term normalized_text then
    (S phrase_matches, all_seed_words)
  else if Str.contains " " normalized_term then
    let term_words := Str.split normalized_term in
    ((if forallb (fun word => Str.mem word words) term_words
      then S phrase_matches else phrase_matches),
     PySet.update term_words all_seed_words)
  else
    ((if Str.mem normalized_term words
      then S phrase_matches else phrase_matches),
     PySet.add normalized_term all_seed_words).

(** The loop counting the seed words present in the text. *)
Definition count_word_matches (all_seed_words words : PySet.t) : nat :=
  fold_left (fun word_matches word =>
               if Str.mem word words then S word_matches else word_matches)
            all_seed_words 0%nat.

(** [matches]: the phrase count, or the partial credit 1 or 0.5 when no
    phrase matched.  The value is a Python [int] or the [float] 0.5. *)
Definition effective_matches (phrase_matches word_matches : nat) : Q :=
  if (phrase_matches =? 0)%nat && (0 <? word_matches)%nat then
    if (2 <=? word_matches)%nat then 1%Q
    else if (word_matches =? 1)%nat then (5 # 10)%Q
    else inject_Z (Z.of_nat phrase_matches)
  else inject_Z (Z.of_nat phrase_matches).

(** The [if]/[elif] chain that maps [matches] to [base_score]; it is
    entered with [matches <> 0].  The last [elif matches >= 4] is the final
    branch here: [matches_shape] below shows the chain is exhaustive. *)
Definition base_score_table (matches : Q) : Q :=
  if Qeq_bool matches (5 # 10) then (15 # 100)%Q
  else if Qeq_bool matches 1 then (3 # 10)%Q
  else if Qeq_bool matches 2 then (5 # 10)%Q
  else if Qeq_bool matches 3 then (65 # 100)%Q
  else ((8 # 10) + Qmin (2 # 10) ((matches - 4) * (5 # 100)))%Q.

(** The part of [_keyword_match_score] after [matches] is known. *)
Definition score_of_matches (matches : Q) (total_terms : nat) : Q :=
  if Qeq_bool matches 0 then 0%Q
  else
    let base_score := base_score_table matches in
    let match_ratio := (matches / inject_Z (Z.of_nat total_terms))%Q in
    let base_score :=
      if Qle_bool match_ratio (1 # 10) then base_score
      else Qmin 1 (base_score + (1 # 10))%Q in
    Qmin 1 base_score.

Definition _keyword_match_score (text : string) (concept : Concept.t) : Q :=
  let normalized_text := _normalize_text_for_keywords text in
  let words := PySet.of_list (Str.split normalized_text) in
  let total_terms := List.length (Concept.seed_terms concept) in
  if (total_terms =? 0)%nat then 0%Q
  else
    let '(phrase_matches, all_seed_words) :=
      fold_left (seed_term_step normalized_text words)
                (Concept.seed_terms concept) (0%nat, PySet.empty) in
    let word_matches := count_word_matches all_seed_words words in
    score_of_matches (effective_matches phrase_matches word_matches)
                     total_terms.

(** The last steps of the docstring example in binary64 arithmetic:
    [min(1.0, min(1.0, 0.65 + 0.1))]. *)
Module Binary64.

Import PrimFloat.

(** [min(a, b)] on floats *)
Definition float_min (a b : float) : float :=
  if ltb b a then b else a.

#[warnings="-inexact-float"] Definition example_score : float :=
  float_min 1%float (float_min 1%float (0.65 + 0.1)%float).

End Binary64.

(* ================================================================== *)
(** ** Python values, exceptions and insertion-ordered dictionaries *)

(** The values stored under [Dict[str, Any]] metadata. *)
Inductive PyVal : Type :=
| PyNone
| PyFloat (r : R)
| PyInt (z : Z)
| PyStr (s : string).

Inductive PyExn : Type :=
| ValueError (msg : string)
| KeyError (key : string)
| BackendError.

Inductive PyResult (A : Type) : Type :=
| Return (a : A)
| Raise (e : PyExn).
Arguments Return {A} a.
Arguments Raise {A} e.

Module Dict.

Definition t (V : Type) : Type := list (string * V).

(** [d.get(k)] *)
Fixpoint get {V : Type} (k : string) (d : t V) : option V :=
  match d with
  | [] => None
  | (k', v) :: d' => if String.eqb k k' then Some v else get k d'
  end.

(** [d[k] = v]: an existing key keeps its position, a new key goes last. *)
Fixpoint set {V : Type} (k : string) (v : V) (d : t V) : t V :=
  match d with
  | [] => [(k, v)]
  | (k', v') :: d' =>
      if String.eqb k k' then (k, v) :: d' else (k', v') :: set k v d'
  end.

(** [list(d.keys())] *)
Definition keys {V : Type} (d : t V) : list string := List.map fst d.

End Dict.

(** [d.get(k, default)] once [d.get(k)] is known; also the default of an
    omitted keyword argument. *)
Definition or_default {A : Type} (o : option A) (d : A) : A :=
  match o with Some a => a | None => d end.

(* ================================================================== *)
(** ** numpy on one-dimensional arrays *)

Definition Vec : Type := list R.

Fixpoint dot_sum (a b : Vec) : R :=
  match a, b with
  | x :: a', y :: b' => (x * y + dot_sum a' b')%R
  | _, _ => 0%R
  end.

(** [np.dot(a, b)]; arrays of different lengths raise.  The sum is the
    exact one; [Rounded.np_dot_rounded] is the rounded one. *)
Definition np_dot (a b : Vec) : option R :=
  if (List.length a =? List.length b)%nat then Some (dot_sum a b) else None.

(** [np.linalg.norm(a)] *)
Definition np_norm (a : Vec) : R := sqrt (dot_sum a a).

Fixpoint vec_add (a b : Vec) : Vec :=
  match a, b with
  | x :: a', y :: b' => (x + y)%R :: vec_add a' b'
  | _, _ => []
  end.

(** [np.mean(vs, axis=0)] on a non-empty list of arrays; arrays of
    different lengths raise. *)
Definition np_mean_axis0 (vs : list Vec) : option Vec :=
  match vs with
  | [] => None
  | v :: vs' =>
      if forallb (fun w => (List.length w =? List.length v)%nat) vs'
      then Some (List.map (fun x => (x / INR (List.length vs))%R)
                          (fold_left vec_add vs' v))
      else None
  end.

(** The cosine expression [np.dot(a, b) / (norm(a) * norm(b))].  A zero
    denominator gives the float [nan] (both operands are then zero), which
    is [None] here; [Raise] is the shape error of [np.dot].  The quotient
    is the exact one: the value numpy returns is this one rounded at every
    operation ([Rounded.cosine_rounded]), and can leave the interval
    [-1, 1] that holds the exact value. *)
Definition quotient (d den : R) : option R :=
  if Req_dec_T den 0 then None else Some (d / den)%R.

Definition cosine (a b : Vec) : PyResult (option R) :=
  match np_dot a b with
  | None => Raise (ValueError "shapes not aligned")
  | Some d => Return (quotient d (np_norm a * np_norm b))
  end.

(* ================================================================== *)
(** ** The scoring arithmetic as it is computed *)

(** A numpy scalar or array element is a [spec_float] of the format
    [(prec, emax)] of its dtype: [(24, 128)] for [float32], the dtype of
    the arrays sentence-transformers returns, and [(53, 1024)] for
    [float64].  A Python [float] is a primitive binary64 float.  Every
    operation rounds to nearest, ties to even. *)
Module Rounded.

Import PrimFloat SpecFloat FloatOps.
Local Open Scope float_scope.

(** An [int] as a Python [float] (exact below [2 ** 53]). *)
Definition float_of_int (z : Z) : float :=
  SF2Prim (binary_normalize 53 1024 z 0%Z false).

(** [matches] of [_keyword_match_score]: an [int], or the [float] 0.5. *)
Definition matches_rounded (phrase_matches word_matches : nat) : float :=
  if (phrase_matches =? 0)%nat && (0 <? word_matches)%nat then
    if (2 <=? word_matches)%nat then 1
    else if (word_matches =? 1)%nat then 0.5
    else float_of_int (Z.of_nat phrase_matches)
  else float_of_int (Z.of_nat phrase_matches).

(** The part of [_keyword_match_score] after [matches] is known. *)
#[warnings="-inexact-float"]
Definition score_of_matches_rounded (matches total_terms : float) : float :=
  if eqb matches 0 then 0
  else
    let base_score :=
      if eqb matches 0.5 then 0.15
      else if eqb matches 1 then 0.3
      else if eqb matches 2 then 0.5
      else if eqb matches 3 then 0.65
      else 0.8 + Binary64.float_min 0.2 ((matches - 4) * 0.05) in
    let match_ratio := matches / total_terms in
    let base_score :=
      if ltb 0.1 match_ratio
      then Binary64.float_min 1 (base_score + 0.1)
      else base_score in
    Binary64.float_min 1 base_score.

(** [_keyword_match_score] with its result as the binary64 float the
    source returns. *)
Definition _keyword_match_score_rounded (text : string)
    (concept : Concept.t) : float :=
  let normalized_text := _normalize_text_for_keywords text in
  let words := PySet.of_list (Str.split normalized_text) in
  let total_terms := List.length (Concept.seed_terms concept) in
  if (total_terms =? 0)%nat then 0
  else
    let '(phrase_matches, all_seed_words) :=
      fold_left (seed_term_step normalized_text words)
                (Concept.seed_terms concept) (0%nat, PySet.empty) in
    let word_matches := count_word_matches all_seed_words words in
    score_of_matches_rounded (matches_rounded phrase_matches word_matches)
                             (float_of_int (Z.of_nat total_terms)).

Section Precision.

Variables prec emax : Z.

(** An array of whole numbers in the format. *)
Definition array (xs : list Z) : list spec_float :=
  List.map (fun x => binary_normalize prec emax x 0%Z false) xs.

(** [np.dot(a, b)]: each product and each sum is rounded; arrays of
    different lengths raise.  The products are added up from the left;
    the order numpy's backend takes does not matter for the arrays of the
    statements below, whose products and sums are small whole numbers and
    so exact in any order. *)
Definition np_dot_rounded (a b : list spec_float) : option spec_float :=
  if (List.length a =? List.length b)%nat then
    Some (fold_left
            (fun acc xy =>
               SFadd prec emax acc (SFmul prec emax (fst xy) (snd xy)))
            (combine a b) (S754_zero false))
  else None.

(** [np.linalg.norm(a)]: [sqrt(a.dot(a))] *)
Definition np_norm_rounded (a : list spec_float) : spec_float :=
  SFsqrt prec emax
    (fold_left
       (fun acc x => SFadd prec emax acc (SFmul prec emax x x))
       a (S754_zero false)).

(** [np.dot(a, b) / (norm(a) * norm(b))]; [None] is the shape error. *)
Definition cosine_rounded (a b : list spec_float) : option spec_float :=
  match np_dot_rounded a b with
  | None => None
  | Some d =>
      Some (SFdiv prec emax d
              (SFmul prec emax (np_norm_rounded a) (np_norm_rounded b)))
  end.

(** [max(0.0, similarity)]: the second argument is returned when it is
    greater than the first, which [nan] is not. *)
Definition py_max_zero (similarity : spec_float) : spec_float :=
  if SFltb (S754_zero false) similarity then similarity
  else S754_zero false.

(** The arithmetic of [_embedding_similarity_score] on the two arrays;
    the shape error is caught and gives 0.0.  There is no clamp from
    above. *)
Definition embedding_score_rounded (text_embedding concept_embedding
    : list spec_float) : spec_float :=
  match cosine_rounded text_embedding concept_embedding with
  | None => S754_zero false
  | Some similarity => py_max_zero similarity
  end.

End Precision.

(** [float(similarity)]: exact, the formats are binary64 or narrower. *)
Definition python_float (similarity : spec_float) : float :=
  SF2Prim similarity.

(** [self.keyword_weight * keyword_score
     + self.embedding_weight * embedding_score] *)
Definition combined_score_rounded (keyword_weight keyword_score
    embedding_weight embedding_score : float) : float :=
  keyword_weight * keyword_score + embedding_weight * embedding_score.

(** The default weights of [ConceptAssigner.__init__]. *)
#[warnings="-inexact-float"]
Definition default_keyword_weight : float := 0.4.

#[warnings="-inexact-float"]
Definition default_embedding_weight : float := 0.6.

Definition float_one : float := 1.

(** [1 + 2 ** k] *)
Definition one_plus_pow2 (k : Z) : float :=
  1 + FloatOps.Z.ldexp 1 k.

End Rounded.

(* ================================================================== *)
(** ** concepts/concept_definitions.py: the registry *)

Definition income_wealth_inequality : Concept.t := {|
  Concept.id := "income_wealth_inequality";
  Concept.name := "Income and Wealth Inequality";
  Concept.description :=
    "Discussions of income and wealth inequality, including disparities "
    ++ "in earnings, assets, economic opportunity, and distribution of resources. "
    ++ "This concept focuses on how inequality is represented, measured, discussed, "
    ++ "and framed across different sources and time periods.";
  Concept.inclusion_criteria := [
    "Discusses income inequality, wage gaps, or earnings disparities";
    "Addresses wealth inequality, asset distribution, or wealth gaps";
    "Mentions economic inequality, economic disparity, or distribution of resources";
    "References measures of inequality (Gini coefficient, income quintiles, etc.)";
    "Discusses policies, trends, or analysis related to economic inequality";
    "Compares economic outcomes across different groups (by income, class, etc.)";
    "Discusses social mobility, economic opportunity, or access to resources";
    "Mentions the middle class, working class, or economic stratification" ];
  Concept.exclusion_criteria := [
    "Articles that only mention inequality in passing without substantive discussion";
    "Articles focused solely on specific policy proposals without inequality context";
    "Articles about inequality in non-economic contexts (e.g., health outcomes alone)";
    "Articles that mention 'inequality' but are actually about other topics";
    "Brief mentions without analysis or discussion of inequality patterns" ];
  Concept.seed_terms := [
    "income inequality"; "wealth inequality"; "economic inequality";
    "wage gap"; "wealth gap"; "income gap"; "economic disparity";
    "wealth disparity"; "income distribution"; "wealth distribution";
    "gini coefficient"; "income quintile"; "wealth quintile"; "top 1%";
    "top 10%"; "bottom 50%"; "poverty line"; "average income";
    "median income"; "average wealth"; "median wealth";
    "economic mobility"; "social mobility"; "class divide";
    "economic stratification"; "wealth concentration";
    "economic opportunity";
    "tax inequality"; "wealth tax"; "minimum wage"; "living wage";
    "economic justice"; "economic fairness";
    "inequality"; "wealth"; "income"; "wage"; "gap"; "disparity";
    "distribution"; "gini"; "poverty"; "mobility"; "stratification";
    "concentration"; "opportunity"; "tax reform" ]
|}.

Definition CONCEPTS : Dict.t Concept.t :=
  [("income_wealth_inequality", income_wealth_inequality)].

(** [str(list_of_str)] for keys without quotes or escapes. *)
Definition repr_keys (ks : list string) : string :=
  ("[" ++ Str.join ", " (List.map (fun k => "'" ++ k ++ "'") ks) ++ "]")%string.

Definition get_concept_by_id (concept_id : string) : PyResult Concept.t :=
  match Dict.get concept_id CONCEPTS with
  | None =>
      Raise (ValueError ("Concept '" ++ concept_id
                         ++ "' not found. Available concepts: "
                         ++ repr_keys (Dict.keys CONCEPTS)))
  | Some c => Return c
  end.

(* ================================================================== *)
(** ** concept_assignment/concept_assignment.py *)

Module ConceptInstance.

Record t : Type := mk {
  concept_id : string;
  text_segment_id : string;
  confidence : R;
  assignment_method : string;
  metadata : Dict.t PyVal
}.

End ConceptInstance.

(** A loaded [SentenceTransformer]: [encode text] is [None] when the
    backend raises. *)
Definition Encoder : Type := string -> option Vec.

(** [_concept_embeddings_cache], the one piece of state mutated after
    construction; it is threaded through the scoring functions. *)
Definition Cache : Type := Dict.t Vec.

Module ConceptAssigner.

Record t : Type := mk {
  keyword_weight : R;
  embedding_weight : R;
  min_confidence : R;
  use_embeddings : bool;
  embedding_model : option Encoder
}.

End ConceptAssigner.

(** The environment of the constructor: whether [sentence_transformers]
    imported, and what [SentenceTransformer(name)] does ([None]: raises). *)
Record Backend : Type := {
  EMBEDDINGS_AVAILABLE : bool;
  SentenceTransformer : string -> option Encoder
}.

(** Keyword arguments of [ConceptAssigner.__init__]; [None] takes the
    default of the signature. *)
Record AssignerArgs : Type := {
  arg_embedding_model_name : option string;
  arg_keyword_weight : option R;
  arg_embedding_weight : option R;
  arg_min_confidence : option R;
  arg_use_embeddings : option bool
}.

Definition no_args : AssignerArgs :=
  {| arg_embedding_model_name := None; arg_keyword_weight := None;
     arg_embedding_weight := None; arg_min_confidence := None;
     arg_use_embeddings := None |}.

(** [ConceptAssigner.__init__]; the cache starts empty. *)
Definition ConceptAssigner__init__ (env : Backend) (args : AssignerArgs)
  : ConceptAssigner.t * Cache :=
  let embedding_model_name :=
    or_default (arg_embedding_model_name args) "all-MiniLM-L6-v2" in
  let keyword_weight := or_default (arg_keyword_weight args) (4 / 10)%R in
  let embedding_weight := or_default (arg_embedding_weight args) (6 / 10)%R in
  let min_confidence := or_default (arg_min_confidence args) (5 / 10)%R in
  let use_embeddings :=
    or_default (arg_use_embeddings args) true && EMBEDDINGS_AVAILABLE env in
  let '(use_embeddings, embedding_model) :=
    if use_embeddings then
      match SentenceTransformer env embedding_model_name with
      | Some m => (true, Some m)
      | None => (false, None)
      end
    else (false, None) in
  (ConceptAssigner.mk keyword_weight embedding_weight min_confidence
                      use_embeddings embedding_model,
   []).

Section Assigner.

Variable self : ConceptAssigner.t.

(** [self.embedding_model.encode(text)]; with no model the attribute
    access raises. *)
Definition encode (text : string) : option Vec :=
  match ConceptAssigner.embedding_model self with
  | Some m => m text
  | None => None
  end.

Definition concept_text (concept : Concept.t) : string :=
  Concept.description concept ++ ". "
  ++ Str.join " " (firstn 3 (Concept.inclusion_criteria concept))
  ++ " " ++ Str.join " " (firstn 10 (Concept.seed_terms concept)).

Definition _get_concept_embedding (cache : Cache) (concept : Concept.t)
  : PyResult Vec * Cache :=
  match Dict.get (Concept.id concept) cache with
  | Some embedding => (Return embedding, cache)
  | None =>
      if negb (ConceptAssigner.use_embeddings self) then
        (Raise (ValueError "Embeddings not available"), cache)
      else
        match encode (concept_text concept) with
        | None => (Raise BackendError, cache)
        | Some embedding =>
            (Return embedding, Dict.set (Concept.id concept) embedding cache)
        end
  end.

(** [_embedding_similarity_score]: every exception inside the [try] gives
    0.0; [max(0.0, nan)] is 0.0.  The result is clamped from below only, as
    in the source, and is the exact value of the expression; the value as
    it is computed is [Rounded.embedding_score_rounded]. *)
Definition _embedding_similarity_score (cache : Cache) (text : string)
    (concept : Concept.t) : R * Cache :=
  if negb (ConceptAssigner.use_embeddings self) then (0%R, cache)
  else
    match encode text with
    | None => (0%R, cache)
    | Some text_embedding =>
        match _get_concept_embedding cache concept with
        | (Raise _, cache') => (0%R, cache')
        | (Return concept_embedding, cache') =>
            match cosine text_embedding concept_embedding with
            | Raise _ => (0%R, cache')
            | Return None => (0%R, cache')
            | Return (Some similarity) => (Rmax 0 similarity, cache')
            end
        end
    end.

(** [_check_exclusion_criteria]: computes the normalized text and a list
    of indicators, uses neither, and returns [False]. *)
Definition _check_exclusion_criteria (text : string) (concept : Concept.t)
  : bool :=
  let normalized_text := _normalize_text_for_keywords text in
  let exclusion_indicators :=
    ["only mention"; "in passing"; "brief mention"; "without substantive"] in
  false.

(** [text[:200] + '...' if len(text) > 200 else text] *)
Definition text_preview (text : string) : string :=
  if (200 <? String.length text)%nat
  then String.substring 0 200 text ++ "..."
  else text.

Definition assign_concept (cache : Cache) (text_segment : TextSegment.t)
    (concept : Concept.t) : option ConceptInstance.t * Cache :=
  let text := TextSegment.text text_segment in
  if _check_exclusion_criteria text concept then (None, cache)
  else
    let keyword_score := _keyword_match_score text concept in
    let '(embedding_score, cache) :=
      if ConceptAssigner.use_embeddings self
      then _embedding_similarity_score cache text concept
      else (0%R, cache) in
    let '(combined_score, assignment_method) :=
      if ConceptAssigner.use_embeddings self then
        ((ConceptAssigner.keyword_weight self * Q2R keyword_score
          + ConceptAssigner.embedding_weight self * embedding_score)%R,
         "hybrid")
      else (Q2R keyword_score, "keyword") in
    if Rlt_dec combined_score (ConceptAssigner.min_confidence self) then
      (None, cache)
    else
      (Some {|
         ConceptInstance.concept_id := Concept.id concept;
         ConceptInstance.text_segment_id := TextSegment.id text_segment;
         ConceptInstance.confidence := combined_score;
         ConceptInstance.assignment_method := assignment_method;
         ConceptInstance.metadata :=
           [("keyword_score", PyFloat (Q2R keyword_score));
            ("embedding_score",
             if ConceptAssigner.use_embeddings self
             then PyFloat embedding_score else PyNone);
            ("text_length", PyInt (Z.of_nat (String.length text)));
            ("text_preview", PyStr (text_preview text))]
       |}, cache).

(** The list comprehension [[get_concept_by_id(cid) for cid in ids]]: the
    first unknown id raises. *)
Fixpoint resolve_concepts (concept_ids : list string)
  : PyResult (list Concept.t) :=
  match concept_ids with
  | [] => Return []
  | cid :: rest =>
      match get_concept_by_id cid with
      | Raise e => Raise e
      | Return c =>
          match resolve_concepts rest with
          | Raise e => Raise e
          | Return cs => Return (c :: cs)
          end
      end
  end.

(** The inner loop of [assign_all_concepts]; the state is
    [(instances, cache)]. *)
Definition assign_segment (text_segment : TextSegment.t)
    (st : list ConceptInstance.t * Cache) (concept : Concept.t)
  : list ConceptInstance.t * Cache :=
  let '(instances, cache) := st in
  match assign_concept cache text_segment concept with
  | (Some instance, cache') => (instances ++ [instance], cache')
  | (None, cache') => (instances, cache')
  end.

Definition assign_all_concepts (cache : Cache)
    (text_segments : list TextSegment.t) (concept_ids : list string)
  : PyResult (list ConceptInstance.t) * Cache :=
  match resolve_concepts concept_ids with
  | Raise e => (Raise e, cache)
  | Return concepts =>
      let '(instances, cache') :=
        fold_left (fun st segment =>
                     fold_left (assign_segment segment) concepts st)
                  text_segments ([], cache) in
      (Return instances, cache')
  end.

End Assigner.

(** [assign_concepts_to_segments]: the helper builds its own assigner; its
    threshold defaults to 0.15. *)
Definition assign_concepts_to_segments (env : Backend)
    (text_segments : list TextSegment.t) (concept_ids : list string)
    (min_confidence : option R) (use_embeddings : option bool)
  : PyResult (list ConceptInstance.t) :=
  let min_confidence := or_default min_confidence (15 / 100)%R in
  let use_embeddings := or_default use_embeddings true in
  let '(assigner, cache) :=
    ConceptAssigner__init__ env
      {| arg_embedding_model_name := None; arg_keyword_weight := None;
         arg_embedding_weight := None;
         arg_min_confidence := Some min_confidence;
         arg_use_embeddings := Some use_embeddings |} in
  fst (assign_all_concepts assigner cache text_segments concept_ids).

(* ================================================================== *)
(** ** Counting and ranking: [collections.Counter], [sorted] *)

(** The counting loop [for w in words: counts[w] = counts.get(w, 0) + 1],
    which is [Counter(words)] from an empty dictionary and the
    [defaultdict(int)] update of the lexical metric: one entry per distinct
    word, in order of first occurrence. *)
Definition count_into (counts : Dict.t nat) (words : list string)
  : Dict.t nat :=
  fold_left (fun c w => Dict.set w (S (or_default (Dict.get w c) 0%nat)) c)
            words counts.

Definition Counter (words : list string) : Dict.t nat := count_into [] words.

(** One insertion of the stable descending sort on the count. *)
Fixpoint insert_desc (x : string * nat) (l : list (string * nat))
  : list (string * nat) :=
  match l with
  | [] => [x]
  | y :: l' =>
      if (snd x <? snd y)%nat then y :: insert_desc x l' else x :: y :: l'
  end.

(** [sorted(items, key=lambda x: x[1], reverse=True)]: descending by count,
    equal counts keep their order in [items]. *)
Definition sorted_desc (items : list (string * nat)) : list (string * nat) :=
  fold_right insert_desc [] items.

(** [Counter.most_common(n)], that is [heapq.nlargest(n, items, key=count)],
    which the library documents as [sorted(items, key, reverse=True)[:n]]
    and which is empty for [n <= 0]. *)
Definition most_common (n : Z) (c : Dict.t nat) : list (string * nat) :=
  firstn (Z.to_nat n) (sorted_desc c).

(* ================================================================== *)
(** ** representation/representation_extraction.py *)

Module Representation.

Record t : Type := mk {
  concept_instance_id : string;
  embedding : option Vec;
  keywords : list string;
  frame_summary : option string;
  metadata : Dict.t PyVal
}.

End Representation.

Module RepresentationExtractor.

Record t : Type := mk {
  use_embeddings : bool;
  extract_keywords : bool;
  keyword_count : Z;
  embedding_model : option Encoder
}.

End RepresentationExtractor.

(** Keyword arguments of [RepresentationExtractor.__init__]. *)
Record ExtractorArgs : Type := {
  xarg_embedding_model_name : option string;
  xarg_use_embeddings : option bool;
  xarg_extract_keywords : option bool;
  xarg_keyword_count : option Z
}.

Definition no_extractor_args : ExtractorArgs :=
  {| xarg_embedding_model_name := None; xarg_use_embeddings := None;
     xarg_extract_keywords := None; xarg_keyword_count := None |}.

(** [RepresentationExtractor.__init__] *)
Definition RepresentationExtractor__init__ (env : Backend)
    (args : ExtractorArgs) : RepresentationExtractor.t :=
  let embedding_model_name :=
    or_default (xarg_embedding_model_name args) "all-MiniLM-L6-v2" in
  let use_embeddings :=
    or_default (xarg_use_embeddings args) true && EMBEDDINGS_AVAILABLE env in
  let extract_keywords := or_default (xarg_extract_keywords args) true in
  let keyword_count := or_default (xarg_keyword_count args) 10%Z in
  let '(use_embeddings, embedding_model) :=
    if use_embeddings then
      match SentenceTransformer env embedding_model_name with
      | Some m => (true, Some m)
      | None => (false, None)
      end
    else (false, None) in
  RepresentationExtractor.mk use_embeddings extract_keywords keyword_count
                             embedding_model.

(** The literal of [_extract_keywords]. *)
Definition stop_words : PySet.t :=
  ["the"; "a"; "an"; "and"; "or"; "but"; "in"; "on"; "at"; "to"; "for";
   "of"; "with"; "by"; "from"; "as"; "is"; "was"; "are"; "were"; "be";
   "been"; "being"; "have"; "has"; "had"; "do"; "does"; "did"; "will";
   "would"; "could"; "should"; "may"; "might"; "must"; "can"; "this";
   "that"; "these"; "those"; "it"; "its"; "they"; "them"; "their";
   "we"; "our"; "you"; "your"; "he"; "she"; "his"; "her"; "said";
   "says"; "say"; "according"; "also"; "more"; "most"; "very"; "much"].

(** [RepresentationExtractor._normalize_text] *)
Definition _normalize_text (text : string) : string :=
  Str.sub_punct (Str.lower text).

(** [RepresentationExtractor._extract_keywords]; [exclude_words = None]
    is the default of the signature. *)
Definition _extract_keywords (self : RepresentationExtractor.t)
    (text : string) (exclude_words : option (list string)) : list string :=
  if negb (RepresentationExtractor.extract_keywords self) then []
  else
    let stop_words :=
      match exclude_words with
      | Some (w :: ws) =>
          PySet.update (List.map Str.lower (w :: ws)) stop_words
      | _ => stop_words
      end in
    let normalized := _normalize_text text in
    let words := Str.split normalized in
    let words :=
      filter (fun w => (2 <? String.length w)%nat && negb (Str.mem w stop_words))
             words in
    let word_counts := Counter words in
    List.map fst
      (most_common (RepresentationExtractor.keyword_count self) word_counts).

(* ================================================================== *)
(** ** analysis/comparative_analysis.py *)

(** A row of [documents_df]; only the two columns the analyzer reads. *)
Module Document.

Record t : Type := mk {
  id : string;
  source_id : string
}.

End Document.

Record LexicalEntry : Type := {
  top_keywords : list string;
  keyword_counts : Dict.t nat
}.

Record CoverageEntry : Type := {
  document_count : nat;
  segment_count : nat;
  avg_confidence : R;
  min_confidence : R;
  max_confidence : R
}.

(** The [values] of a result, one shape per metric.  A similarity value
    of [None] is the float [nan]. *)
Inductive MetricValues : Type :=
| SimilarityValues (m : Dict.t (option R))
| LexicalValues (m : Dict.t LexicalEntry)
| CoverageValues (m : Dict.t CoverageEntry).

Inductive ResultMetadata : Type :=
| EmptyMetadata
| SimilarityMetadata (num_sources : nat) (embeddings_per_source : Dict.t nat).

Module ComparisonResult.

Record t : Type := mk {
  concept_id : string;
  sources : list string;
  metric_type : string;
  values : MetricValues;
  metadata : ResultMetadata
}.

End ComparisonResult.

(** [{rep.concept_instance_id: rep for rep in representations}] *)
Definition rep_lookup_of (representations : list Representation.t)
  : Dict.t Representation.t :=
  fold_left (fun d rep =>
               Dict.set (Representation.concept_instance_id rep) rep d)
            representations [].

(** The join every metric performs on an instance:
    [doc_id = instance.metadata.get('document_id')], skip when falsy,
    [doc = documents_df[documents_df['id'] == doc_id]], skip when empty,
    [doc.iloc[0]].  Document ids are strings, so a [doc_id] that is not a
    non-empty string is either falsy or selects no row. *)
Definition join_document (instance : ConceptInstance.t)
    (documents_df : list Document.t) : option (string * Document.t) :=
  match Dict.get "document_id" (ConceptInstance.metadata instance) with
  | Some (PyStr doc_id) =>
      if String.eqb doc_id "" then None
      else
        match filter (fun row => String.eqb (Document.id row) doc_id)
                     documents_df with
        | [] => None
        | row :: _ => Some (doc_id, row)
        end
  | _ => None
  end.

Definition _get_source_embeddings (representations : list Representation.t)
    (concept_instances : list ConceptInstance.t)
    (documents_df : list Document.t) : Dict.t (list Vec) :=
  let rep_lookup := rep_lookup_of representations in
  fold_left
    (fun source_embeddings instance =>
       match Dict.get (ConceptInstance.text_segment_id instance) rep_lookup with
       | None => source_embeddings
       | Some rep =>
           match Representation.embedding rep with
           | None => source_embeddings
           | Some embedding =>
               match join_document instance documents_df with
               | None => source_embeddings
               | Some (_, doc) =>
                   let source_id := Document.source_id doc in
                   Dict.set source_id
                     (or_default (Dict.get source_id source_embeddings) []
                      ++ [embedding])
                     source_embeddings
               end
           end
       end)
    concept_instances [].

(** The loop averaging the embeddings of each source. *)
Fixpoint average_sources (items : Dict.t (list Vec))
    (source_avg_embeddings : Dict.t Vec) : PyResult (Dict.t Vec) :=
  match items with
  | [] => Return source_avg_embeddings
  | (source_id, embeddings) :: rest =>
      match embeddings with
      | [] => average_sources rest source_avg_embeddings
      | _ :: _ =>
          match np_mean_axis0 embeddings with
          | None => Raise (ValueError "inhomogeneous shape")
          | Some avg_embedding =>
              average_sources rest
                (Dict.set source_id avg_embedding source_avg_embeddings)
          end
      end
  end.

(** [f"{source1} vs {source2}"] *)
Definition pair_key (source1 source2 : string) : string :=
  (source1 ++ " vs " ++ source2)%string.

(** The inner loop [for source2 in sources[i+1:]]. *)
Fixpoint similarity_row (avg : Dict.t Vec) (source1 : string)
    (later : list string) (similarity_matrix : Dict.t (option R))
  : PyResult (Dict.t (option R)) :=
  match later with
  | [] => Return similarity_matrix
  | source2 :: rest =>
      match Dict.get source1 avg, Dict.get source2 avg with
      | Some emb1, Some emb2 =>
          match cosine emb1 emb2 with
          | Raise e => Raise e
          | Return similarity =>
              similarity_row avg source1 rest
                (Dict.set (pair_key source1 source2) similarity
                          similarity_matrix)
          end
      | _, _ => Raise (ValueError "KeyError")
      end
  end.

(** The outer loop [for i, source1 in enumerate(sources)]. *)
Fixpoint similarity_rows (avg : Dict.t Vec) (sources : list string)
    (similarity_matrix : Dict.t (option R)) : PyResult (Dict.t (option R)) :=
  match sources with
  | [] => Return similarity_matrix
  | source1 :: later =>
      match similarity_row avg source1 later similarity_matrix with
      | Raise e => Raise e
      | Return m => similarity_rows avg later m
      end
  end.

(** [{s: len(source_embeddings[s]) for s in sources}] *)
Definition embeddings_per_source_of (source_embeddings : Dict.t (list Vec))
    (sources : list string) : Dict.t nat :=
  fold_left
    (fun d s =>
       Dict.set s (List.length (or_default (Dict.get s source_embeddings) []))
                d)
    sources [].

Definition calculate_source_similarity
    (representations : list Representation.t)
    (concept_instances : list ConceptInstance.t)
    (documents_df : list Document.t) (concept_id : string)
  : PyResult (option ComparisonResult.t) :=
  let source_embeddings :=
    _get_source_embeddings representations concept_instances documents_df in
  if (List.length source_embeddings <? 2)%nat then Return None
  else
    match average_sources source_embeddings [] with
    | Raise e => Raise e
    | Return source_avg_embeddings =>
        let sources := Dict.keys source_avg_embeddings in
        match similarity_rows source_avg_embeddings sources [] with
        | Raise e => Raise e
        | Return similarity_matrix =>
            Return (Some {|
              ComparisonResult.concept_id := concept_id;
              ComparisonResult.sources := sources;
              ComparisonResult.metric_type := "source_similarity";
              ComparisonResult.values := SimilarityValues similarity_matrix;
              ComparisonResult.metadata :=
                SimilarityMetadata (List.length sources)
                  (embeddings_per_source_of source_embeddings sources)
            |})
        end
    end.

(** Grouping of the keywords by source: the first loop of
    [analyze_lexical_patterns]. *)
Definition source_keywords_of (representations : list Representation.t)
    (concept_instances : list ConceptInstance.t)
    (documents_df : list Document.t) : Dict.t (Dict.t nat) :=
  let rep_lookup := rep_lookup_of representations in
  fold_left
    (fun source_keywords instance =>
       match Dict.get (ConceptInstance.text_segment_id instance) rep_lookup with
       | None => source_keywords
       | Some rep =>
           match Representation.keywords rep with
           | [] => source_keywords
           | _ :: _ =>
               match join_document instance documents_df with
               | None => source_keywords
               | Some (_, doc) =>
                   let source_id := Document.source_id doc in
                   Dict.set source_id
                     (count_into
                        (or_default (Dict.get source_id source_keywords) [])
                        (Representation.keywords rep))
                     source_keywords
               end
           end
       end)
    concept_instances [].

Definition analyze_lexical_patterns
    (representations : list Representation.t)
    (concept_instances : list ConceptInstance.t)
    (documents_df : list Document.t) (concept_id : string)
  : ComparisonResult.t :=
  let source_keywords :=
    source_keywords_of representations concept_instances documents_df in
  let lexical_data :=
    fold_left
      (fun lexical_data '(source_id, keyword_counts) =>
         let top_keywords := firstn 10 (sorted_desc keyword_counts) in
         Dict.set source_id
           {| top_keywords := List.map fst top_keywords;
              keyword_counts := top_keywords |}
           lexical_data)
      source_keywords [] in
  {| ComparisonResult.concept_id := concept_id;
     ComparisonResult.sources := Dict.keys source_keywords;
     ComparisonResult.metric_type := "lexical_patterns";
     ComparisonResult.values := LexicalValues lexical_data;
     ComparisonResult.metadata := EmptyMetadata |}.

(** The per-source accumulator of [analyze_coverage]. *)
Record SourceStats : Type := {
  documents : PySet.t;
  segments : nat;
  confidences : list R
}.

Definition new_stats : SourceStats :=
  {| documents := PySet.empty; segments := 0%nat; confidences := [] |}.

(** Grouping by source: the first loop of [analyze_coverage]. *)
Definition source_stats_of (concept_instances : list ConceptInstance.t)
    (documents_df : list Document.t) : Dict.t SourceStats :=
  fold_left
    (fun source_stats instance =>
       match join_document instance documents_df with
       | None => source_stats
       | Some (doc_id, doc) =>
           let source_id := Document.source_id doc in
           let stats := or_default (Dict.get source_id source_stats) new_stats in
           Dict.set source_id
             {| documents := PySet.add doc_id (documents stats);
                segments := S (segments stats);
                confidences :=
                  confidences stats ++ [ConceptInstance.confidence instance] |}
             source_stats
       end)
    concept_instances [].

(** [np.mean(xs)], [min(xs)], [max(xs)] on a list of floats.  The mean is
    the exact one; the rounded mean of equal numbers need not be that
    number, so nothing below compares an average with a minimum or a
    maximum. *)
Definition np_mean (xs : list R) : R :=
  (fold_left Rplus xs 0 / INR (List.length xs))%R.

Definition py_min (xs : list R) : R :=
  match xs with [] => 0%R | x :: xs' => fold_left Rmin xs' x end.

Definition py_max (xs : list R) : R :=
  match xs with [] => 0%R | x :: xs' => fold_left Rmax xs' x end.

Definition coverage_entry (stats : SourceStats) : CoverageEntry :=
  let nonempty := match confidences stats with [] => false | _ => true end in
  {| document_count := List.length (documents stats);
     segment_count := segments stats;
     avg_confidence := if nonempty then np_mean (confidences stats) else 0%R;
     min_confidence := if nonempty then py_min (confidences stats) else 0%R;
     max_confidence := if nonempty then py_max (confidences stats) else 0%R |}.

Definition analyze_coverage (concept_instances : list ConceptInstance.t)
    (documents_df : list Document.t) (concept_id : string)
  : ComparisonResult.t :=
  let source_stats := source_stats_of concept_instances documents_df in
  let coverage_data :=
    fold_left
      (fun coverage_data '(source_id, stats) =>
         Dict.set source_id (coverage_entry stats) coverage_data)
      source_stats [] in
  {| ComparisonResult.concept_id := concept_id;
     ComparisonResult.sources := Dict.keys source_stats;
     ComparisonResult.metric_type := "coverage";
     ComparisonResult.values := CoverageValues coverage_data;
     ComparisonResult.metadata := EmptyMetadata |}.

(* ================================================================== *)
(** ** Persisting instances between the two pipeline stages

    [save_concept_instances] writes one row per instance and
    [run_analysis.load_data] rebuilds the instances from the rows; the
    parquet file is taken to be read back as written. *)

Record SavedRow : Type := {
  row_concept_id : string;
  row_text_segment_id : string;
  row_document_id : option string;
  row_confidence : R;
  row_assignment_method : string;
  row_keyword_score : option PyVal;
  row_embedding_score : option PyVal;
  row_text_length : option PyVal;
  row_text_preview : option PyVal
}.

(** [{seg.id: seg for seg in text_segments}] *)
Definition segment_lookup_of (text_segments : list TextSegment.t)
  : Dict.t TextSegment.t :=
  fold_left (fun d seg => Dict.set (TextSegment.id seg) seg d)
            text_segments [].

(** The row [save_concept_instances] builds for one instance. *)
Definition saved_row (text_segments : list TextSegment.t)
    (instance : ConceptInstance.t) : SavedRow :=
  let segment :=
    Dict.get (ConceptInstance.text_segment_id instance)
             (segment_lookup_of text_segments) in
  {| row_concept_id := ConceptInstance.concept_id instance;
     row_text_segment_id := ConceptInstance.text_segment_id instance;
     row_document_id := option_map TextSegment.document_id segment;
     row_confidence := ConceptInstance.confidence instance;
     row_assignment_method := ConceptInstance.assignment_method instance;
     row_keyword_score :=
       Dict.get "keyword_score" (ConceptInstance.metadata instance);
     row_embedding_score :=
       Dict.get "embedding_score" (ConceptInstance.metadata instance);
     row_text_length :=
       Dict.get "text_length" (ConceptInstance.metadata instance);
     row_text_preview :=
       Dict.get "text_preview" (ConceptInstance.metadata instance) |}.

(** [float(x) if pd.notna(x) else None] *)
Definition float_or_none (v : option PyVal) : PyVal :=
  match v with
  | Some (PyFloat r) => PyFloat r
  | Some (PyInt z) => PyFloat (IZR z)
  | _ => PyNone
  end.

(** [int(x) if pd.notna(x) else 0] *)
Definition int_or_zero (v : option PyVal) : PyVal :=
  match v with
  | Some (PyInt z) => PyInt z
  | _ => PyInt 0
  end.

(** The instance [load_data] rebuilds from one row. *)
Definition loaded_row (row : SavedRow) : ConceptInstance.t :=
  {| ConceptInstance.concept_id := row_concept_id row;
     ConceptInstance.text_segment_id := row_text_segment_id row;
     ConceptInstance.confidence := row_confidence row;
     ConceptInstance.assignment_method := row_assignment_method row;
     ConceptInstance.metadata :=
       [("keyword_score", float_or_none (row_keyword_score row));
        ("embedding_score", float_or_none (row_embedding_score row));
        ("text_length", int_or_zero (row_text_length row));
        ("document_id",
         match row_document_id row with
         | Some doc_id => PyStr doc_id
         | None => PyNone
         end)] |}.

(* ================================================================== *)
(** ** representation_extraction.py: building the representations *)

(** A Python [bool] stored in metadata; [bool] is the subclass of [int]
    whose values are 1 and 0. *)
Definition py_bool (b : bool) : PyVal := PyInt (if b then 1 else 0).

(** [RepresentationExtractor.extract_representation]: a failing encoder
    (or a missing model) leaves [embedding = None]. *)
Definition extract_representation (self : RepresentationExtractor.t)
    (concept_instance : ConceptInstance.t) (text_segment : TextSegment.t)
  : Representation.t :=
  let text := TextSegment.text text_segment in
  let embedding :=
    if RepresentationExtractor.use_embeddings self then
      match RepresentationExtractor.embedding_model self with
      | Some m => m text
      | None => None
      end
    else None in
  let keywords :=
    if RepresentationExtractor.extract_keywords self
    then _extract_keywords self text None
    else [] in
  {| Representation.concept_instance_id :=
       ConceptInstance.text_segment_id concept_instance;
     Representation.embedding := embedding;
     Representation.keywords := keywords;
     Representation.frame_summary := None;
     Representation.metadata :=
       [("concept_id", PyStr (ConceptInstance.concept_id concept_instance));
        ("text_length", PyInt (Z.of_nat (String.length text)));
        ("keyword_count", PyInt (Z.of_nat (List.length keywords)));
        ("has_embedding",
         py_bool (match embedding with Some _ => true | None => false end));
        ("confidence", PyFloat (ConceptInstance.confidence concept_instance))]
  |}.

(** [RepresentationExtractor.extract_all_representations]: an instance
    whose segment is not in the table is skipped. *)
Definition extract_all_representations (self : RepresentationExtractor.t)
    (concept_instances : list ConceptInstance.t)
    (text_segments : list TextSegment.t) : list Representation.t :=
  let segment_lookup := segment_lookup_of text_segments in
  fold_left
    (fun representations instance =>
       match Dict.get (ConceptInstance.text_segment_id instance)
                      segment_lookup with
       | None => representations
       | Some segment =>
           representations ++ [extract_representation self instance segment]
       end)
    concept_instances [].

(* ================================================================== *)
(** ** run_analysis.py: the analysis of one concept

    The body of the loop [for concept_id in concept_ids] of [main]: the
    instances and representations are filtered for the concept, the three
    metrics are computed and the results that are truthy are collected (a
    result object always is, [None] is not). *)

Definition concept_insts_of (concept_instances : list ConceptInstance.t)
    (concept_id : string) : list ConceptInstance.t :=
  filter (fun inst => String.eqb (ConceptInstance.concept_id inst) concept_id)
         concept_instances.

Definition concept_reps_of (representations : list Representation.t)
    (concept_insts : list ConceptInstance.t) : list Representation.t :=
  filter
    (fun rep =>
       existsb (fun inst =>
                  String.eqb (ConceptInstance.text_segment_id inst)
                             (Representation.concept_instance_id rep))
               concept_insts)
    representations.

Definition analyze_concept (representations : list Representation.t)
    (concept_instances : list ConceptInstance.t)
    (documents_df : list Document.t) (concept_id : string)
  : PyResult (list ComparisonResult.t) :=
  let concept_insts := concept_insts_of concept_instances concept_id in
  let concept_reps := concept_reps_of representations concept_insts in
  match calculate_source_similarity concept_reps concept_insts documents_df
                                    concept_id with
  | Raise e => Raise e
  | Return similarity_result =>
      let all_results :=
        match similarity_result with
        | Some r => [r]
        | None => []
        end in
      let lexical_result :=
        analyze_lexical_patterns concept_reps concept_insts documents_df
                                 concept_id in
      let coverage_result :=
        analyze_coverage concept_insts documents_df concept_id in
      Return (all_results ++ [lexical_result] ++ [coverage_result])
  end.

(* ================================================================== *)
(** ** canonicalization/canonicalization.py: [TextCanonicalizer]

    The canonicalizer cuts a raw text into the segments the assigner
    reads.  [hashlib.md5] is taken as a given function on the key; the
    [metadata] of a segment (the segmentation method), which no later
    stage reads, is not part of the [TextSegment] record. *)

Module TextCanonicalizer.

Record t : Type := mk {
  min_segment_length : Z;
  max_segment_length : Z
}.

End TextCanonicalizer.

(** [TextCanonicalizer.__init__] *)
Definition TextCanonicalizer__init__
    (min_segment_length max_segment_length : option Z)
  : TextCanonicalizer.t :=
  TextCanonicalizer.mk (or_default min_segment_length 100%Z)
                       (or_default max_segment_length 2000%Z).

(** [hashlib.md5(key.encode('utf-8')).hexdigest()] as a function of
    [key]. *)
Record Hashlib : Type := {
  md5_hexdigest : string -> string
}.

(** [len(s)] and [str(n)]. *)
Definition py_len (s : string) : Z := Z.of_nat (String.length s).

Definition py_str (n : nat) : string :=
  DecimalString.NilEmpty.string_of_uint (Nat.to_uint n).

Definition newline : ascii := "010"%char.

Definition paragraph_break : string :=
  String newline (String newline EmptyString).

(** [re.sub(r' +', ' ', text)]: a space followed by a space is dropped. *)
Fixpoint collapse_spaces (s : string) : string :=
  match s with
  | EmptyString => EmptyString
  | String c s' =>
      match s' with
      | String c' _ =>
          if Ascii.eqb c " " && Ascii.eqb c' " " then collapse_spaces s'
          else String c (collapse_spaces s')
      | EmptyString => String c EmptyString
      end
  end.

(** What the scan of [re.sub(r'\n\s*\n+', '\n\n', text)] holds back after
    a newline: whether a further newline has been read, so that the
    pattern matches, and the whitespace read since the last newline,
    which a match leaves in place. *)
Definition flush_gap (gap : option (bool * string)) : string :=
  match gap with
  | None => EmptyString
  | Some (closed, tail) =>
      ((if closed then paragraph_break else String newline EmptyString)
       ++ tail)%string
  end.

(** [re.sub(r'\n\s*\n+', '\n\n', text)], left to right.  A match starts
    at a newline and, [\s*] being greedy, ends at the last newline of the
    whitespace that follows; without a second newline there is no match
    and the text is kept. *)
Fixpoint sub_breaks (gap : option (bool * string)) (s : string) : string :=
  match s with
  | EmptyString => flush_gap gap
  | String c s' =>
      match gap with
      | None =>
          if Ascii.eqb c newline then sub_breaks (Some (false, EmptyString)) s'
          else String c (sub_breaks None s')
      | Some (closed, tail) =>
          if Ascii.eqb c newline then sub_breaks (Some (true, EmptyString)) s'
          else if Str.is_space_char c
               then sub_breaks (Some (closed, tail ++ String c EmptyString)
                                %string) s'
               else (flush_gap gap ++ String c (sub_breaks None s'))%string
      end
  end.

(** [s.lstrip()], [s.rstrip()], [s.strip()] *)
Fixpoint lstrip (s : string) : string :=
  match s with
  | EmptyString => EmptyString
  | String c s' => if Str.is_space_char c then lstrip s' else s
  end.

Fixpoint rstrip (s : string) : string :=
  match s with
  | EmptyString => EmptyString
  | String c s' =>
      match rstrip s' with
      | EmptyString =>
          if Str.is_space_char c then EmptyString else String c EmptyString
      | r => String c r
      end
  end.

Definition strip (s : string) : string := rstrip (lstrip s).

(** [TextCanonicalizer.normalize_whitespace] *)
Definition normalize_whitespace (text : string) : string :=
  let text := collapse_spaces text in
  let text := sub_breaks None text in
  strip text.

(** A character put in front of the first piece of a split. *)
Definition cons_char (c : ascii) (pieces : list string) : list string :=
  match pieces with
  | [] => [String c EmptyString]
  | p :: ps => String c p :: ps
  end.

(** [text.split('\n\n')] *)
Fixpoint split_paragraphs (s : string) : list string :=
  match s with
  | EmptyString => [EmptyString]
  | String c s' =>
      match s' with
      | String c' s'' =>
          if Ascii.eqb c newline && Ascii.eqb c' newline
          then EmptyString :: split_paragraphs s''
          else cons_char c (split_paragraphs s')
      | EmptyString => [String c EmptyString]
      end
  end.

(** The character class [[.!?]]. *)
Definition is_sentence_end (c : ascii) : bool :=
  Ascii.eqb c "." || Ascii.eqb c "!" || Ascii.eqb c "?".

(** Where the scan of [re.split(r'(?<=[.!?])\s+', para)] stands: in the
    text, knowing whether the previous character ends a sentence, or in
    the whitespace of a separator. *)
Inductive SplitScan : Type :=
| InText (after_end : bool)
| InSeparator.

(** [re.split(r'(?<=[.!?])\s+', para)] from a scan position; a separator
    is a maximal run of whitespace right after [.], [!] or [?]. *)
Fixpoint split_sentences_from (scan : SplitScan) (s : string) : list string :=
  match s with
  | EmptyString => [EmptyString]
  | String c s' =>
      match scan with
      | InText after_end =>
          if after_end && Str.is_space_char c
          then EmptyString :: split_sentences_from InSeparator s'
          else cons_char c
                 (split_sentences_from (InText (is_sentence_end c)) s')
      | InSeparator =>
          if Str.is_space_char c then split_sentences_from InSeparator s'
          else cons_char c
                 (split_sentences_from (InText (is_sentence_end c)) s')
      end
  end.

Definition split_sentences (para : string) : list string :=
  split_sentences_from (InText false) para.

(** [TextCanonicalizer._generate_segment_id] *)
Definition _generate_segment_id (hashlib : Hashlib) (document_id : string)
    (paragraph_idx segment_idx : nat) : string :=
  let key :=
    (document_id ++ ":para_" ++ py_str paragraph_idx
     ++ ":seg_" ++ py_str segment_idx)%string in
  md5_hexdigest hashlib key.

(** [segments.append(TextSegment(id=seg_id, document_id=document_id,
    text=..., position=len(segments)))] with
    [seg_id = self._generate_segment_id(document_id, idx, len(segments))]. *)
Definition append_segment (hashlib : Hashlib) (document_id : string)
    (idx : nat) (text : string) (segs : list TextSegment.t)
  : list TextSegment.t :=
  let seg_id :=
    _generate_segment_id hashlib document_id idx (List.length segs) in
  segs ++ [TextSegment.mk seg_id document_id text
                          (Z.of_nat (List.length segs))].

(** The block that saves the current chunk, which
    [segment_by_paragraphs] has twice. *)
Definition save_chunk (self : TextCanonicalizer.t) (hashlib : Hashlib)
    (document_id : string) (idx : nat) (current_chunk : list string)
    (segs : list TextSegment.t) : list TextSegment.t :=
  let chunk_text := Str.join " " current_chunk in
  if (TextCanonicalizer.min_segment_length self <=? py_len chunk_text)%Z
  then append_segment hashlib document_id idx chunk_text segs
  else segs.

(** The body of [for sentence in sentences]; the state is
    [(segments, current_chunk, current_length)]. *)
Definition chunk_step (self : TextCanonicalizer.t) (hashlib : Hashlib)
    (document_id : string) (idx : nat)
    (st : list TextSegment.t * list string * Z) (sentence : string)
  : list TextSegment.t * list string * Z :=
  let '(segs, current_chunk, current_length) := st in
  let sentence := strip sentence in
  match sentence with
  | EmptyString => st
  | String _ _ =>
      if (TextCanonicalizer.max_segment_length self
          <? current_length + py_len sentence)%Z
         && match current_chunk with [] => false | _ :: _ => true end
      then (save_chunk self hashlib document_id idx current_chunk segs,
            [sentence], py_len sentence)
      else (segs, current_chunk ++ [sentence],
            (current_length + py_len sentence)%Z)
  end.

(** The body of [for idx, para in enumerate(paragraphs)]. *)
Definition paragraph_step (self : TextCanonicalizer.t) (hashlib : Hashlib)
    (document_id : string) (segs : list TextSegment.t)
    (entry : nat * string) : list TextSegment.t :=
  let '(idx, para) := entry in
  let para := strip para in
  if (py_len para <? TextCanonicalizer.min_segment_length self)%Z then segs
  else if (TextCanonicalizer.max_segment_length self <? py_len para)%Z then
    let sentences := split_sentences para in
    let '(segs, current_chunk, _) :=
      fold_left (chunk_step self hashlib document_id idx) sentences
                (segs, [], 0%Z) in
    match current_chunk with
    | [] => segs
    | _ :: _ => save_chunk self hashlib document_id idx current_chunk segs
    end
  else append_segment hashlib document_id idx para segs.

(** [enumerate(xs)] *)
Definition enumerate {A : Type} (xs : list A) : list (nat * A) :=
  combine (seq 0 (List.length xs)) xs.

(** [TextCanonicalizer.segment_by_paragraphs] *)
Definition segment_by_paragraphs (self : TextCanonicalizer.t)
    (hashlib : Hashlib) (text document_id : string) : list TextSegment.t :=
  let text := normalize_whitespace text in
  let paragraphs := split_paragraphs text in
  fold_left (paragraph_step self hashlib document_id)
            (enumerate paragraphs) [].

(** [TextCanonicalizer.canonicalize_document] *)
Definition canonicalize_document (self : TextCanonicalizer.t)
    (hashlib : Hashlib) (document_id raw_text : string)
  : list TextSegment.t :=
  segment_by_paragraphs self hashlib raw_text document_id.

(** [concept_assignment.canonicalize_documents]; a row of the frame is
    given with its [raw_text] column. *)
Definition canonicalize_documents (hashlib : Hashlib)
    (df : list (Document.t * string)) : list TextSegment.t :=
  let canonicalizer := TextCanonicalizer__init__ None None in
  fold_left
    (fun all_segments row =>
       all_segments
       ++ canonicalize_document canonicalizer hashlib
            (Document.id (fst row)) (snd row))
    df [].

(* ================================================================== *)
(** ** concept_assignment.py: the choice of concepts in
    [run_concept_assignment] *)

(** [[concept.id for concept in CONCEPTS.values()]] *)
Definition all_concept_ids : list string :=
  List.map (fun kv => Concept.id (snd kv)) CONCEPTS.

(** The first lines of [run_concept_assignment]: with [use_all_concepts]
    (the default) or without a list, every defined concept is taken;
    otherwise the ids that are not defined are dropped; no id left is an
    error. *)
Definition select_concept_ids (concept_ids : option (list string))
    (use_all_concepts : option bool) : PyResult (list string) :=
  let use_all_concepts := or_default use_all_concepts true in
  let concept_ids :=
    match concept_ids with
    | Some ids =>
        if use_all_concepts then all_concept_ids
        else filter (fun cid => Str.mem cid (Dict.keys CONCEPTS)) ids
    | None => all_concept_ids
    end in
  match concept_ids with
  | [] => Raise (ValueError "No valid concepts to assign")
  | _ :: _ => Return concept_ids
  end.

(* ================================================================== *)
(** ** ingestion/ingestion.py: deduplication in [DocumentIngester]

    What the network returns is an input: for each source, the articles
    its fetch produced (none for a source of unknown type).  Of an
    article and of a document only the fields the later stages read are
    kept: the url, from which the id is derived, and the raw text; a
    document is a row of the frame with its [raw_text] column. *)

Record Article : Type := {
  article_url : string;
  article_raw_text : string
}.

(** [DocumentIngester.generate_document_id] *)
Definition generate_document_id (hashlib : Hashlib) (url source_id : string)
  : string :=
  md5_hexdigest hashlib (source_id ++ ":" ++ url)%string.

(** [DocumentIngester.create_document] *)
Definition create_document (hashlib : Hashlib) (article_data : Article)
    (source_id : string) : Document.t * string :=
  let url := article_url article_data in
  let doc_id := generate_document_id hashlib url source_id in
  (Document.mk doc_id source_id, article_raw_text article_data).

(** [DocumentIngester.ingest_source] from the fetched articles on; the
    state is [(new_documents, self.existing_ids)]. *)
Definition ingest_source (hashlib : Hashlib) (source_id : string)
    (articles : list Article) (existing_ids : PySet.t)
  : list (Document.t * string) * PySet.t :=
  fold_left
    (fun '(new_documents, existing_ids) article =>
       let document := create_document hashlib article source_id in
       if Str.mem (Document.id (fst document)) existing_ids
       then (new_documents, existing_ids)
       else (new_documents ++ [document],
             PySet.add (Document.id (fst document)) existing_ids))
    articles ([], existing_ids).

(** [DocumentIngester.ingest_all_sources] on an ingester created over the
    stored frame: [existing_ids] starts as the set of the stored ids, and
    the frame returned is the stored one followed by the new documents. *)
Definition ingest_all_sources (hashlib : Hashlib)
    (existing_documents : list (Document.t * string))
    (fetched : list (string * list Article)) : list (Document.t * string) :=
  let existing_ids :=
    PySet.of_list
      (List.map (fun row => Document.id (fst row)) existing_documents) in
  let '(all_new_documents, _) :=
    fold_left
      (fun '(all_new_documents, existing_ids) '(source_id, articles) =>
         let '(new_docs, existing_ids) :=
           ingest_source hashlib source_id articles existing_ids in
         (all_new_documents ++ new_docs, existing_ids))
      fetched ([], existing_ids) in
  existing_documents ++ all_new_documents.

(* ================================================================== *)
(** * Vocabulary of the statements and concrete inputs *)

(** ** The assigner *)

(** The sentence of the docstring of [_keyword_match_score]. *)
Definition example_text : string :=
  "The income inequality has grown, and the wealth gap is widening.".

(** Its seed terms. *)
Definition example_seed_terms : list string :=
  ["income inequality"; "wealth gap"; "inequality"].

(** Steps 2 to 4 of [assign_concept]: the blended score. *)
Definition combined_score (self : ConceptAssigner.t) (cache : Cache)
    (text : string) (concept : Concept.t) : R :=
  if ConceptAssigner.use_embeddings self then
    (ConceptAssigner.keyword_weight self * Q2R (_keyword_match_score text concept)
     + ConceptAssigner.embedding_weight self
       * fst (_embedding_similarity_score self cache text concept))%R
  else Q2R (_keyword_match_score text concept).

(** The cache after scoring one pair. *)
Definition cache_after (self : ConceptAssigner.t) (cache : Cache)
    (text : string) (concept : Concept.t) : Cache :=
  if ConceptAssigner.use_embeddings self
  then snd (_embedding_similarity_score self cache text concept)
  else cache.

(** The instance [assign_concept] builds once the threshold is passed. *)
Definition instance_of (self : ConceptAssigner.t) (cache : Cache)
    (text_segment : TextSegment.t) (concept : Concept.t)
  : ConceptInstance.t :=
  let text := TextSegment.text text_segment in
  {| ConceptInstance.concept_id := Concept.id concept;
     ConceptInstance.text_segment_id := TextSegment.id text_segment;
     ConceptInstance.confidence := combined_score self cache text concept;
     ConceptInstance.assignment_method :=
       if ConceptAssigner.use_embeddings self then "hybrid" else "keyword";
     ConceptInstance.metadata :=
       [("keyword_score", PyFloat (Q2R (_keyword_match_score text concept)));
        ("embedding_score",
         if ConceptAssigner.use_embeddings self
         then PyFloat (fst (_embedding_similarity_score self cache text concept))
         else PyNone);
        ("text_length", PyInt (Z.of_nat (String.length text)));
        ("text_preview", PyStr (text_preview text))] |}.

(** An environment without [sentence_transformers]. *)
Definition keyword_only_backend : Backend :=
  {| EMBEDDINGS_AVAILABLE := false; SentenceTransformer := fun _ => None |}.

(** A concept with one seed term and a segment that mentions it: the
    keyword score is 0.3 + 0.1. *)
Definition one_term_concept : Concept.t :=
  Concept.mk "c1" "Inequality" "inequality" [] [] ["inequality"].

(** The segment. *)
Definition one_term_segment : TextSegment.t :=
  TextSegment.mk "seg1" "doc1" "Rising inequality worries voters." 0.

(** The same assigner with another threshold. *)
Definition with_min_confidence (t : R) (self : ConceptAssigner.t)
  : ConceptAssigner.t :=
  ConceptAssigner.mk (ConceptAssigner.keyword_weight self)
                     (ConceptAssigner.embedding_weight self)
                     t
                     (ConceptAssigner.use_embeddings self)
                     (ConceptAssigner.embedding_model self).

(** Loop states of two runs that differ in the threshold only: the same
    cache, and the stricter run holds a subset of the instances. *)
Definition run_below (high low : list ConceptInstance.t * Cache) : Prop :=
  incl (fst high) (fst low) /\ snd high = snd low.

(** [ConceptAssigner(min_confidence=0.15, use_embeddings=False)] *)
Definition keyword_only_args : AssignerArgs :=
  {| arg_embedding_model_name := None; arg_keyword_weight := None;
     arg_embedding_weight := None; arg_min_confidence := Some (15 / 100)%R;
     arg_use_embeddings := Some false |}.

(** The assigner those arguments build. *)
Definition keyword_only_assigner : ConceptAssigner.t :=
  fst (ConceptAssigner__init__ keyword_only_backend keyword_only_args).

(** A backend whose model maps every text to the same unit vector. *)
Definition constant_backend : Backend :=
  {| EMBEDDINGS_AVAILABLE := true;
     SentenceTransformer := fun _ => Some (fun _ => Some [1%R; 0%R]) |}.

(** [ConceptAssigner(min_confidence=0.15)] on that backend. *)
Definition hybrid_assigner : ConceptAssigner.t :=
  fst (ConceptAssigner__init__ constant_backend
         {| arg_embedding_model_name := None; arg_keyword_weight := None;
            arg_embedding_weight := None;
            arg_min_confidence := Some (15 / 100)%R;
            arg_use_embeddings := None |}).

(** ** The comparative analyzer *)

(** An instance with its [concept_id] field rewritten. *)
Definition relabel (g : ConceptInstance.t -> string)
    (instance : ConceptInstance.t) : ConceptInstance.t :=
  ConceptInstance.mk (g instance)
                     (ConceptInstance.text_segment_id instance)
                     (ConceptInstance.confidence instance)
                     (ConceptInstance.assignment_method instance)
                     (ConceptInstance.metadata instance).

(** A result with its [concept_id] field rewritten. *)
Definition with_label (concept_id : string) (r : ComparisonResult.t)
  : ComparisonResult.t :=
  ComparisonResult.mk concept_id
                      (ComparisonResult.sources r)
                      (ComparisonResult.metric_type r)
                      (ComparisonResult.values r)
                      (ComparisonResult.metadata r).

(** The same on the outcome of the similarity metric. *)
Definition with_label_result (concept_id : string)
    (r : PyResult (option ComparisonResult.t))
  : PyResult (option ComparisonResult.t) :=
  match r with
  | Return (Some c) => Return (Some (with_label concept_id c))
  | other => other
  end.

(** The source an instance is grouped under: the [source_id] of the first
    row whose id is the instance's [metadata['document_id']]. *)
Definition metadata_source (documents_df : list Document.t)
    (instance : ConceptInstance.t) : option string :=
  option_map (fun p => Document.source_id (snd p))
             (join_document instance documents_df).

(** Whether the join of an instance succeeds. *)
Definition joins (documents_df : list Document.t)
    (instance : ConceptInstance.t) : bool :=
  match join_document instance documents_df with
  | Some _ => true
  | None => false
  end.

(** Whether an instance is grouped under [source]. *)
Definition from_source (documents_df : list Document.t) (source : string)
    (instance : ConceptInstance.t) : bool :=
  match metadata_source documents_df instance with
  | Some s => String.eqb s source
  | None => false
  end.

(** The embedding, if any, of the representation looked up for an
    instance. *)
Definition embedding_of (representations : list Representation.t)
    (instance : ConceptInstance.t) : list Vec :=
  match Dict.get (ConceptInstance.text_segment_id instance)
                 (rep_lookup_of representations) with
  | Some rep =>
      match Representation.embedding rep with
      | Some e => [e]
      | None => []
      end
  | None => []
  end.

(** The keywords of the representation looked up for an instance. *)
Definition keywords_of (representations : list Representation.t)
    (instance : ConceptInstance.t) : list string :=
  match Dict.get (ConceptInstance.text_segment_id instance)
                 (rep_lookup_of representations) with
  | Some rep => Representation.keywords rep
  | None => []
  end.

(** What a group holds after more items arrive: nothing new leaves the
    entry as it was, absent or not. *)
Definition extend {A B : Type} (grow : B -> list A -> B) (empty : B)
    (entry : option B) (items : list A) : option B :=
  match items with
  | [] => entry
  | _ :: _ => Some (grow (or_default entry empty) items)
  end.

(** The document id and the per-source accumulation of the coverage
    metric. *)
Definition joined_doc_id (documents_df : list Document.t)
    (instance : ConceptInstance.t) : string :=
  match join_document instance documents_df with
  | Some (doc_id, _) => doc_id
  | None => EmptyString
  end.

(** The statistics of a source after more joined instances. *)
Definition grow_stats (documents_df : list Document.t) (stats : SourceStats)
    (instances : list ConceptInstance.t) : SourceStats :=
  fold_left
    (fun st instance =>
       {| documents :=
            PySet.add (joined_doc_id documents_df instance) (documents st);
          segments := S (segments st);
          confidences :=
            confidences st ++ [ConceptInstance.confidence instance] |})
    instances stats.

(** The coverage entries of a result. *)
Definition coverage_values (r : ComparisonResult.t) : Dict.t CoverageEntry :=
  match ComparisonResult.values r with
  | CoverageValues m => m
  | _ => []
  end.

(** The join C1 describes: from the instance to its segment, from the
    segment to the document row, to the row's source. *)
Definition segment_join (text_segments : list TextSegment.t)
    (documents_df : list Document.t) (instance : ConceptInstance.t)
  : option string :=
  match find (fun seg => String.eqb (TextSegment.id seg)
                           (ConceptInstance.text_segment_id instance))
             text_segments with
  | None => None
  | Some seg =>
      match find (fun row => String.eqb (Document.id row)
                               (TextSegment.document_id seg))
                 documents_df with
      | None => None
      | Some row => Some (Document.source_id row)
      end
  end.

(** The document of [one_term_segment] and a representation of that
    segment. *)
Definition one_document : list Document.t := [Document.mk "doc1" "outlet_a"].

(** The representation. *)
Definition one_representation : list Representation.t :=
  [Representation.mk "seg1" (Some [1%R; 0%R]) ["inequality"; "voters"] None []].

(** The sources of the instances that contribute an embedding, one entry
    per contributing instance. *)
Definition embedding_sources (representations : list Representation.t)
    (concept_instances : list ConceptInstance.t)
    (documents_df : list Document.t) : list string :=
  flat_map
    (fun instance =>
       match embedding_of representations instance,
             metadata_source documents_df instance with
       | _ :: _, Some s => [s]
       | _, _ => []
       end)
    concept_instances.

(** All embeddings have length [dim]. *)
Definition uniform_dim (dim : nat) (representations : list Representation.t)
  : Prop :=
  forall rep e,
    In rep representations ->
    Representation.embedding rep = Some e ->
    List.length e = dim.

(** A group [np.mean(_, axis=0)] accepts: non-empty, all of length [dim]. *)
Definition good_group (dim : nat) (group : list Vec) : Prop :=
  group <> [] /\ Forall (fun e => List.length e = dim) group.

(** The average of a group; [[]] stands for a failed [np.mean]. *)
Definition mean_vec (group : list Vec) : Vec :=
  or_default (np_mean_axis0 group) [].

(** The unordered pairs of a source list, in the order the two nested
    loops visit them. *)
Fixpoint pairs_of (sources : list string) : list (string * string) :=
  match sources with
  | [] => []
  | source1 :: later => List.map (pair source1) later ++ pairs_of later
  end.

(** The value stored for a pair, given the averaged embeddings. *)
Definition cosine_between (avg : Dict.t Vec) (p : string * string)
  : option R :=
  let emb1 := or_default (Dict.get (fst p) avg) [] in
  let emb2 := or_default (Dict.get (snd p) avg) [] in
  quotient (dot_sum emb1 emb2) (np_norm emb1 * np_norm emb2).

(** One assignment [similarity_matrix[key] = float(similarity)]. *)
Definition set_pair (avg : Dict.t Vec) (m : Dict.t (option R))
    (p : string * string) : Dict.t (option R) :=
  Dict.set (pair_key (fst p) (snd p)) (cosine_between avg p) m.

(** A source with an averaged embedding of length [dim]. *)
Definition averaged (dim : nat) (avg : Dict.t Vec) (s : string) : Prop :=
  exists e, Dict.get s avg = Some e /\ List.length e = dim.

(** The similarity entries of a result. *)
Definition similarity_values (r : ComparisonResult.t) : Dict.t (option R) :=
  match ComparisonResult.values r with
  | SimilarityValues m => m
  | _ => []
  end.

(** The averaged embedding of each source with at least one embedding. *)
Definition source_averages (representations : list Representation.t)
    (concept_instances : list ConceptInstance.t)
    (documents_df : list Document.t) : Dict.t Vec :=
  List.map (fun '(k, group) => (k, mean_vec group))
           (_get_source_embeddings representations concept_instances
                                   documents_df).

(** The key of a pair. *)
Definition key_of (p : string * string) : string :=
  pair_key (fst p) (snd p).

(** An instance as [run_analysis.load_data] rebuilds it, with the
    document id among its metadata. *)
Definition loaded_instance (segment_id doc_id : string) : ConceptInstance.t :=
  ConceptInstance.mk "c1" segment_id (4 / 10)%R "keyword"
                     [("keyword_score", PyFloat (4 / 10)%R);
                      ("embedding_score", PyNone);
                      ("text_length", PyInt 120);
                      ("document_id", PyStr doc_id)].

(** A representation with embedding [e]. *)
Definition embedded (segment_id : string) (e : Vec) : Representation.t :=
  Representation.mk segment_id (Some e) ["inequality"] None [].

(** Four sources whose pair keys collide. *)
Definition four_documents : list Document.t :=
  [Document.mk "d1" "a vs b"; Document.mk "d2" "c";
   Document.mk "d3" "a"; Document.mk "d4" "b vs c"].

(** One instance per source. *)
Definition four_instances : list ConceptInstance.t :=
  [loaded_instance "s1" "d1"; loaded_instance "s2" "d2";
   loaded_instance "s3" "d3"; loaded_instance "s4" "d4"].

(** One embedding per instance. *)
Definition four_representations : list Representation.t :=
  [embedded "s1" [1%R; 0%R]; embedded "s2" [1%R; 0%R];
   embedded "s3" [1%R; 0%R]; embedded "s4" [0%R; 1%R]].

(** Two sources with orthogonal embeddings. *)
Definition two_documents : list Document.t :=
  [Document.mk "d1" "outlet_a"; Document.mk "d2" "outlet_b"].

(** Their representations. *)
Definition two_representations : list Representation.t :=
  [embedded "s1" [1%R; 0%R]; embedded "s2" [0%R; 1%R]].

(** ** The representation extractor *)

(** Position of the first occurrence of [w] in [l]; the length of [l] when
    there is none. *)
Fixpoint index_of (w : string) (l : list string) : nat :=
  match l with
  | [] => 0%nat
  | x :: l' => if String.eqb w x then 0%nat else S (index_of w l')
  end.

(** [a] ranks before [b] among the tokens [kept]: more occurrences, or as
    many and an earlier first occurrence. *)
Definition outranks (kept : list string) (a b : string) : Prop :=
  (count_occ string_dec kept b < count_occ string_dec kept a)%nat
  \/ (count_occ string_dec kept a = count_occ string_dec kept b
      /\ (index_of a kept < index_of b kept)%nat).

(** The order the stable descending sort produces, for a position [pos]
    of every key: a larger count first, and among equal counts the
    smaller position first. *)
Definition item_before (pos : string -> nat) (x y : string * nat) : Prop :=
  (snd y < snd x)%nat
  \/ (snd x = snd y /\ (pos (fst x) < pos (fst y))%nat).

(** [a] first occurs before [b] in [l]. *)
Definition index_lt (l : list string) (a b : string) : Prop :=
  (index_of a l < index_of b l)%nat.

(** The tokens that survive the filter: longer than two characters, not
    a stop word, not the lowercase form of a caller-supplied word. *)
Definition kept_tokens (text : string) (exclude_words : option (list string))
  : list string :=
  filter
    (fun w =>
       (2 <? String.length w)%nat
       && negb (Str.mem w stop_words
                || Str.mem w (List.map Str.lower
                                       (or_default exclude_words []))))
    (Str.split (_normalize_text text)).

(** [RepresentationExtractor()] without [sentence_transformers]. *)
Definition default_extractor : RepresentationExtractor.t :=
  RepresentationExtractor__init__ keyword_only_backend no_extractor_args.

(** [RepresentationExtractor(extract_keywords=False)] *)
Definition disabled_extractor : RepresentationExtractor.t :=
  RepresentationExtractor__init__ keyword_only_backend
    {| xarg_embedding_model_name := None; xarg_use_embeddings := None;
       xarg_extract_keywords := Some false; xarg_keyword_count := None |}.

(** The recipe of C6 read literally: the exclusion list is used as given
    and nothing switches the extraction off. *)
Definition keywords_as_claimed (keyword_count : Z) (text : string)
    (exclude_words : list string) : list string :=
  let words :=
    filter (fun w => (2 <? String.length w)%nat
                     && negb (Str.mem w (stop_words ++ exclude_words)))
           (Str.split (_normalize_text text)) in
  List.map fst (most_common keyword_count (Counter words)).

(** Two embeddings of different lengths. *)
Definition ragged_representations : list Representation.t :=
  [embedded "s1" [1%R; 0%R]; embedded "s2" [0%R; 1%R; 0%R]].

(* ================================================================== *)
(** * Vocabulary of the further properties *)

(** ** Keyword scoring *)

(** What normalization does to one character. *)
Definition normalize_char (c : ascii) : ascii :=
  let l := Str.lower_char c in
  if Str.is_word_char l || Str.is_space_char l then l else " "%char.

(** The two counters of [_keyword_match_score] after its loops:
    [(phrase_matches, word_matches)]. *)
Definition match_counts (text : string) (concept : Concept.t) : nat * nat :=
  let normalized_text := _normalize_text_for_keywords text in
  let words := PySet.of_list (Str.split normalized_text) in
  let '(phrase_matches, all_seed_words) :=
    fold_left (seed_term_step normalized_text words)
              (Concept.seed_terms concept) (0%nat, PySet.empty) in
  (phrase_matches, count_word_matches all_seed_words words).


(** ** The assigner's state *)

(** Whether an optional value is present. *)
Definition is_some {A : Type} (o : option A) : bool :=
  match o with Some _ => true | None => false end.

(** Every entry of the first cache is an entry of the second. *)
Definition cache_extends (before after : Cache) : Prop :=
  forall k v, Dict.get k before = Some v -> Dict.get k after = Some v.

(** A cache that already holds a vector under the id ["c1"], and two
    concepts that share that id. *)
Definition warm_cache : Cache := [("c1", [0%R; 1%R])].

Definition other_concept_same_id : Concept.t :=
  Concept.mk "c1" "Weather" "rain and wind" [] [] ["rain"].

(** What holds of an emitted instance: its segment and its concept come
    from the inputs and its confidence is not below the threshold. *)
Definition emitted_ok (self : ConceptAssigner.t)
    (text_segments : list TextSegment.t) (concepts : list Concept.t)
    (instance : ConceptInstance.t) : Prop :=
  In (ConceptInstance.text_segment_id instance)
     (List.map TextSegment.id text_segments)
  /\ In (ConceptInstance.concept_id instance)
        (List.map Concept.id concepts)
  /\ (ConceptAssigner.min_confidence self
      <= ConceptInstance.confidence instance)%R.

(** ** Coverage and lexical results *)

(** The sum of a quantity over the values of a dictionary. *)
Definition dict_sum {V : Type} (f : V -> nat) (d : Dict.t V) : nat :=
  list_sum (List.map (fun kv => f (snd kv)) d).

(** What the accumulator of a source satisfies at every step: one
    confidence per segment, at most one document per segment, and a
    document as soon as there is a segment. *)
Definition stats_ok (st : SourceStats) : Prop :=
  List.length (confidences st) = segments st
  /\ (List.length (documents st) <= segments st)%nat
  /\ (0 < segments st -> 0 < List.length (documents st))%nat.

(** The lexical entries of a result. *)
Definition lexical_values (r : ComparisonResult.t) : Dict.t LexicalEntry :=
  match ComparisonResult.values r with
  | LexicalValues m => m
  | _ => []
  end.

(** The entry the lexical metric builds from the counts of a source. *)
Definition lexical_entry (keyword_counts : Dict.t nat) : LexicalEntry :=
  {| top_keywords := List.map fst (firstn 10 (sorted_desc keyword_counts));
     keyword_counts := firstn 10 (sorted_desc keyword_counts) |}.

(** The keywords pooled for a source: those of the representations of
    the instances grouped under it, in instance order. *)
Definition pooled_keywords (representations : list Representation.t)
    (concept_instances : list ConceptInstance.t)
    (documents_df : list Document.t) (source : string) : list string :=
  flat_map (keywords_of representations)
           (filter (from_source documents_df source) concept_instances).

(** The last element of a list passing a test: the one a dictionary
    comprehension keeps for a key. *)
Definition find_last {A : Type} (p : A -> bool) (l : list A) : option A :=
  find p (rev l).

(** Whether a segment id is in the segment table. *)
Definition segment_found (text_segments : list TextSegment.t) (k : string)
  : bool :=
  is_some (Dict.get k (segment_lookup_of text_segments)).

(** The representation extracted for each instance whose segment is
    found. *)
Definition representation_for (self : RepresentationExtractor.t)
    (text_segments : list TextSegment.t) (instance : ConceptInstance.t)
  : list Representation.t :=
  match Dict.get (ConceptInstance.text_segment_id instance)
                 (segment_lookup_of text_segments) with
  | Some segment => [extract_representation self instance segment]
  | None => []
  end.

(** The loop body of [main] without the filter on the
    representations. *)
Definition analyze_concept_unfiltered
    (representations : list Representation.t)
    (concept_instances : list ConceptInstance.t)
    (documents_df : list Document.t) (concept_id : string)
  : PyResult (list ComparisonResult.t) :=
  let concept_insts := concept_insts_of concept_instances concept_id in
  match calculate_source_similarity representations concept_insts documents_df
                                    concept_id with
  | Raise e => Raise e
  | Return similarity_result =>
      let all_results :=
        match similarity_result with
        | Some r => [r]
        | None => []
        end in
      Return (all_results
              ++ [analyze_lexical_patterns representations concept_insts
                    documents_df concept_id]
              ++ [analyze_coverage concept_insts documents_df concept_id])
  end.

(** ** The canonicalizer *)

Definition nonempty (s : string) : bool :=
  match s with EmptyString => false | String _ _ => true end.

(** The sentences the chunking loop keeps: stripped and not empty. *)
Definition stripped_sentences (para : string) : list string :=
  filter nonempty (List.map strip (split_sentences para)).

(** The sum of the lengths of some strings: [current_length]. *)
Definition total_length (l : list string) : Z :=
  fold_right (fun s acc => (py_len s + acc)%Z) 0%Z l.

(** Where the text of a segment comes from: it is a stripped paragraph
    whose length is within the two bounds, or it joins consecutive
    sentences of a longer paragraph; these total at most
    [max_segment_length] unless the chunk is a single sentence. *)
Definition segment_origin (self : TextCanonicalizer.t)
    (paragraphs : list string) (text : string) : Prop :=
  exists para,
    In para (List.map strip paragraphs)
    /\ ((text = para
         /\ (TextCanonicalizer.min_segment_length self <= py_len para
             <= TextCanonicalizer.max_segment_length self)%Z)
        \/ ((TextCanonicalizer.max_segment_length self < py_len para)%Z
            /\ exists sentences,
                 sentences <> []
                 /\ (exists before after,
                       before ++ sentences ++ after = stripped_sentences para)
                 /\ text = Str.join " " sentences
                 /\ (List.length sentences = 1%nat
                     \/ (total_length sentences
                         <= TextCanonicalizer.max_segment_length self)%Z)
                 /\ py_len text
                    = (total_length sentences
                       + Z.of_nat (List.length sentences) - 1)%Z)).

(** What holds of the [n]-th segment of a document. *)
Definition segment_ok (self : TextCanonicalizer.t) (hashlib : Hashlib)
    (document_id : string) (paragraphs : list string) (n : nat)
    (seg : TextSegment.t) : Prop :=
  TextSegment.position seg = Z.of_nat n
  /\ TextSegment.document_id seg = document_id
  /\ (exists idx,
        TextSegment.id seg = _generate_segment_id hashlib document_id idx n)
  /\ (TextCanonicalizer.min_segment_length self
      <= py_len (TextSegment.text seg))%Z
  /\ segment_origin self paragraphs (TextSegment.text seg).

Definition segments_ok (self : TextCanonicalizer.t) (hashlib : Hashlib)
    (document_id : string) (paragraphs : list string)
    (segs : list TextSegment.t) : Prop :=
  forall n seg, nth_error segs n = Some seg ->
                segment_ok self hashlib document_id paragraphs n seg.

(** The invariant of the chunking loop after the sentences [done] of
    [para]. *)
Definition chunk_inv (self : TextCanonicalizer.t) (hashlib : Hashlib)
    (document_id : string) (paragraphs : list string) (done : list string)
    (st : list TextSegment.t * list string * Z) : Prop :=
  let '(segs, current_chunk, current_length) := st in
  segments_ok self hashlib document_id paragraphs segs
  /\ current_length = total_length current_chunk
  /\ (exists before,
        before ++ current_chunk = filter nonempty (List.map strip done))
  /\ (current_chunk = []
      \/ List.length current_chunk = 1%nat
      \/ (total_length current_chunk
          <= TextCanonicalizer.max_segment_length self)%Z).

(** ** Ingestion *)

(** The id of a row of the frame. *)
Definition row_id (row : Document.t * string) : string :=
  Document.id (fst row).

(** What the deduplication keeps true of the documents added so far and of
    the set of known ids, [known] being the ids known at the start. *)
Definition dedup_inv (known : list string)
    (st : list (Document.t * string) * PySet.t) : Prop :=
  (forall x, In x (snd st) <-> In x known \/ In x (List.map row_id (fst st)))
  /\ NoDup (List.map row_id (fst st))
  /\ (forall x, In x (List.map row_id (fst st)) -> ~ In x known).

(** A document made from a fetched article of its source. *)
Definition ingested_from (hashlib : Hashlib)
    (fetched : list (string * list Article)) (row : Document.t * string)
  : Prop :=
  exists source_id articles article,
    In (source_id, articles) fetched
    /\ In article articles
    /\ row = create_document hashlib article source_id.

(* ================================================================== *)
(** ** views/view_generator.py: [ViewGenerator]

    A table is the list of rows from which the data frame is built; the
    similarity table is then indexed by its ['source'] column, which fails
    when there is no row.  The
    values of a result are read in the shape of its metric type; a result
    whose values have another shape, which the analyzer never produces,
    is read as having no entry.  The three-decimal formatting of the
    coverage table and the file system are given from outside. *)

(** A cell of a row of the similarity table: the source name under
    ['source'], a float (with [None] for nan) under a source name. *)
Inductive Cell : Type :=
| TextCell (s : string)
| FloatCell (x : option R).

(** [bool(x)] for a float: nan is truthy, zero is not. *)
Definition float_truthy (x : option R) : bool :=
  match x with
  | None => true
  | Some r => if Req_dec_T r 0 then false else true
  end.

(** [result.values.get(key1) or result.values.get(key2) or 0.0] *)
Definition similarity_cell (values : Dict.t (option R))
    (source1 source2 : string) : option R :=
  let key1 := pair_key source1 source2 in
  let key2 := pair_key source2 source1 in
  let second :=
    match Dict.get key2 values with
    | Some v2 => if float_truthy v2 then v2 else Some 0%R
    | None => Some 0%R
    end in
  match Dict.get key1 values with
  | Some v1 => if float_truthy v1 then v1 else second
  | None => second
  end.

(** The row of one source: [{'source': source1}] and one entry per
    source. *)
Definition similarity_table_row (values : Dict.t (option R))
    (sources : list string) (source1 : string) : Dict.t Cell :=
  fold_left
    (fun row source2 =>
       if String.eqb source1 source2
       then Dict.set source2 (FloatCell (Some 1%R)) row
       else Dict.set source2
              (FloatCell (similarity_cell values source1 source2)) row)
    sources [("source", TextCell source1)].

(** [ViewGenerator.generate_similarity_table] *)
Definition generate_similarity_table (result : ComparisonResult.t)
  : PyResult (list (Dict.t Cell)) :=
  if negb (String.eqb (ComparisonResult.metric_type result)
                      "source_similarity")
  then Raise (ValueError ("Expected source_similarity, got "
                          ++ ComparisonResult.metric_type result))
  else
    let sources := ComparisonResult.sources result in
    let matrix_data :=
      List.map (similarity_table_row (similarity_values result) sources)
               sources in
    (* df = pd.DataFrame(matrix_data); df.set_index('source'): a frame
       built from no row has no column to index by *)
    match matrix_data with
    | [] => Raise (KeyError "source")
    | _ :: _ => Return matrix_data
    end.

Record LexicalRow : Type := {
  lexical_source : string;
  lexical_rank : nat;
  lexical_keyword : string;
  lexical_count : nat
}.

(** The rows of one source: [for i, keyword in enumerate(keywords[:10], 1)]. *)
Definition lexical_table_rows (source_id : string) (data : LexicalEntry)
  : list LexicalRow :=
  let keywords := firstn 10 (top_keywords data) in
  let counts := keyword_counts data in
  List.map
    (fun '(i, keyword) =>
       {| lexical_source := source_id;
          lexical_rank := S i;
          lexical_keyword := keyword;
          lexical_count := or_default (Dict.get keyword counts) 0%nat |})
    (enumerate keywords).

(** [ViewGenerator.generate_lexical_table] *)
Definition generate_lexical_table (result : ComparisonResult.t)
  : PyResult (list LexicalRow) :=
  if negb (String.eqb (ComparisonResult.metric_type result)
                      "lexical_patterns")
  then Raise (ValueError ("Expected lexical_patterns, got "
                          ++ ComparisonResult.metric_type result))
  else
    Return (flat_map (fun '(source_id, data) =>
                        lexical_table_rows source_id data)
                     (lexical_values result)).








(** ** The views *)

(** A source name without a space that is not the column name
    ['source']. *)
Fixpoint space_free (s : string) : bool :=
  match s with
  | EmptyString => true
  | String c s' => negb (Ascii.eqb c " ") && space_free s'
  end.

Definition plain_source (s : string) : bool :=
  space_free s && negb (String.eqb s "source").

(** The cell of a similarity table in the row of [source1] and the column
    of [source2], the frame being indexed by its ['source'] column. *)
Definition table_cell (table : list (Dict.t Cell)) (source1 source2 : string)
  : option Cell :=
  match find (fun row =>
                match Dict.get "source" row with
                | Some (TextCell s) => String.eqb s source1
                | _ => false
                end) table with
  | Some row => Dict.get source2 row
  | None => None
  end.








(** ** What of a concept the assigner reads *)

(** Two concepts the assigner cannot tell apart: same id, description and
    seed terms, same first three inclusion criteria. *)
Definition same_for_assignment (c c' : Concept.t) : Prop :=
  Concept.id c' = Concept.id c
  /\ Concept.description c' = Concept.description c
  /\ Concept.seed_terms c' = Concept.seed_terms c
  /\ firstn 3 (Concept.inclusion_criteria c')
     = firstn 3 (Concept.inclusion_criteria c).

(** ** The pairs of a batch *)

(** [l1] is [l2] with some elements left out, the order kept. *)
Inductive subsequence {A : Type} : list A -> list A -> Prop :=
| subsequence_nil : subsequence [] []
| subsequence_skip (x : A) (l1 l2 : list A) :
    subsequence l1 l2 -> subsequence l1 (x :: l2)
| subsequence_take (x : A) (l1 l2 : list A) :
    subsequence l1 l2 -> subsequence (x :: l1) (x :: l2).

(** The (segment id, concept id) pairs the two loops of
    [assign_all_concepts] visit, in order. *)
Definition batch_pairs (text_segments : list TextSegment.t)
    (concepts : list Concept.t) : list (string * string) :=
  flat_map
    (fun segment =>
       List.map (fun concept => (TextSegment.id segment, Concept.id concept))
                concepts)
    text_segments.

(** The pair an instance was emitted for. *)
Definition instance_pair (instance : ConceptInstance.t) : string * string :=
  (ConceptInstance.text_segment_id instance,
   ConceptInstance.concept_id instance).

(** ** A segment that matches many seed terms *)

(** Ten seed terms of the registry's concept occur in this text. *)
Definition dense_segment : TextSegment.t :=
  TextSegment.mk "s1" "d1"
    "Income inequality, the wealth gap and the wage gap: poverty and mobility."
    0.

(* ================================================================== *)
(** * Properties of the concept assigner *)

(** ** The docstring example of the keyword score *)

(** C2.  For any concept whose seed terms are the three of the docstring
    example, the keyword score of the example sentence is 0.75: the loop
    counts three phrase matches, the table gives 0.65 for three matches,
    the ratio 3/3 is above 0.1 and adds the boost of 0.1. *)
Theorem keyword_score_example :
  forall id name description inclusion exclusion,
    let concept :=
      Concept.mk id name description inclusion exclusion example_seed_terms in
    let normalized_text := _normalize_text_for_keywords example_text in
    let words := PySet.of_list (Str.split normalized_text) in
    fst (fold_left (seed_term_step normalized_text words)
                   example_seed_terms (0%nat, PySet.empty)) = 3%nat
    /\ (base_score_table 3 == 65 # 100)%Q
    /\ (1 # 10 < 3 / inject_Z (Z.of_nat (List.length example_seed_terms)))%Q
    /\ (_keyword_match_score example_text concept == 75 # 100)%Q.
Proof.
  intros id name description inclusion exclusion concept normalized_text words.
  repeat split; vm_compute; reflexivity.
Qed.

(** Other rows of the scoring table: a multi-word term whose words occur
    apart counts as a phrase match (0.3 + 0.1); a single seed word found
    gives half a match (0.15 + 0.1); nothing found gives 0. *)
Example keyword_score_words_apart :
  (_keyword_match_score "Income rose while the gap widened."
     (Concept.mk "c" "n" "d" [] [] ["income gap"]) == 4 # 10)%Q.
Proof. vm_compute. reflexivity. Qed.

Example keyword_score_single_word :
  (_keyword_match_score "Income rose again."
     (Concept.mk "c" "n" "d" [] [] ["income gap"; "wealth tax"]) == 25 # 100)%Q.
Proof. vm_compute. reflexivity. Qed.

Example keyword_score_no_match :
  (_keyword_match_score "Rain is expected."
     (Concept.mk "c" "n" "d" [] [] ["income gap"; "wealth tax"]) == 0)%Q.
Proof. vm_compute. reflexivity. Qed.

(** ** Threshold and defaults *)

(** [assign_concept] is the threshold test on [combined_score]. *)
Lemma assign_concept_unfold :
  forall self cache text_segment concept,
    assign_concept self cache text_segment concept =
    (if Rlt_dec (combined_score self cache (TextSegment.text text_segment) concept)
                (ConceptAssigner.min_confidence self)
     then None
     else Some (instance_of self cache text_segment concept),
     cache_after self cache (TextSegment.text text_segment) concept).
Proof.
  intros self cache text_segment concept.
  unfold assign_concept, instance_of, combined_score, cache_after.
  cbv beta iota delta [_check_exclusion_criteria].
  destruct (ConceptAssigner.use_embeddings self).
  - destruct (_embedding_similarity_score self cache
                (TextSegment.text text_segment) concept) as [e c'].
    cbn [fst snd].
    destruct (Rlt_dec _ _); reflexivity.
  - destruct (Rlt_dec _ _); reflexivity.
Qed.

Lemma one_term_score :
  _keyword_match_score (TextSegment.text one_term_segment) one_term_concept
  = (40 # 100)%Q.
Proof. vm_compute. reflexivity. Qed.

(** C3, as the code has it.  [assign_concept] returns [None] exactly when
    the combined score is strictly below [min_confidence] and otherwise an
    instance whose confidence is the combined score.  The constructor's
    default threshold is 0.5; 0.15 is the default of the helper
    [assign_concepts_to_segments], which passes it to the constructor. *)
Theorem assign_concept_threshold :
  (forall self cache text_segment concept,
     let combined :=
       combined_score self cache (TextSegment.text text_segment) concept in
     option_map ConceptInstance.confidence
                (fst (assign_concept self cache text_segment concept))
     = if Rlt_dec combined (ConceptAssigner.min_confidence self)
       then None else Some combined)
  /\ (forall env,
        ConceptAssigner.min_confidence (fst (ConceptAssigner__init__ env no_args))
        = (5 / 10)%R)
  /\ (forall env text_segments concept_ids use_embeddings,
        assign_concepts_to_segments env text_segments concept_ids
                                    None use_embeddings
        = assign_concepts_to_segments env text_segments concept_ids
                                      (Some (15 / 100)%R) use_embeddings).
Proof.
  split; [| split].
  - intros self cache text_segment concept combined.
    rewrite assign_concept_unfold. cbn [fst].
    subst combined. destruct (Rlt_dec _ _); reflexivity.
  - intros env. unfold ConceptAssigner__init__. cbn.
    destruct (EMBEDDINGS_AVAILABLE env); [| reflexivity].
    destruct (SentenceTransformer env _); reflexivity.
  - reflexivity.
Qed.

(** C3 as stated fails on its last clause: an assigner built with the
    constructor's defaults has threshold 0.5, not 0.15, and drops a pair
    whose combined score is 0.4. *)
Lemma default_min_confidence_counterexample :
  let self := fst (ConceptAssigner__init__ keyword_only_backend no_args) in
  ConceptAssigner.min_confidence self <> (15 / 100)%R
  /\ (15 / 100 <=
      combined_score self [] (TextSegment.text one_term_segment)
                     one_term_concept)%R
  /\ fst (assign_concept self [] one_term_segment one_term_concept) = None.
Proof.
  cbn zeta.
  assert (Hs : combined_score
                 (fst (ConceptAssigner__init__ keyword_only_backend no_args)) []
                 (TextSegment.text one_term_segment) one_term_concept
               = (4 / 10)%R).
  { unfold combined_score. cbn [ConceptAssigner__init__ fst
      keyword_only_backend EMBEDDINGS_AVAILABLE no_args arg_use_embeddings
      or_default andb ConceptAssigner.use_embeddings].
    rewrite one_term_score. unfold Q2R. cbn. lra. }
  split; [| split].
  - cbn. lra.
  - rewrite Hs. lra.
  - rewrite assign_concept_unfold. cbn [fst]. rewrite Hs.
    destruct (Rlt_dec _ _) as [_ | Hn]; [reflexivity |].
    exfalso. apply Hn. cbn. lra.
Qed.

(** ** Keyword-only mode *)

Lemma init_use_embeddings_false :
  forall env args,
    arg_use_embeddings args = Some false ->
    ConceptAssigner.use_embeddings (fst (ConceptAssigner__init__ env args))
    = false.
Proof.
  intros env args H. unfold ConceptAssigner__init__. rewrite H. reflexivity.
Qed.

(** C9.  An assigner constructed with [use_embeddings=False] only emits
    instances tagged ['keyword'], whose confidence is the keyword score and
    whose metadata holds [None] under ['embedding_score']. *)
Theorem keyword_only_instances :
  forall env args cache text_segment concept instance cache',
    arg_use_embeddings args = Some false ->
    assign_concept (fst (ConceptAssigner__init__ env args)) cache
                   text_segment concept = (Some instance, cache') ->
    ConceptInstance.assignment_method instance = "keyword"
    /\ ConceptInstance.confidence instance
       = Q2R (_keyword_match_score (TextSegment.text text_segment) concept)
    /\ Dict.get "embedding_score" (ConceptInstance.metadata instance)
       = Some PyNone.
Proof.
  intros env args cache text_segment concept instance cache' Hargs Hassign.
  pose proof (init_use_embeddings_false env args Hargs) as Huse.
  rewrite assign_concept_unfold in Hassign.
  destruct (Rlt_dec _ _); [discriminate |].
  injection Hassign as Hinst _. subst instance.
  unfold instance_of, combined_score. rewrite Huse. cbn.
  repeat split; reflexivity.
Qed.

(** ** Unknown concept ids *)

Lemma resolve_concepts_unknown :
  forall concept_ids,
    (exists cid, In cid concept_ids /\ Dict.get cid CONCEPTS = None) ->
    exists msg, resolve_concepts concept_ids = Raise (ValueError msg).
Proof.
  induction concept_ids as [| cid0 rest IH]; intros [cid [Hin Hnone]].
  - destruct Hin.
  - cbn [resolve_concepts]. unfold get_concept_by_id.
    destruct (Dict.get cid0 CONCEPTS) as [c |] eqn:E0.
    + destruct Hin as [-> | Hin]; [congruence |].
      destruct IH as [msg Hmsg]; [exists cid; split; assumption |].
      rewrite Hmsg. exists msg. reflexivity.
    + eexists. reflexivity.
Qed.

(** C8.  A batch call whose id list holds an id absent from [CONCEPTS]
    raises the [ValueError] of [get_concept_by_id]; no pair is scored: no
    instance is returned and the embedding cache is untouched. *)
Theorem unknown_concept_fails_batch :
  forall self cache text_segments concept_ids,
    (exists cid, In cid concept_ids /\ Dict.get cid CONCEPTS = None) ->
    exists msg,
      assign_all_concepts self cache text_segments concept_ids
      = (Raise (ValueError msg), cache).
Proof.
  intros self cache text_segments concept_ids Hunknown.
  destruct (resolve_concepts_unknown concept_ids Hunknown) as [msg Hmsg].
  exists msg. unfold assign_all_concepts. rewrite Hmsg. reflexivity.
Qed.

(** ** Threshold monotonicity *)

Lemma combined_score_threshold_free :
  forall t self cache text concept,
    combined_score (with_min_confidence t self) cache text concept
    = combined_score self cache text concept.
Proof. reflexivity. Qed.

Lemma cache_after_threshold_free :
  forall t self cache text concept,
    cache_after (with_min_confidence t self) cache text concept
    = cache_after self cache text concept.
Proof. reflexivity. Qed.

Lemma instance_of_threshold_free :
  forall t self cache text_segment concept,
    instance_of (with_min_confidence t self) cache text_segment concept
    = instance_of self cache text_segment concept.
Proof. reflexivity. Qed.

Lemma assign_segment_monotone :
  forall self t1 t2 text_segment concept high low,
    (t1 <= t2)%R ->
    run_below high low ->
    run_below
      (assign_segment (with_min_confidence t2 self) text_segment high concept)
      (assign_segment (with_min_confidence t1 self) text_segment low concept).
Proof.
  intros self t1 t2 text_segment concept [l2 c2] [l1 c1] Hle [Hincl Hcache].
  cbn [fst snd] in Hincl, Hcache. subst c2.
  unfold assign_segment. rewrite !assign_concept_unfold.
  rewrite !combined_score_threshold_free, !cache_after_threshold_free,
          !instance_of_threshold_free.
  cbn [ConceptAssigner.min_confidence with_min_confidence].
  destruct (Rlt_dec _ t2) as [H2 | H2]; destruct (Rlt_dec _ t1) as [H1 | H1];
    split; cbn [fst snd]; try reflexivity.
  - assumption.
  - apply incl_appl. assumption.
  - exfalso. apply H2. lra.
  - apply incl_app; [apply incl_appl; assumption |].
    apply incl_appr. apply incl_refl.
Qed.

Lemma assign_concepts_monotone :
  forall self t1 t2 text_segment concepts high low,
    (t1 <= t2)%R ->
    run_below high low ->
    run_below
      (fold_left (assign_segment (with_min_confidence t2 self) text_segment)
                 concepts high)
      (fold_left (assign_segment (with_min_confidence t1 self) text_segment)
                 concepts low).
Proof.
  intros self t1 t2 text_segment concepts.
  induction concepts as [| c cs IH]; intros high low Hle H; [exact H |].
  cbn [fold_left]. apply IH; [assumption |].
  apply assign_segment_monotone; assumption.
Qed.

Lemma assign_segments_monotone :
  forall self t1 t2 concepts text_segments high low,
    (t1 <= t2)%R ->
    run_below high low ->
    run_below
      (fold_left (fun st segment =>
                    fold_left
                      (assign_segment (with_min_confidence t2 self) segment)
                      concepts st)
                 text_segments high)
      (fold_left (fun st segment =>
                    fold_left
                      (assign_segment (with_min_confidence t1 self) segment)
                      concepts st)
                 text_segments low).
Proof.
  intros self t1 t2 concepts text_segments.
  induction text_segments as [| s ss IH]; intros high low Hle H; [exact H |].
  cbn [fold_left]. apply IH; [assumption |].
  apply assign_concepts_monotone; assumption.
Qed.

(** C4.  With segments, concept ids, weights, embedding model and initial
    cache fixed, and thresholds [t1 <= t2], the batch run at [t2] emits a
    subset of the instances of the run at [t1] (and leaves the same cache);
    when the id list is rejected, both runs raise the same error. *)
Theorem threshold_monotone :
  forall self cache text_segments concept_ids t1 t2,
    (t1 <= t2)%R ->
    match assign_all_concepts (with_min_confidence t2 self) cache
                              text_segments concept_ids,
          assign_all_concepts (with_min_confidence t1 self) cache
                              text_segments concept_ids
    with
    | (Return high, cache2), (Return low, cache1) =>
        incl high low /\ cache2 = cache1
    | (Raise e2, _), (Raise e1, _) => e2 = e1
    | _, _ => False
    end.
Proof.
  intros self cache text_segments concept_ids t1 t2 Hle.
  unfold assign_all_concepts.
  destruct (resolve_concepts concept_ids) as [concepts | e]; [| reflexivity].
  pose proof (assign_segments_monotone self t1 t2 concepts text_segments
                ([], cache) ([], cache) Hle
                (conj (incl_refl _) eq_refl)) as H.
  destruct (fold_left _ text_segments ([], cache)) as [high cache2].
  destruct (fold_left _ text_segments ([], cache)) as [low cache1].
  exact H.
Qed.

(** ** Score bounds *)

Lemma effective_matches_nonneg :
  forall phrase_matches word_matches,
    (0 <= effective_matches phrase_matches word_matches)%Q.
Proof.
  intros pm wm. unfold effective_matches.
  assert (H : (0 <= inject_Z (Z.of_nat pm))%Q).
  { unfold Qle. cbn. lia. }
  destruct ((pm =? 0)%nat && (0 <? wm)%nat); [| exact H].
  destruct (2 <=? wm)%nat; [discriminate |].
  destruct (wm =? 1)%nat; [discriminate | exact H].
Qed.

(** The values [matches] can take: the [if]/[elif] chain of the score
    table covers them all, so [base_score] is always bound. *)
Lemma matches_shape :
  forall phrase_matches word_matches,
    let matches := effective_matches phrase_matches word_matches in
    (matches == 0 \/ matches == 5 # 10 \/ matches == 1 \/ matches == 2
     \/ matches == 3 \/ 4 <= matches)%Q.
Proof.
  intros pm wm. cbn zeta. unfold effective_matches.
  assert (H : let m := inject_Z (Z.of_nat pm) in
              (m == 0 \/ m == 5 # 10 \/ m == 1 \/ m == 2 \/ m == 3
               \/ 4 <= m)%Q).
  { cbn zeta.
    destruct pm as [| [| [| [| pm]]]].
    - left. reflexivity.
    - right; right; left. reflexivity.
    - right; right; right; left. reflexivity.
    - right; right; right; right; left. reflexivity.
    - do 5 right. unfold Qle. cbn [Qnum Qden inject_Z]. lia. }
  destruct ((pm =? 0)%nat && (0 <? wm)%nat); [| exact H].
  destruct (2 <=? wm)%nat; [right; right; left; reflexivity |].
  destruct (wm =? 1)%nat; [right; left; reflexivity | exact H].
Qed.

Lemma base_score_table_nonneg :
  forall matches, (0 <= matches)%Q -> (0 <= base_score_table matches)%Q.
Proof.
  intros m Hm. unfold base_score_table.
  repeat (destruct (Qeq_bool m _); [discriminate |]).
  assert (H : (- (8 # 10) <= Qmin (2 # 10) ((m - 4) * (5 # 100)))%Q).
  { apply Q.min_glb; lra. }
  lra.
Qed.

Lemma score_of_matches_bounds :
  forall matches total_terms,
    (0 <= matches)%Q ->
    (0 <= score_of_matches matches total_terms <= 1)%Q.
Proof.
  intros m n Hm. unfold score_of_matches.
  destruct (Qeq_bool m 0); [lra |].
  pose proof (base_score_table_nonneg m Hm) as Hb.
  set (b := base_score_table m) in *.
  destruct (Qle_bool _ _).
  - split; [apply Q.min_glb; lra | apply Q.le_min_l].
  - split; [| apply Q.le_min_l].
    apply Q.min_glb; [lra |]. apply Q.min_glb; lra.
Qed.

Lemma keyword_score_bounds :
  forall text concept, (0 <= _keyword_match_score text concept <= 1)%Q.
Proof.
  intros text concept. unfold _keyword_match_score.
  destruct (List.length (Concept.seed_terms concept) =? 0)%nat; [lra |].
  destruct (fold_left _ _ _) as [pm words].
  apply score_of_matches_bounds, effective_matches_nonneg.
Qed.

(** The upper clamp of the keyword score also holds for the binary64
    float the source returns. *)
Lemma float_min_one_le :
  forall x, PrimFloat.leb (Binary64.float_min Rounded.float_one x)
                          Rounded.float_one = true.
Proof.
  intros x. unfold Binary64.float_min.
  destruct (PrimFloat.ltb x Rounded.float_one) eqn:E.
  - rewrite FloatAxioms.leb_spec. rewrite FloatAxioms.ltb_spec in E.
    unfold SpecFloat.SFleb. unfold SpecFloat.SFltb in E.
    destruct (SpecFloat.SFcompare _ _) as [[ | | ] |];
      try discriminate; reflexivity.
  - vm_compute. reflexivity.
Qed.

Lemma keyword_score_rounded_le_1 :
  forall text concept,
    PrimFloat.leb (Rounded._keyword_match_score_rounded text concept)
                  Rounded.float_one = true.
Proof.
  intros text concept. unfold Rounded._keyword_match_score_rounded.
  destruct (List.length (Concept.seed_terms concept) =? 0)%nat;
    [vm_compute; reflexivity |].
  destruct (fold_left _ _ _) as [pm words].
  unfold Rounded.score_of_matches_rounded.
  destruct (PrimFloat.eqb _ _); [vm_compute; reflexivity |].
  apply float_min_one_le.
Qed.

(** The lower clamp of the embedding score holds in every format. *)
Lemma embedding_score_rounded_ge_0 :
  forall prec emax a b,
    SpecFloat.SFleb (SpecFloat.S754_zero false)
                    (Rounded.embedding_score_rounded prec emax a b) = true.
Proof.
  intros prec emax a b. unfold Rounded.embedding_score_rounded.
  destruct (Rounded.cosine_rounded prec emax a b) as [similarity |];
    [| reflexivity].
  unfold Rounded.py_max_zero.
  destruct (SpecFloat.SFltb _ similarity) eqn:E; [| reflexivity].
  unfold SpecFloat.SFleb. unfold SpecFloat.SFltb in E.
  destruct (SpecFloat.SFcompare _ _) as [[ | | ] |];
    try discriminate; reflexivity.
Qed.

(** C5.  The keyword score is in [0,1] for every text and concept, as an
    exact rational and, from above, as the binary64 float returned.  The
    embedding score is never below 0 (the clamp, in every format), but
    nothing bounds it by 1: the source has no clamp from above, and the
    rounded cosine of an array with itself can exceed 1.  For the float32
    array [[1.0, 1.0]] as both embeddings the score returned is
    [1 + 2 ** -23] (1.0000001192092896); for the float64 array
    [[2.0, 3.0]] it is [1 + 2 ** -52] (1.0000000000000002).  With the
    default weights 0.4 and 0.6 and a segment whose keyword score is 1.0,
    the first gives a combined confidence above 1
    (1.0000000715255737). *)
Theorem scores_as_computed :
  (forall text concept, (0 <= _keyword_match_score text concept <= 1)%Q)
  /\ (forall text concept,
        PrimFloat.leb (Rounded._keyword_match_score_rounded text concept)
                      Rounded.float_one = true)
  /\ (forall prec emax a b,
        SpecFloat.SFleb (SpecFloat.S754_zero false)
                        (Rounded.embedding_score_rounded prec emax a b)
        = true)
  /\ (let a := Rounded.array 24 128 [1; 1]%Z in
      let embedding_score :=
        Rounded.python_float (Rounded.embedding_score_rounded 24 128 a a) in
      let keyword_score :=
        Rounded._keyword_match_score_rounded
          (TextSegment.text dense_segment) income_wealth_inequality in
      let combined_score :=
        Rounded.combined_score_rounded
          Rounded.default_keyword_weight keyword_score
          Rounded.default_embedding_weight embedding_score in
      embedding_score = Rounded.one_plus_pow2 (-23)
      /\ PrimFloat.ltb Rounded.float_one embedding_score = true
      /\ keyword_score = Rounded.float_one
      /\ PrimFloat.ltb Rounded.float_one combined_score = true)
  /\ (let b := Rounded.array 53 1024 [2; 3]%Z in
      let embedding_score :=
        Rounded.python_float (Rounded.embedding_score_rounded 53 1024 b b) in
      embedding_score = Rounded.one_plus_pow2 (-52)
      /\ PrimFloat.ltb Rounded.float_one embedding_score = true).
Proof.
  split; [exact keyword_score_bounds |].
  split; [exact keyword_score_rounded_le_1 |].
  split; [exact embedding_score_rounded_ge_0 |].
  split; cbn zeta; repeat split; vm_compute; reflexivity.
Qed.

(** ** Concrete runs of the assigner *)

(** An instance is emitted as soon as the combined score is not below
    the threshold. *)
Lemma assign_concept_emits :
  forall self cache text_segment concept,
    (ConceptAssigner.min_confidence self
     <= combined_score self cache (TextSegment.text text_segment) concept)%R ->
    assign_concept self cache text_segment concept
    = (Some (instance_of self cache text_segment concept),
       cache_after self cache (TextSegment.text text_segment) concept).
Proof.
  intros self cache text_segment concept Hle.
  rewrite assign_concept_unfold.
  destruct (Rlt_dec _ _) as [Hlt | _]; [exfalso; lra | reflexivity].
Qed.

Lemma one_term_combined :
  combined_score keyword_only_assigner []
                 (TextSegment.text one_term_segment) one_term_concept
  = (4 / 10)%R.
Proof.
  unfold combined_score. cbn [keyword_only_assigner ConceptAssigner__init__ fst
    keyword_only_backend EMBEDDINGS_AVAILABLE keyword_only_args
    arg_use_embeddings or_default andb ConceptAssigner.use_embeddings].
  rewrite one_term_score. unfold Q2R. cbn. lra.
Qed.

Lemma keyword_only_instances_witness :
  let instance :=
    instance_of keyword_only_assigner [] one_term_segment one_term_concept in
  ConceptInstance.assignment_method instance = "keyword"
  /\ ConceptInstance.confidence instance
     = Q2R (_keyword_match_score (TextSegment.text one_term_segment)
                                 one_term_concept)
  /\ Dict.get "embedding_score" (ConceptInstance.metadata instance)
     = Some PyNone.
Proof.
  apply (keyword_only_instances keyword_only_backend keyword_only_args []
           one_term_segment one_term_concept _ []).
  - reflexivity.
  - apply (assign_concept_emits keyword_only_assigner).
    rewrite one_term_combined. cbn. lra.
Defined.

Lemma unknown_concept_fails_batch_witness :
  exists msg,
    assign_all_concepts keyword_only_assigner [] [one_term_segment]
                        ["income_wealth_inequality"; "climate_risk"]
    = (Raise (ValueError msg), []).
Proof.
  apply (unknown_concept_fails_batch keyword_only_assigner []
           [one_term_segment]
           ["income_wealth_inequality"; "climate_risk"]).
  exists "climate_risk". split; [right; left; reflexivity | reflexivity].
Defined.

Lemma threshold_monotone_witness :
  match assign_all_concepts
          (with_min_confidence (5 / 10) keyword_only_assigner) []
          [one_term_segment] ["income_wealth_inequality"],
        assign_all_concepts
          (with_min_confidence (15 / 100) keyword_only_assigner) []
          [one_term_segment] ["income_wealth_inequality"]
  with
  | (Return high, cache2), (Return low, cache1) =>
      incl high low /\ cache2 = cache1
  | (Raise e2, _), (Raise e1, _) => e2 = e1
  | _, _ => False
  end.
Proof.
  apply (threshold_monotone keyword_only_assigner [] [one_term_segment]
           ["income_wealth_inequality"] (15 / 100) (5 / 10)).
  lra.
Defined.

(* ================================================================== *)
(** * Properties of the comparative analyzer *)

(** ** Dictionaries and loops *)

Lemma dict_get_set_same :
  forall (V : Type) (k : string) (v : V) (d : Dict.t V),
    Dict.get k (Dict.set k v d) = Some v.
Proof.
  intros V k v d. induction d as [| [k' v'] d IH]; cbn.
  - rewrite String.eqb_refl. reflexivity.
  - destruct (String.eqb k k') eqn:E; cbn.
    + rewrite String.eqb_refl. reflexivity.
    + rewrite E. exact IH.
Qed.

Lemma dict_get_set_other :
  forall (V : Type) (k k' : string) (v : V) (d : Dict.t V),
    k <> k' -> Dict.get k' (Dict.set k v d) = Dict.get k' d.
Proof.
  intros V k k' v d Hne. induction d as [| [k0 v0] d IH]; cbn.
  - apply String.eqb_neq in Hne. rewrite String.eqb_sym, Hne. reflexivity.
  - destruct (String.eqb k k0) eqn:E; cbn.
    + apply String.eqb_eq in E. subst k0.
      apply String.eqb_neq in Hne. rewrite String.eqb_sym, Hne. reflexivity.
    + destruct (String.eqb k' k0); [reflexivity | exact IH].
Qed.

Lemma mem_keys_get :
  forall (V : Type) (k : string) (d : Dict.t V),
    Str.mem k (Dict.keys d) = match Dict.get k d with
                              | Some _ => true
                              | None => false
                              end.
Proof.
  intros V k d. induction d as [| [k' v'] d IH]; cbn; [reflexivity |].
  destruct (String.eqb k k'); [reflexivity | exact IH].
Qed.

(** Assignment to a key appends it to the key list unless present. *)
Lemma dict_keys_set :
  forall (V : Type) (k : string) (v : V) (d : Dict.t V),
    Dict.keys (Dict.set k v d) = PySet.add k (Dict.keys d).
Proof.
  intros V k v d. unfold PySet.add. rewrite mem_keys_get.
  unfold Dict.keys.
  induction d as [| [k' v'] d IH]; cbn; [reflexivity |].
  destruct (String.eqb k k') eqn:E; cbn.
  - apply String.eqb_eq in E. subst k'. reflexivity.
  - rewrite IH. destruct (Dict.get k d); reflexivity.
Qed.

Lemma fold_left_map_same :
  forall (A X : Type) (f : A -> X -> A) (h : X -> X),
    (forall a x, f a (h x) = f a x) ->
    forall l a, fold_left f (List.map h l) a = fold_left f l a.
Proof.
  intros A X f h Hf l. induction l as [| x l IH]; intros a; cbn.
  - reflexivity.
  - rewrite Hf. apply IH.
Qed.

Lemma fold_left_filter_skip :
  forall (A X : Type) (f : A -> X -> A) (p : X -> bool),
    (forall a x, p x = false -> f a x = a) ->
    forall l a, fold_left f (filter p l) a = fold_left f l a.
Proof.
  intros A X f p Hf l. induction l as [| x l IH]; intros a; cbn.
  - reflexivity.
  - destruct (p x) eqn:E; cbn.
    + apply IH.
    + rewrite (Hf a x E). apply IH.
Qed.

(** ** The [concept_id] argument is a label *)

Lemma get_source_embeddings_relabel :
  forall g representations concept_instances documents_df,
    _get_source_embeddings representations
                           (List.map (relabel g) concept_instances)
                           documents_df
    = _get_source_embeddings representations concept_instances documents_df.
Proof.
  intros g reps insts docs. unfold _get_source_embeddings.
  apply fold_left_map_same. intros a x. reflexivity.
Qed.

Lemma source_keywords_relabel :
  forall g representations concept_instances documents_df,
    source_keywords_of representations
                       (List.map (relabel g) concept_instances) documents_df
    = source_keywords_of representations concept_instances documents_df.
Proof.
  intros g reps insts docs. unfold source_keywords_of.
  apply fold_left_map_same. intros a x. reflexivity.
Qed.

Lemma source_stats_relabel :
  forall g concept_instances documents_df,
    source_stats_of (List.map (relabel g) concept_instances) documents_df
    = source_stats_of concept_instances documents_df.
Proof.
  intros g insts docs. unfold source_stats_of.
  apply fold_left_map_same. intros a x. reflexivity.
Qed.

(** C10.  In the three metrics the [concept_id] argument is copied into
    the result and read nowhere else, and the [concept_id] field of the
    instances is never read: rewriting the fields by any function [g]
    leaves every result unchanged, and two calls that differ in the
    argument differ in the label only.  A list that mixes concepts is
    therefore aggregated exactly like a single-concept list. *)
Theorem concept_id_only_labels :
  forall (g : ConceptInstance.t -> string)
         representations concept_instances documents_df
         concept_id concept_id',
    (calculate_source_similarity representations
       (List.map (relabel g) concept_instances) documents_df concept_id
     = calculate_source_similarity representations concept_instances
         documents_df concept_id
     /\ analyze_lexical_patterns representations
          (List.map (relabel g) concept_instances) documents_df concept_id
        = analyze_lexical_patterns representations concept_instances
            documents_df concept_id
     /\ analyze_coverage (List.map (relabel g) concept_instances)
                         documents_df concept_id
        = analyze_coverage concept_instances documents_df concept_id)
    /\ (calculate_source_similarity representations concept_instances
          documents_df concept_id
        = with_label_result concept_id
            (calculate_source_similarity representations concept_instances
               documents_df concept_id')
        /\ analyze_lexical_patterns representations concept_instances
             documents_df concept_id
           = with_label concept_id
               (analyze_lexical_patterns representations concept_instances
                  documents_df concept_id')
        /\ analyze_coverage concept_instances documents_df concept_id
           = with_label concept_id
               (analyze_coverage concept_instances documents_df concept_id'))
    /\ ComparisonResult.concept_id
         (analyze_lexical_patterns representations concept_instances
            documents_df concept_id) = concept_id
    /\ ComparisonResult.concept_id
         (analyze_coverage concept_instances documents_df concept_id)
       = concept_id.
Proof.
  intros g reps insts docs cid cid'.
  split; [| split; [| split]].
  - unfold calculate_source_similarity, analyze_lexical_patterns,
      analyze_coverage.
    rewrite get_source_embeddings_relabel, source_keywords_relabel,
      source_stats_relabel.
    repeat split; reflexivity.
  - split; [| split]; try reflexivity.
    unfold calculate_source_similarity.
    destruct (List.length _ <? 2)%nat; [reflexivity |].
    destruct (average_sources _ _) as [avg | e]; [| reflexivity].
    destruct (similarity_rows _ _ _); reflexivity.
  - reflexivity.
  - reflexivity.
Qed.

(** ** The join behind every metric *)

Lemma extend_app :
  forall (A B : Type) (grow : B -> list A -> B) (empty : B),
    (forall b l1 l2, grow (grow b l1) l2 = grow b (l1 ++ l2)) ->
    forall entry l1 l2,
      l1 <> [] ->
      extend grow empty (Some (grow (or_default entry empty) l1)) l2
      = extend grow empty entry (l1 ++ l2).
Proof.
  intros A B grow empty Hgrow entry l1 l2 Hne.
  destruct l1 as [| a l1]; [congruence |].
  destruct l2 as [| b l2]; cbn [extend or_default].
  - rewrite app_nil_r. reflexivity.
  - rewrite Hgrow. reflexivity.
Qed.

Lemma count_into_app :
  forall counts l1 l2,
    count_into (count_into counts l1) l2 = count_into counts (l1 ++ l2).
Proof.
  intros counts l1 l2. unfold count_into. rewrite fold_left_app. reflexivity.
Qed.

Section Grouping.

Variable representations : list Representation.t.
Variable documents_df : list Document.t.

Lemma join_source :
  forall instance doc_id doc,
    join_document instance documents_df = Some (doc_id, doc) ->
    metadata_source documents_df instance = Some (Document.source_id doc).
Proof.
  intros instance doc_id doc H. unfold metadata_source. rewrite H. reflexivity.
Qed.

Lemma from_source_join :
  forall instance doc_id doc source,
    join_document instance documents_df = Some (doc_id, doc) ->
    from_source documents_df source instance
    = String.eqb (Document.source_id doc) source.
Proof.
  intros instance doc_id doc source H. unfold from_source.
  rewrite (join_source _ _ _ H). reflexivity.
Qed.

Lemma from_source_no_join :
  forall instance source,
    join_document instance documents_df = None ->
    from_source documents_df source instance = false.
Proof.
  intros instance source H. unfold from_source, metadata_source.
  rewrite H. reflexivity.
Qed.

(** The group of a source in [_get_source_embeddings]. *)
Lemma source_embeddings_group :
  forall source concept_instances acc,
    Dict.get source
      (fold_left
         (fun source_embeddings instance =>
            match Dict.get (ConceptInstance.text_segment_id instance)
                           (rep_lookup_of representations) with
            | None => source_embeddings
            | Some rep =>
                match Representation.embedding rep with
                | None => source_embeddings
                | Some embedding =>
                    match join_document instance documents_df with
                    | None => source_embeddings
                    | Some (_, doc) =>
                        let source_id := Document.source_id doc in
                        Dict.set source_id
                          (or_default (Dict.get source_id source_embeddings) []
                           ++ [embedding])
                          source_embeddings
                    end
                end
            end)
         concept_instances acc)
    = extend (@app Vec) [] (Dict.get source acc)
        (flat_map (embedding_of representations)
                  (filter (from_source documents_df source)
                          concept_instances)).
Proof.
  intros source insts.
  induction insts as [| i insts IH]; intros acc; [reflexivity |].
  cbn [fold_left filter]. rewrite IH. clear IH.
  destruct (join_document i documents_df) as [[doc_id doc] |] eqn:Ej.
  - rewrite (from_source_join _ _ _ source Ej).
    destruct (String.eqb (Document.source_id doc) source) eqn:Es.
    + apply String.eqb_eq in Es. cbn [flat_map]. unfold embedding_of at 2.
      destruct (Dict.get (ConceptInstance.text_segment_id i) _) as [rep |];
        [| reflexivity].
      destruct (Representation.embedding rep) as [e |]; [| reflexivity].
      cbn zeta. rewrite Es, dict_get_set_same.
      apply (extend_app _ _ (@app Vec) []); [| discriminate].
      intros b l1 l2. symmetry. apply app_assoc.
    + apply String.eqb_neq in Es.
      destruct (Dict.get (ConceptInstance.text_segment_id i) _) as [rep |];
        [| reflexivity].
      destruct (Representation.embedding rep) as [e |]; [| reflexivity].
      cbn zeta. rewrite dict_get_set_other by exact Es. reflexivity.
  - rewrite (from_source_no_join _ source Ej).
    destruct (Dict.get (ConceptInstance.text_segment_id i) _) as [rep |];
      [| reflexivity].
    destruct (Representation.embedding rep); reflexivity.
Qed.

(** The group of a source in the lexical metric. *)
Lemma source_keywords_group :
  forall source concept_instances acc,
    Dict.get source
      (fold_left
         (fun source_keywords instance =>
            match Dict.get (ConceptInstance.text_segment_id instance)
                           (rep_lookup_of representations) with
            | None => source_keywords
            | Some rep =>
                match Representation.keywords rep with
                | [] => source_keywords
                | _ :: _ =>
                    match join_document instance documents_df with
                    | None => source_keywords
                    | Some (_, doc) =>
                        let source_id := Document.source_id doc in
                        Dict.set source_id
                          (count_into
                             (or_default (Dict.get source_id source_keywords) [])
                             (Representation.keywords rep))
                          source_keywords
                    end
                end
            end)
         concept_instances acc)
    = extend count_into [] (Dict.get source acc)
        (flat_map (keywords_of representations)
                  (filter (from_source documents_df source)
                          concept_instances)).
Proof.
  intros source insts.
  induction insts as [| i insts IH]; intros acc; [reflexivity |].
  cbn [fold_left filter]. rewrite IH. clear IH.
  destruct (join_document i documents_df) as [[doc_id doc] |] eqn:Ej.
  - rewrite (from_source_join _ _ _ source Ej).
    destruct (String.eqb (Document.source_id doc) source) eqn:Es.
    + apply String.eqb_eq in Es. cbn [flat_map]. unfold keywords_of at 2.
      destruct (Dict.get (ConceptInstance.text_segment_id i) _) as [rep |];
        [| reflexivity].
      destruct (Representation.keywords rep) as [| k ks] eqn:Ek;
        [reflexivity |].
      cbn zeta. rewrite Es, dict_get_set_same.
      apply (extend_app _ _ count_into []); [| discriminate].
      apply count_into_app.
    + apply String.eqb_neq in Es.
      destruct (Dict.get (ConceptInstance.text_segment_id i) _) as [rep |];
        [| reflexivity].
      destruct (Representation.keywords rep) as [| k ks]; [reflexivity |].
      cbn zeta. rewrite dict_get_set_other by exact Es. reflexivity.
  - rewrite (from_source_no_join _ source Ej).
    destruct (Dict.get (ConceptInstance.text_segment_id i) _) as [rep |];
      [| reflexivity].
    destruct (Representation.keywords rep); reflexivity.
Qed.

End Grouping.

Lemma grow_stats_app :
  forall documents_df stats l1 l2,
    grow_stats documents_df (grow_stats documents_df stats l1) l2
    = grow_stats documents_df stats (l1 ++ l2).
Proof.
  intros docs stats l1 l2. unfold grow_stats. rewrite fold_left_app.
  reflexivity.
Qed.

Lemma grow_stats_segments :
  forall documents_df instances stats,
    segments (grow_stats documents_df stats instances)
    = (segments stats + List.length instances)%nat.
Proof.
  intros docs instances. unfold grow_stats.
  induction instances as [| i l IH]; intros stats; cbn [fold_left List.length].
  - lia.
  - rewrite IH. cbn [segments]. lia.
Qed.

Lemma source_stats_group :
  forall documents_df source concept_instances acc,
    Dict.get source
      (fold_left
         (fun source_stats instance =>
            match join_document instance documents_df with
            | None => source_stats
            | Some (doc_id, doc) =>
                let source_id := Document.source_id doc in
                let stats :=
                  or_default (Dict.get source_id source_stats) new_stats in
                Dict.set source_id
                  {| documents := PySet.add doc_id (documents stats);
                     segments := S (segments stats);
                     confidences :=
                       confidences stats
                       ++ [ConceptInstance.confidence instance] |}
                  source_stats
            end)
         concept_instances acc)
    = extend (grow_stats documents_df) new_stats (Dict.get source acc)
        (filter (from_source documents_df source) concept_instances).
Proof.
  intros docs source insts.
  induction insts as [| i insts IH]; intros acc; [reflexivity |].
  cbn [fold_left filter]. rewrite IH. clear IH.
  destruct (join_document i docs) as [[doc_id doc] |] eqn:Ej.
  - rewrite (from_source_join _ _ _ _ source Ej).
    destruct (String.eqb (Document.source_id doc) source) eqn:Es.
    + apply String.eqb_eq in Es. cbn zeta. rewrite Es, dict_get_set_same.
      replace {| documents := _; segments := _; confidences := _ |}
        with (grow_stats docs (or_default (Dict.get source acc) new_stats) [i]).
      * rewrite (extend_app _ _ (grow_stats docs) new_stats);
          [reflexivity | apply grow_stats_app | discriminate].
      * unfold grow_stats, joined_doc_id. cbn [fold_left]. rewrite Ej.
        reflexivity.
    + apply String.eqb_neq in Es. cbn zeta.
      rewrite dict_get_set_other by exact Es. reflexivity.
  - rewrite (from_source_no_join _ _ source Ej). reflexivity.
Qed.

(** *** Keys stay distinct *)

Lemma mem_In :
  forall k l, Str.mem k l = true <-> In k l.
Proof.
  intros k l. unfold Str.mem. rewrite existsb_exists. split.
  - intros [x [Hin Heq]]. apply String.eqb_eq in Heq. subst x. exact Hin.
  - intros Hin. exists k. split; [exact Hin | apply String.eqb_refl].
Qed.

Lemma pyset_add_NoDup :
  forall k s, NoDup s -> NoDup (PySet.add k s).
Proof.
  intros k s H. unfold PySet.add.
  destruct (Str.mem k s) eqn:E; [exact H |].
  apply NoDup_app; [exact H | constructor; [intros [] | constructor] |].
  intros x Hs [<- | []].
  apply mem_In in Hs. congruence.
Qed.

Lemma dict_set_NoDup :
  forall (V : Type) (k : string) (v : V) (d : Dict.t V),
    NoDup (Dict.keys d) -> NoDup (Dict.keys (Dict.set k v d)).
Proof.
  intros V k v d H. rewrite dict_keys_set. apply pyset_add_NoDup. exact H.
Qed.

Lemma fold_set_NoDup :
  forall (X V : Type) (step : Dict.t V -> X -> Dict.t V),
    (forall acc x,
        step acc x = acc \/ exists k v, step acc x = Dict.set k v acc) ->
    forall xs acc,
      NoDup (Dict.keys acc) -> NoDup (Dict.keys (fold_left step xs acc)).
Proof.
  intros X V step Hstep xs.
  induction xs as [| x xs IH]; intros acc H; [exact H |].
  cbn [fold_left]. apply IH.
  destruct (Hstep acc x) as [-> | [k [v ->]]];
    [exact H | apply dict_set_NoDup; exact H].
Qed.

Lemma dict_get_None :
  forall (V : Type) (k : string) (d : Dict.t V),
    ~ In k (Dict.keys d) -> Dict.get k d = None.
Proof.
  intros V k d H.
  pose proof (mem_keys_get V k d) as Hm.
  destruct (Dict.get k d); [| reflexivity].
  exfalso. apply H. apply mem_In. exact Hm.
Qed.

Lemma dict_set_fresh :
  forall (V : Type) (k : string) (v : V) (d : Dict.t V),
    Dict.get k d = None -> Dict.set k v d = d ++ [(k, v)].
Proof.
  intros V k v d. induction d as [| [k' v'] d IH]; cbn; [reflexivity |].
  destruct (String.eqb k k'); [discriminate |].
  intros H. rewrite (IH H). reflexivity.
Qed.

(** A dictionary rebuilt entry by entry from one with distinct keys is
    the entry-wise image of it. *)
Lemma fold_set_map :
  forall (V W : Type) (f : V -> W) (items : Dict.t V) (acc : Dict.t W),
    NoDup (Dict.keys acc ++ Dict.keys items) ->
    fold_left (fun acc '(k, v) => Dict.set k (f v) acc) items acc
    = acc ++ List.map (fun '(k, v) => (k, f v)) items.
Proof.
  intros V W f items.
  induction items as [| [k v] items IH]; intros acc H; cbn [fold_left List.map].
  - rewrite app_nil_r. reflexivity.
  - cbn [Dict.keys List.map fst] in H.
    assert (Hk : ~ In k (Dict.keys acc)).
    { intros Hin. apply NoDup_remove_2 in H. apply H.
      apply in_or_app. left. exact Hin. }
    rewrite (dict_set_fresh _ k (f v) acc (dict_get_None _ _ _ Hk)).
    rewrite IH.
    + rewrite <- app_assoc. reflexivity.
    + unfold Dict.keys in *. rewrite map_app, <- app_assoc. exact H.
Qed.

Lemma dict_get_map :
  forall (V W : Type) (f : V -> W) (k : string) (d : Dict.t V),
    Dict.get k (List.map (fun '(k, v) => (k, f v)) d)
    = option_map f (Dict.get k d).
Proof.
  intros V W f k d. induction d as [| [k' v'] d IH]; cbn; [reflexivity |].
  destruct (String.eqb k k'); [reflexivity | exact IH].
Qed.

Lemma source_stats_NoDup :
  forall concept_instances documents_df,
    NoDup (Dict.keys (source_stats_of concept_instances documents_df)).
Proof.
  intros insts docs. unfold source_stats_of.
  apply fold_set_NoDup; [| constructor].
  intros acc x. destruct (join_document x docs) as [[doc_id doc] |].
  - right. eexists. eexists. reflexivity.
  - left. reflexivity.
Qed.

Lemma coverage_values_get :
  forall concept_instances documents_df concept_id source,
    Dict.get source
      (coverage_values
         (analyze_coverage concept_instances documents_df concept_id))
    = option_map coverage_entry
        (Dict.get source (source_stats_of concept_instances documents_df)).
Proof.
  intros insts docs cid source.
  unfold analyze_coverage, coverage_values. cbn [ComparisonResult.values].
  rewrite (fold_set_map _ _ coverage_entry).
  - cbn [app]. apply dict_get_map.
  - cbn [Dict.keys List.map app]. apply source_stats_NoDup.
Qed.

(** *** Instances whose join fails change nothing *)

Lemma get_source_embeddings_joined :
  forall representations concept_instances documents_df,
    _get_source_embeddings representations
      (filter (joins documents_df) concept_instances) documents_df
    = _get_source_embeddings representations concept_instances documents_df.
Proof.
  intros reps insts docs. unfold _get_source_embeddings.
  apply fold_left_filter_skip. intros a x Hx. unfold joins in Hx.
  destruct (join_document x docs); [discriminate |].
  destruct (Dict.get _ _) as [rep |]; [| reflexivity].
  destruct (Representation.embedding rep); reflexivity.
Qed.

Lemma source_keywords_joined :
  forall representations concept_instances documents_df,
    source_keywords_of representations
      (filter (joins documents_df) concept_instances) documents_df
    = source_keywords_of representations concept_instances documents_df.
Proof.
  intros reps insts docs. unfold source_keywords_of.
  apply fold_left_filter_skip. intros a x Hx. unfold joins in Hx.
  destruct (join_document x docs); [discriminate |].
  destruct (Dict.get _ _) as [rep |]; [| reflexivity].
  destruct (Representation.keywords rep); reflexivity.
Qed.

Lemma source_stats_joined :
  forall concept_instances documents_df,
    source_stats_of (filter (joins documents_df) concept_instances)
                    documents_df
    = source_stats_of concept_instances documents_df.
Proof.
  intros insts docs. unfold source_stats_of.
  apply fold_left_filter_skip. intros a x Hx. unfold joins in Hx.
  destruct (join_document x docs); [discriminate | reflexivity].
Qed.

(** C1, as the code has it.  In the three metrics an instance is grouped
    under the [source_id] of the first document row whose id equals the
    instance's own [metadata['document_id']]; the segment table is not
    consulted.  An instance whose metadata holds no usable document id, or
    whose document id matches no row, is skipped: each metric computed on
    all instances equals the metric computed on the joined ones, so a
    failed join neither contributes nor aborts.  Per source, the embedding
    list, the keyword counts and the segment count are those of the
    instances joined to that source, in order. *)
Theorem metrics_join_through_metadata :
  forall representations concept_instances documents_df concept_id,
    let joined := filter (joins documents_df) concept_instances in
    calculate_source_similarity representations joined documents_df concept_id
    = calculate_source_similarity representations concept_instances
        documents_df concept_id
    /\ analyze_lexical_patterns representations joined documents_df concept_id
       = analyze_lexical_patterns representations concept_instances
           documents_df concept_id
    /\ analyze_coverage joined documents_df concept_id
       = analyze_coverage concept_instances documents_df concept_id
    /\ (forall source,
          let members :=
            filter (from_source documents_df source) concept_instances in
          Dict.get source
            (_get_source_embeddings representations concept_instances
               documents_df)
          = extend (@app Vec) [] None
              (flat_map (embedding_of representations) members)
          /\ Dict.get source
               (source_keywords_of representations concept_instances
                  documents_df)
             = extend count_into [] None
                 (flat_map (keywords_of representations) members)
          /\ option_map segment_count
               (Dict.get source
                  (coverage_values
                     (analyze_coverage concept_instances documents_df
                        concept_id)))
             = match members with
               | [] => None
               | _ :: _ => Some (List.length members)
               end).
Proof.
  intros reps insts docs cid joined. subst joined.
  split; [| split; [| split]].
  - unfold calculate_source_similarity.
    rewrite get_source_embeddings_joined. reflexivity.
  - unfold analyze_lexical_patterns.
    rewrite source_keywords_joined. reflexivity.
  - unfold analyze_coverage. rewrite source_stats_joined. reflexivity.
  - intros source members. subst members. split; [| split].
    + unfold _get_source_embeddings.
      rewrite source_embeddings_group. reflexivity.
    + unfold source_keywords_of.
      rewrite source_keywords_group. reflexivity.
    + rewrite coverage_values_get. unfold source_stats_of.
      rewrite source_stats_group. cbn [Dict.get].
      destruct (filter _ insts) as [| i l] eqn:E; [reflexivity |].
      cbn [extend option_map or_default coverage_entry segment_count].
      rewrite grow_stats_segments. reflexivity.
Qed.

(** C1 as stated fails: the instance [assign_concept] emits for a segment
    of document [doc1] reaches a source through its segment, but its
    metadata carries no ['document_id'], so every metric leaves it out. *)
Lemma segment_join_counterexample :
  let instance :=
    instance_of keyword_only_assigner [] one_term_segment one_term_concept in
  assign_concept keyword_only_assigner [] one_term_segment one_term_concept
  = (Some instance, [])
  /\ segment_join [one_term_segment] one_document instance = Some "outlet_a"
  /\ _get_source_embeddings one_representation [instance] one_document = []
  /\ ComparisonResult.sources
       (analyze_lexical_patterns one_representation [instance] one_document
          "c1") = []
  /\ ComparisonResult.sources (analyze_coverage [instance] one_document "c1")
     = [].
Proof.
  cbn zeta. split; [| repeat split; reflexivity].
  apply (assign_concept_emits keyword_only_assigner).
  rewrite one_term_combined. cbn. lra.
Qed.

(** ** Source similarity *)

Lemma pyset_update_app :
  forall l1 l2 s,
    PySet.update (l1 ++ l2) s = PySet.update l2 (PySet.update l1 s).
Proof.
  intros l1 l2 s. unfold PySet.update. apply fold_left_app.
Qed.

Lemma pyset_add_In :
  forall k x s, In k (PySet.add x s) <-> In k s \/ k = x.
Proof.
  intros k x s. unfold PySet.add.
  destruct (Str.mem x s) eqn:E.
  - apply mem_In in E. split; [tauto |]. intros [H | ->]; assumption.
  - rewrite in_app_iff. cbn. split.
    + intros [H | [<- | []]]; auto.
    + intros [H | ->]; auto.
Qed.

Lemma pyset_update_In :
  forall k l s, In k (PySet.update l s) <-> In k s \/ In k l.
Proof.
  intros k l. unfold PySet.update.
  induction l as [| x l IH]; intros s; cbn [fold_left].
  - cbn. tauto.
  - rewrite IH, pyset_add_In. cbn. split; intros H; intuition auto.
Qed.

Lemma pyset_update_NoDup :
  forall l s, NoDup s -> NoDup (PySet.update l s).
Proof.
  intros l. unfold PySet.update.
  induction l as [| x l IH]; intros s H; cbn [fold_left]; [exact H |].
  apply IH, pyset_add_NoDup, H.
Qed.

(** The keys of the grouping are the distinct contributing sources in
    encounter order. *)
Lemma source_embeddings_keys :
  forall representations concept_instances documents_df,
    Dict.keys (_get_source_embeddings representations concept_instances
                                      documents_df)
    = PySet.of_list
        (embedding_sources representations concept_instances documents_df).
Proof.
  intros reps insts docs.
  unfold _get_source_embeddings, PySet.of_list, PySet.empty.
  change (@nil string) with (Dict.keys (@nil (string * list Vec))).
  generalize (@nil (string * list Vec)) as acc.
  induction insts as [| i insts IH]; intros acc; [reflexivity |].
  cbn [fold_left embedding_sources flat_map].
  fold (embedding_sources reps insts docs).
  rewrite pyset_update_app, IH. f_equal.
  unfold embedding_of, metadata_source.
  destruct (Dict.get (ConceptInstance.text_segment_id i) _) as [rep |];
    [| reflexivity].
  destruct (Representation.embedding rep) as [e |]; [| reflexivity].
  destruct (join_document i docs) as [[doc_id doc] |]; [| reflexivity].
  cbn. apply dict_keys_set.
Qed.

Lemma few_distinct :
  forall l : list string,
    (forall s1 s2, In s1 l -> In s2 l -> s1 = s2) ->
    (List.length (PySet.of_list l) < 2)%nat.
Proof.
  intros l Hall.
  assert (Hnd : NoDup (PySet.of_list l)).
  { apply pyset_update_NoDup. constructor. }
  assert (Hin : forall k, In k (PySet.of_list l) -> In k l).
  { intros k Hk. apply pyset_update_In in Hk. destruct Hk as [[] | Hk].
    exact Hk. }
  destruct (PySet.of_list l) as [| a [| b rest]]; cbn; try lia.
  exfalso. apply NoDup_cons_iff in Hnd as [Hna _]. apply Hna.
  left. apply Hall; apply Hin; cbn; auto.
Qed.

Lemma two_distinct :
  forall (l : list string) s1 s2,
    In s1 l -> In s2 l -> s1 <> s2 ->
    (2 <= List.length (PySet.of_list l))%nat.
Proof.
  intros l s1 s2 H1 H2 Hne.
  assert (Hin : forall k, In k l -> In k (PySet.of_list l)).
  { intros k Hk. apply pyset_update_In. right. exact Hk. }
  apply Hin in H1, H2.
  destruct (PySet.of_list l) as [| a [| b rest]]; cbn in *;
    [destruct H1 | | lia].
  exfalso. destruct H1 as [<- | []]. destruct H2 as [<- | []]. congruence.
Qed.

(** *** Embeddings of one length *)

Lemma dict_get_set_inv :
  forall (V : Type) (k k' : string) (v r : V) (d : Dict.t V),
    Dict.get k (Dict.set k' v d) = Some r ->
    r = v \/ Dict.get k d = Some r.
Proof.
  intros V k k' v r d H.
  destruct (String.eqb k' k) eqn:E.
  - apply String.eqb_eq in E. subst k'. rewrite dict_get_set_same in H.
    left. congruence.
  - apply String.eqb_neq in E. rewrite dict_get_set_other in H by exact E.
    right. exact H.
Qed.

Lemma rep_lookup_In :
  forall representations k rep,
    Dict.get k (rep_lookup_of representations) = Some rep ->
    In rep representations.
Proof.
  intros reps k rep. unfold rep_lookup_of.
  assert (H : forall acc,
             Dict.get k
               (fold_left
                  (fun d r => Dict.set (Representation.concept_instance_id r) r d)
                  reps acc) = Some rep ->
             In rep reps \/ Dict.get k acc = Some rep).
  { induction reps as [| r reps IH]; intros acc Hget; [right; exact Hget |].
    cbn [fold_left] in Hget. destruct (IH _ Hget) as [Hin | Hacc].
    - left. right. exact Hin.
    - apply dict_get_set_inv in Hacc. destruct Hacc as [-> | Hacc].
      + left. left. reflexivity.
      + right. exact Hacc. }
  intros Hget. destruct (H [] Hget) as [Hin | Hnil];
    [exact Hin | discriminate].
Qed.

Lemma embedding_of_length :
  forall dim representations instance e,
    uniform_dim dim representations ->
    In e (embedding_of representations instance) ->
    List.length e = dim.
Proof.
  intros dim reps i e Hdim Hin. unfold embedding_of in Hin.
  destruct (Dict.get _ _) as [rep |] eqn:Eg; [| destruct Hin].
  destruct (Representation.embedding rep) as [e' |] eqn:Ee; [| destruct Hin].
  destruct Hin as [<- | []].
  apply (Hdim rep e'); [apply (rep_lookup_In _ _ _ Eg) | exact Ee].
Qed.

Lemma source_embeddings_good :
  forall dim representations concept_instances documents_df source group,
    uniform_dim dim representations ->
    Dict.get source
      (_get_source_embeddings representations concept_instances documents_df)
    = Some group ->
    good_group dim group.
Proof.
  intros dim reps insts docs source group Hdim Hget.
  unfold _get_source_embeddings in Hget.
  rewrite source_embeddings_group in Hget. cbn [Dict.get] in Hget.
  destruct (flat_map _ _) as [| e l] eqn:E; [discriminate |].
  cbn [extend or_default app] in Hget. injection Hget as <-.
  split; [discriminate |].
  rewrite <- E. apply Forall_forall. intros x Hx.
  apply in_flat_map in Hx. destruct Hx as [i [_ Hx]].
  apply (embedding_of_length dim reps i x Hdim Hx).
Qed.

Lemma dict_In_get :
  forall (V : Type) (k : string) (v : V) (d : Dict.t V),
    NoDup (Dict.keys d) -> In (k, v) d -> Dict.get k d = Some v.
Proof.
  intros V k v d. unfold Dict.keys.
  induction d as [| [k' v'] d IH]; intros Hnd Hin; [destruct Hin |].
  cbn in *. apply NoDup_cons_iff in Hnd as [Hfresh Hnd].
  destruct Hin as [Heq | Hin].
  - injection Heq as -> ->. rewrite String.eqb_refl. reflexivity.
  - destruct (String.eqb k k') eqn:E; [| apply IH; assumption].
    apply String.eqb_eq in E. subst k'. exfalso. apply Hfresh.
    apply in_map_iff. exists (k, v). split; [reflexivity | exact Hin].
Qed.

Lemma vec_add_length :
  forall a b,
    List.length a = List.length b ->
    List.length (vec_add a b) = List.length a.
Proof.
  induction a as [| x a IH]; intros [| y b] H; cbn in *; try lia.
  rewrite IH; lia.
Qed.

Lemma fold_vec_add_length :
  forall dim vs v,
    Forall (fun e => List.length e = dim) vs ->
    List.length v = dim ->
    List.length (fold_left vec_add vs v) = dim.
Proof.
  intros dim vs. induction vs as [| w vs IH]; intros v Hall Hv;
    cbn [fold_left]; [exact Hv |].
  apply Forall_cons_iff in Hall as [Hw Hall].
  apply IH; [exact Hall |]. rewrite vec_add_length; lia.
Qed.

Lemma np_mean_good :
  forall dim group,
    good_group dim group ->
    np_mean_axis0 group = Some (mean_vec group)
    /\ List.length (mean_vec group) = dim.
Proof.
  intros dim group [Hne Hall]. unfold mean_vec, np_mean_axis0.
  destruct group as [| v vs]; [congruence |].
  apply Forall_cons_iff in Hall as [Hv Hall].
  assert (Hb : forallb (fun w => (List.length w =? List.length v)%nat) vs
               = true).
  { apply forallb_forall. intros w Hw. apply Nat.eqb_eq.
    rewrite Forall_forall in Hall. rewrite (Hall w Hw). lia. }
  rewrite Hb. cbn [or_default]. split; [reflexivity |].
  rewrite length_map. apply fold_vec_add_length; assumption.
Qed.

Lemma average_sources_good :
  forall dim items acc,
    Forall (fun kv => good_group dim (snd kv)) items ->
    NoDup (Dict.keys acc ++ Dict.keys items) ->
    average_sources items acc
    = Return (acc ++ List.map (fun '(k, group) => (k, mean_vec group)) items).
Proof.
  intros dim items.
  induction items as [| [k group] items IH]; intros acc Hall Hnd;
    cbn [average_sources List.map].
  - rewrite app_nil_r. reflexivity.
  - apply Forall_cons_iff in Hall as [Hg Hall]. cbn [snd] in Hg.
    destruct (np_mean_good dim group Hg) as [Hmean _].
    destruct group as [| v vs]; [destruct Hg as [Hne _]; congruence |].
    rewrite Hmean.
    cbn [Dict.keys List.map fst] in Hnd.
    assert (Hk : ~ In k (Dict.keys acc)).
    { intros Hin. apply NoDup_remove_2 in Hnd. apply Hnd.
      apply in_or_app. left. exact Hin. }
    rewrite (dict_set_fresh _ k _ acc (dict_get_None _ _ _ Hk)).
    rewrite IH; [rewrite <- app_assoc; reflexivity | exact Hall |].
    unfold Dict.keys in *. rewrite map_app, <- app_assoc. exact Hnd.
Qed.

(** *** The similarity matrix *)

Lemma pairs_of_length :
  forall sources,
    (2 * List.length (pairs_of sources)
     = List.length sources * (List.length sources - 1))%nat.
Proof.
  induction sources as [| s later IH]; [reflexivity |].
  cbn [pairs_of List.length]. rewrite length_app, length_map. nia.
Qed.

Lemma fold_left_map_in :
  forall (A X Y : Type) (f : A -> Y -> A) (g : X -> Y) l a,
    fold_left f (List.map g l) a = fold_left (fun a x => f a (g x)) l a.
Proof.
  intros A X Y f g l. induction l as [| x l IH]; intros a; cbn;
    [reflexivity | apply IH].
Qed.

Section Rows.

Variable dim : nat.
Variable avg : Dict.t Vec.

Lemma similarity_row_ok :
  forall source1 later m,
    averaged dim avg source1 ->
    Forall (averaged dim avg) later ->
    similarity_row avg source1 later m
    = Return (fold_left (set_pair avg) (List.map (pair source1) later) m).
Proof.
  intros source1 later. induction later as [| source2 rest IH];
    intros m H1 Hl; [reflexivity |].
  apply Forall_cons_iff in Hl as [H2 Hl].
  cbn [similarity_row List.map fold_left].
  destruct H1 as [e1 [G1 L1]]. destruct H2 as [e2 [G2 L2]].
  rewrite G1, G2. unfold cosine, np_dot.
  rewrite L1, L2, Nat.eqb_refl.
  rewrite IH; [| exists e1; split; assumption | exact Hl].
  do 2 apply f_equal.
  unfold set_pair, cosine_between. cbn [fst snd].
  rewrite G1, G2. reflexivity.
Qed.

Lemma similarity_rows_ok :
  forall sources m,
    Forall (averaged dim avg) sources ->
    similarity_rows avg sources m
    = Return (fold_left (set_pair avg) (pairs_of sources) m).
Proof.
  intros sources. induction sources as [| source1 later IH]; intros m Hs;
    [reflexivity |].
  apply Forall_cons_iff in Hs as [H1 Hl].
  cbn [similarity_rows pairs_of].
  rewrite (similarity_row_ok _ _ _ H1 Hl), fold_left_app.
  apply IH. exact Hl.
Qed.

End Rows.

Lemma set_pairs_keys :
  forall avg pairs m,
    Dict.keys (fold_left (set_pair avg) pairs m)
    = PySet.update (List.map (fun p => pair_key (fst p) (snd p)) pairs)
                   (Dict.keys m).
Proof.
  intros avg pairs. unfold PySet.update.
  induction pairs as [| p pairs IH]; intros m; [reflexivity |].
  cbn [fold_left List.map]. rewrite IH. unfold set_pair.
  rewrite dict_keys_set. reflexivity.
Qed.

Lemma set_pairs_distinct :
  forall avg pairs m,
    NoDup (Dict.keys m
           ++ List.map (fun p => pair_key (fst p) (snd p)) pairs) ->
    fold_left (set_pair avg) pairs m
    = m ++ List.map (fun p => (pair_key (fst p) (snd p), cosine_between avg p))
                    pairs.
Proof.
  intros avg pairs.
  induction pairs as [| p pairs IH]; intros m Hnd; cbn [fold_left List.map].
  - rewrite app_nil_r. reflexivity.
  - cbn [List.map] in Hnd.
    assert (Hk : ~ In (pair_key (fst p) (snd p)) (Dict.keys m)).
    { intros Hin. apply NoDup_remove_2 in Hnd. apply Hnd.
      apply in_or_app. left. exact Hin. }
    replace (set_pair avg m p)
      with (Dict.set (pair_key (fst p) (snd p)) (cosine_between avg p) m)
      by reflexivity.
    rewrite (dict_set_fresh _ _ _ m (dict_get_None _ _ _ Hk)).
    rewrite IH; [rewrite <- app_assoc; reflexivity |].
    unfold Dict.keys in *. rewrite map_app, <- app_assoc. exact Hnd.
Qed.

Lemma dict_keys_map :
  forall (V W : Type) (f : V -> W) (d : Dict.t V),
    Dict.keys (List.map (fun '(k, v) => (k, f v)) d) = Dict.keys d.
Proof.
  intros V W f d. unfold Dict.keys. rewrite map_map.
  apply map_ext. intros [k v]. reflexivity.
Qed.

(** C7, as the code has it.  When the contributing instances map to fewer
    than two distinct sources the call returns [None].  When two distinct
    sources contribute and all embeddings have one length, it returns a
    result listing the sources in encounter order; for every unordered
    pair the matrix holds a value under ["A vs B"], and when no two pairs
    format to the same key the matrix is exactly the list of pairs in
    loop order, each with the cosine of its two averaged embeddings, so it
    has n(n-1)/2 entries. *)
Theorem source_similarity_result :
  forall representations concept_instances documents_df concept_id,
    let srcs :=
      embedding_sources representations concept_instances documents_df in
    let avg :=
      source_averages representations concept_instances documents_df in
    ((forall s1 s2, In s1 srcs -> In s2 srcs -> s1 = s2) ->
     calculate_source_similarity representations concept_instances
       documents_df concept_id = Return None)
    /\ (forall dim s1 s2,
          uniform_dim dim representations ->
          In s1 srcs -> In s2 srcs -> s1 <> s2 ->
          exists r,
            calculate_source_similarity representations concept_instances
              documents_df concept_id = Return (Some r)
            /\ ComparisonResult.sources r = PySet.of_list srcs
            /\ (forall p,
                  In p (pairs_of (ComparisonResult.sources r)) ->
                  exists v,
                    Dict.get (key_of p) (similarity_values r) = Some v)
            /\ (NoDup (List.map key_of (pairs_of (ComparisonResult.sources r)))
                -> similarity_values r
                   = List.map (fun p => (key_of p, cosine_between avg p))
                              (pairs_of (ComparisonResult.sources r))
                   /\ (2 * List.length (similarity_values r)
                       = List.length (ComparisonResult.sources r)
                         * (List.length (ComparisonResult.sources r) - 1))%nat)).
Proof.
  intros reps insts docs cid srcs avg.
  pose proof (source_embeddings_keys reps insts docs) as Hkeys.
  fold srcs in Hkeys.
  assert (Hlen : List.length (_get_source_embeddings reps insts docs)
                 = List.length (PySet.of_list srcs)).
  { rewrite <- Hkeys. unfold Dict.keys. rewrite length_map. reflexivity. }
  split.
  - intros Hfew. unfold calculate_source_similarity. rewrite Hlen.
    apply few_distinct in Hfew. apply Nat.ltb_lt in Hfew. rewrite Hfew.
    reflexivity.
  - intros dim s1 s2 Hdim H1 H2 Hne.
    pose proof (two_distinct srcs s1 s2 H1 H2 Hne) as Htwo.
    assert (Hnd : NoDup (Dict.keys (_get_source_embeddings reps insts docs))).
    { rewrite Hkeys. apply pyset_update_NoDup. constructor. }
    assert (Hgood : Forall (fun kv => good_group dim (snd kv))
                           (_get_source_embeddings reps insts docs)).
    { apply Forall_forall. intros [k group] Hin. cbn [snd].
      apply (source_embeddings_good dim reps insts docs k group Hdim).
      apply dict_In_get; assumption. }
    unfold calculate_source_similarity. rewrite Hlen.
    assert (Hge : (List.length (PySet.of_list srcs) <? 2)%nat = false).
    { apply Nat.ltb_ge. exact Htwo. }
    rewrite Hge.
    rewrite (average_sources_good dim _ [] Hgood) by exact Hnd.
    cbn [app]. fold (source_averages reps insts docs). fold avg.
    assert (Havgkeys : Dict.keys avg = PySet.of_list srcs).
    { unfold avg, source_averages. rewrite dict_keys_map. exact Hkeys. }
    assert (Haveraged : Forall (averaged dim avg) (Dict.keys avg)).
    { apply Forall_forall. intros s Hs.
      unfold avg, source_averages in Hs. rewrite dict_keys_map in Hs.
      pose proof (mem_keys_get _ s (_get_source_embeddings reps insts docs))
        as Hm.
      apply mem_In in Hs. rewrite Hs in Hm.
      destruct (Dict.get s (_get_source_embeddings reps insts docs))
        as [group |] eqn:Eg; [| discriminate].
      exists (mean_vec group). split.
      - unfold avg, source_averages. rewrite dict_get_map, Eg. reflexivity.
      - apply (np_mean_good dim group).
        apply (source_embeddings_good dim reps insts docs s group Hdim Eg). }
    rewrite (similarity_rows_ok dim avg _ [] Haveraged).
    eexists. split; [reflexivity |].
    cbn [ComparisonResult.sources similarity_values ComparisonResult.values].
    split; [exact Havgkeys |]. split.
    + intros p Hp.
      pose proof (mem_keys_get _ (key_of p)
                    (fold_left (set_pair avg) (pairs_of (Dict.keys avg)) []))
        as Hm.
      rewrite set_pairs_keys in Hm.
      assert (Hin : Str.mem (key_of p)
                      (PySet.update
                         (List.map (fun p => pair_key (fst p) (snd p))
                                   (pairs_of (Dict.keys avg)))
                         (Dict.keys (@nil (string * option R)))) = true).
      { apply mem_In, pyset_update_In. right.
        apply in_map_iff. exists p. split; [reflexivity | exact Hp]. }
      rewrite Hin in Hm.
      destruct (Dict.get (key_of p) _) as [v |]; [| discriminate].
      exists v. reflexivity.
    + intros Hdistinct.
      rewrite (set_pairs_distinct avg _ []) by exact Hdistinct.
      cbn [app]. split; [reflexivity |].
      rewrite length_map. apply pairs_of_length.
Qed.

(** *** Concrete inputs *)

(** C7 as stated fails on its last clause: with the four sources
    ["a vs b"], ["c"], ["a"], ["b vs c"] the six unordered pairs share
    five keys (["a vs b vs c"] names two of them), so the matrix holds
    five values, not one per pair. *)
Lemma pair_key_collision_counterexample :
  match calculate_source_similarity four_representations four_instances
          four_documents "c1" with
  | Return (Some r) =>
      ComparisonResult.sources r = ["a vs b"; "c"; "a"; "b vs c"]
      /\ List.length (pairs_of (ComparisonResult.sources r)) = 6%nat
      /\ List.length (similarity_values r) = 5%nat
      /\ key_of ("a vs b", "c") = key_of ("a", "b vs c")
  | _ => False
  end.
Proof.
  lazy. repeat split.
Qed.

Lemma two_representations_dim : uniform_dim 2 two_representations.
Proof.
  intros rep e [<- | [<- | []]] H; injection H as <-; reflexivity.
Qed.

Lemma source_similarity_result_witness :
  calculate_source_similarity two_representations
    [loaded_instance "s1" "d1"] two_documents "c1" = Return None
  /\ exists r,
       calculate_source_similarity two_representations
         [loaded_instance "s1" "d1"; loaded_instance "s2" "d2"]
         two_documents "c1" = Return (Some r)
       /\ ComparisonResult.sources r = ["outlet_a"; "outlet_b"]
       /\ (2 * List.length (similarity_values r) = 2)%nat.
Proof.
  split.
  - apply (proj1 (source_similarity_result two_representations
                    [loaded_instance "s1" "d1"] two_documents "c1")).
    intros s1 s2 [<- | []] [<- | []]. reflexivity.
  - destruct (proj2 (source_similarity_result two_representations
                       [loaded_instance "s1" "d1"; loaded_instance "s2" "d2"]
                       two_documents "c1")
                2%nat "outlet_a" "outlet_b" two_representations_dim)
      as [r [Hr [Hs [_ Hv]]]].
    + left. reflexivity.
    + right. left. reflexivity.
    + discriminate.
    + exists r. split; [exact Hr |]. split; [exact Hs |].
      rewrite Hs in Hv. destruct Hv as [_ Hn].
      * lazy. repeat constructor; intros [].
      * exact Hn.
Defined.

(* ================================================================== *)
(** * Properties of the representation extractor *)

(** ** Ranking *)

Section Ranking.

(** A position for every key; the items to sort arrive in increasing
    position. *)
Variable pos : string -> nat.

Lemma insert_desc_perm :
  forall x l, Permutation (insert_desc x l) (x :: l).
Proof.
  intros x l. induction l as [| y l IH]; cbn [insert_desc];
    [apply Permutation_refl |].
  destruct (snd x <? snd y)%nat; [| apply Permutation_refl].
  eapply perm_trans; [apply perm_skip, IH | apply perm_swap].
Qed.

Lemma sorted_desc_perm :
  forall l, Permutation (sorted_desc l) l.
Proof.
  induction l as [| x l IH]; cbn [sorted_desc fold_right]; [apply perm_nil |].
  eapply perm_trans; [apply insert_desc_perm | apply perm_skip, IH].
Qed.

Lemma insert_desc_sorted :
  forall x l,
    StronglySorted (item_before pos) l ->
    Forall (fun y => (pos (fst x) < pos (fst y))%nat) l ->
    StronglySorted (item_before pos) (insert_desc x l).
Proof.
  intros x l. induction l as [| y l IH]; intros Hs Hpos; cbn [insert_desc].
  - constructor; constructor.
  - apply StronglySorted_inv in Hs as [Hs Hy].
    apply Forall_cons_iff in Hpos as [Hxy Hpos].
    destruct (snd x <? snd y)%nat eqn:E.
    + apply Nat.ltb_lt in E. constructor; [apply IH; assumption |].
      apply (Permutation_Forall (Permutation_sym (insert_desc_perm x l))).
      constructor; [left; exact E | exact Hy].
    + apply Nat.ltb_ge in E. constructor.
      * constructor; assumption.
      * constructor; [unfold item_before; lia |].
        rewrite Forall_forall in Hy, Hpos |- *. intros z Hz.
        specialize (Hy z Hz). specialize (Hpos z Hz).
        unfold item_before in *. lia.
Qed.

Lemma sorted_desc_sorted :
  forall l,
    StronglySorted (fun x y => (pos (fst x) < pos (fst y))%nat) l ->
    StronglySorted (item_before pos) (sorted_desc l).
Proof.
  induction l as [| x l IH]; intros Hs; cbn [sorted_desc fold_right];
    [constructor |].
  apply StronglySorted_inv in Hs as [Hs Hx].
  apply insert_desc_sorted; [apply IH; exact Hs |].
  apply (Permutation_Forall (Permutation_sym (sorted_desc_perm l))).
  exact Hx.
Qed.

End Ranking.

Lemma StronglySorted_app_inv :
  forall (A : Type) (R : A -> A -> Prop) l1 l2 x y,
    StronglySorted R (l1 ++ l2) -> In x l1 -> In y l2 -> R x y.
Proof.
  intros A R l1. induction l1 as [| a l1 IH]; intros l2 x y Hs Hx Hy;
    [destruct Hx |].
  cbn in Hs. apply StronglySorted_inv in Hs as [Hs Ha].
  destruct Hx as [<- | Hx].
  - rewrite Forall_forall in Ha. apply Ha. apply in_or_app. right. exact Hy.
  - apply (IH l2); assumption.
Qed.

Lemma firstn_incl :
  forall (A : Type) n (l : list A) x, In x (firstn n l) -> In x l.
Proof.
  intros A n l x H. rewrite <- (firstn_skipn n l).
  apply in_or_app. left. exact H.
Qed.

Lemma StronglySorted_firstn :
  forall (A : Type) (R : A -> A -> Prop) n l,
    StronglySorted R l -> StronglySorted R (firstn n l).
Proof.
  intros A R n. induction n as [| n IH]; intros l Hs; [constructor |].
  destruct l as [| a l]; [constructor |].
  apply StronglySorted_inv in Hs as [Hs Ha]. cbn.
  constructor; [apply IH; exact Hs |].
  rewrite Forall_forall in Ha |- *. intros z Hz. apply Ha.
  apply (firstn_incl _ _ _ _ Hz).
Qed.

Lemma StronglySorted_map_in :
  forall (A B : Type) (R : A -> A -> Prop) (R' : B -> B -> Prop)
         (f : A -> B) l,
    (forall x y, In x l -> In y l -> R x y -> R' (f x) (f y)) ->
    StronglySorted R l -> StronglySorted R' (List.map f l).
Proof.
  intros A B R R' f l. induction l as [| a l IH]; intros Himp Hs;
    [constructor |].
  apply StronglySorted_inv in Hs as [Hs Ha]. cbn. constructor.
  - apply IH; [| exact Hs]. intros x y Hx Hy. apply Himp; right; assumption.
  - rewrite Forall_forall in Ha |- *. intros z Hz.
    apply in_map_iff in Hz as [y [<- Hy]].
    apply Himp; [left; reflexivity | right; exact Hy | apply Ha; exact Hy].
Qed.

(** ** Counting *)

Lemma count_into_keys :
  forall words counts,
    Dict.keys (count_into counts words)
    = PySet.update words (Dict.keys counts).
Proof.
  unfold count_into, PySet.update.
  induction words as [| w words IH]; intros counts; [reflexivity |].
  cbn [fold_left]. rewrite IH, dict_keys_set. reflexivity.
Qed.

Lemma count_into_get :
  forall w words counts,
    Dict.get w (count_into counts words)
    = match count_occ string_dec words w with
      | 0%nat => Dict.get w counts
      | S n => Some (or_default (Dict.get w counts) 0 + S n)%nat
      end.
Proof.
  intros w. unfold count_into.
  induction words as [| x words IH]; intros counts; [reflexivity |].
  cbn [fold_left count_occ]. rewrite IH.
  destruct (string_dec x w) as [-> | Hne].
  - rewrite dict_get_set_same. cbn [or_default].
    destruct (count_occ string_dec words w); f_equal; lia.
  - rewrite dict_get_set_other by exact Hne. reflexivity.
Qed.

(** ** First-occurrence order *)

Lemma index_of_le :
  forall w l, (index_of w l <= List.length l)%nat.
Proof.
  intros w l. induction l as [| x l IH]; cbn; [lia |].
  destruct (String.eqb w x); lia.
Qed.

Lemma index_of_mem :
  forall w l, Str.mem w l = true -> (index_of w l < List.length l)%nat.
Proof.
  intros w l. unfold Str.mem.
  induction l as [| x l IH]; cbn; [discriminate |].
  destruct (String.eqb w x); cbn; [lia |]. intros H. apply IH in H. lia.
Qed.

Lemma index_of_app :
  forall w s t,
    index_of w (s ++ t)
    = if Str.mem w s then index_of w s
      else (List.length s + index_of w t)%nat.
Proof.
  intros w s t. unfold Str.mem.
  induction s as [| x s IH]; cbn; [reflexivity |].
  destruct (String.eqb w x); cbn; [reflexivity |].
  rewrite IH. destruct (existsb (String.eqb w) s); reflexivity.
Qed.

Lemma index_of_inj :
  forall a b l, In a l -> index_of a l = index_of b l -> a = b.
Proof.
  intros a b l. induction l as [| x l IH]; intros Hin Heq; [destruct Hin |].
  cbn in Heq.
  destruct (String.eqb a x) eqn:Ea; destruct (String.eqb b x) eqn:Eb;
    try discriminate.
  - apply String.eqb_eq in Ea, Eb. congruence.
  - apply String.eqb_neq in Ea. destruct Hin as [-> | Hin]; [congruence |].
    apply IH; [exact Hin | lia].
Qed.

Lemma NoDup_index_sorted :
  forall s, NoDup s -> StronglySorted (index_lt s) s.
Proof.
  induction s as [| a s IH]; intros Hnd; [constructor |].
  apply NoDup_cons_iff in Hnd as [Ha Hnd]. constructor.
  - rewrite <- (map_id s) at 2.
    apply (StronglySorted_map_in _ _ (index_lt s)); [| apply IH; exact Hnd].
    intros x y Hx Hy Hlt. unfold index_lt in *. cbn.
    destruct (String.eqb x a) eqn:Ex;
      [apply String.eqb_eq in Ex; congruence |].
    destruct (String.eqb y a) eqn:Ey;
      [apply String.eqb_eq in Ey; congruence |].
    lia.
  - apply Forall_forall. intros y Hy. unfold index_lt. cbn.
    rewrite String.eqb_refl.
    destruct (String.eqb y a) eqn:Ey;
      [apply String.eqb_eq in Ey; congruence | lia].
Qed.

(** [set]-style insertion keeps the elements in the order of their first
    occurrence. *)
Lemma pyset_update_sorted :
  forall xs s,
    NoDup s ->
    StronglySorted (index_lt (s ++ xs)) (PySet.update xs s).
Proof.
  unfold PySet.update.
  induction xs as [| x xs IH]; intros s Hnd; cbn [fold_left].
  - rewrite app_nil_r. apply NoDup_index_sorted. exact Hnd.
  - pose proof (IH (PySet.add x s) (pyset_add_NoDup x s Hnd)) as Hs.
    unfold PySet.add in *. destruct (Str.mem x s) eqn:Ex.
    + rewrite <- (map_id (fold_left _ xs s)).
      apply (StronglySorted_map_in _ _ (index_lt (s ++ xs))); [| exact Hs].
      intros a b _ _ Hlt. unfold index_lt in *.
      rewrite !index_of_app in *. cbn [index_of].
      pose proof (index_of_mem a s) as Ba.
      pose proof (index_of_mem b s) as Bb.
      destruct (Str.mem a s) eqn:Ma; destruct (Str.mem b s) eqn:Mb.
      * exact Hlt.
      * specialize (Ba eq_refl). lia.
      * specialize (Bb eq_refl). lia.
      * destruct (String.eqb a x) eqn:Ea;
          [apply String.eqb_eq in Ea; congruence |].
        destruct (String.eqb b x) eqn:Eb;
          [apply String.eqb_eq in Eb; congruence |].
        lia.
    + rewrite <- app_assoc in Hs. exact Hs.
Qed.

Lemma StronglySorted_of_map :
  forall (A B : Type) (R : B -> B -> Prop) (f : A -> B) l,
    StronglySorted R (List.map f l) ->
    StronglySorted (fun x y => R (f x) (f y)) l.
Proof.
  intros A B R f l. induction l as [| a l IH]; intros Hs; [constructor |].
  cbn in Hs. apply StronglySorted_inv in Hs as [Hs Ha].
  constructor; [apply IH; exact Hs |].
  rewrite Forall_forall in Ha |- *. intros x Hx. apply Ha.
  apply in_map. exact Hx.
Qed.

(** ** Keyword extraction *)

Lemma mem_pyset_update :
  forall w l s,
    Str.mem w (PySet.update l s) = Str.mem w s || Str.mem w l.
Proof.
  intros w l s. apply eq_iff_eq_true.
  rewrite orb_true_iff, !mem_In. apply pyset_update_In.
Qed.

(** [_extract_keywords], when enabled, ranks the kept tokens. *)
Lemma extract_keywords_unfold :
  forall self text exclude_words,
    RepresentationExtractor.extract_keywords self = true ->
    _extract_keywords self text exclude_words
    = List.map fst
        (firstn (Z.to_nat (RepresentationExtractor.keyword_count self))
                (sorted_desc (Counter (kept_tokens text exclude_words)))).
Proof.
  intros self text exclude_words Hon.
  unfold _extract_keywords, most_common, kept_tokens. rewrite Hon.
  cbn [negb]. do 4 f_equal. apply filter_ext. intros w. do 2 f_equal.
  destruct exclude_words as [[| x xs] |]; cbn [or_default List.map].
  - change (Str.mem w []) with false. rewrite orb_false_r. reflexivity.
  - apply mem_pyset_update.
  - change (Str.mem w []) with false. rewrite orb_false_r. reflexivity.
Qed.

Section Ranked.

Variable kept : list string.

Local Abbreviation c := (Counter kept).

Lemma counter_keys : Dict.keys c = PySet.of_list kept.
Proof. apply count_into_keys. Qed.

Lemma counter_keys_NoDup : NoDup (Dict.keys c).
Proof. rewrite counter_keys. apply pyset_update_NoDup. constructor. Qed.

Lemma counter_item :
  forall x, In x c -> snd x = count_occ string_dec kept (fst x) /\ In (fst x) kept.
Proof.
  intros [w n] Hin. cbn [fst snd].
  pose proof (dict_In_get _ w n c counter_keys_NoDup Hin) as Hget.
  unfold Counter in Hget. rewrite count_into_get in Hget.
  destruct (count_occ string_dec kept w) eqn:E; [discriminate |].
  injection Hget as <-. split; [cbn; lia |].
  apply (count_occ_In string_dec). lia.
Qed.

Lemma counter_sorted :
  StronglySorted
    (item_before (fun w => index_of w kept))
    (sorted_desc c).
Proof.
  apply sorted_desc_sorted.
  apply (StronglySorted_of_map _ _ (index_lt kept) fst).
  change (List.map fst c) with (Dict.keys c). rewrite counter_keys.
  apply (pyset_update_sorted kept []). constructor.
Qed.

Lemma item_before_outranks :
  forall x y,
    In x c -> In y c ->
    item_before (fun w => index_of w kept) x y ->
    outranks kept (fst x) (fst y).
Proof.
  intros x y Hx Hy H.
  destruct (counter_item x Hx) as [Ex _].
  destruct (counter_item y Hy) as [Ey _].
  unfold item_before, outranks in *. rewrite <- Ex, <- Ey. exact H.
Qed.

Lemma ranked_properties :
  forall n,
    let out := List.map fst (firstn n (sorted_desc c)) in
    NoDup out
    /\ (forall w, In w out -> In w kept)
    /\ List.length out = Nat.min n (List.length (PySet.of_list kept))
    /\ StronglySorted (outranks kept) out
    /\ (forall a b, In a out -> In b kept -> ~ In b out -> outranks kept a b).
Proof.
  intros n out. subst out.
  pose proof (sorted_desc_perm c) as Hperm.
  assert (Hin : forall x, In x (firstn n (sorted_desc c)) -> In x c).
  { intros x Hx. apply (Permutation_in _ Hperm).
    apply (firstn_incl _ _ _ _ Hx). }
  split; [| split; [| split; [| split]]].
  - rewrite <- firstn_map.
    apply (NoDup_app_remove_r _ (skipn n (List.map fst (sorted_desc c)))).
    rewrite firstn_skipn.
    apply (Permutation_NoDup (Permutation_sym (Permutation_map fst Hperm))).
    apply counter_keys_NoDup.
  - intros w Hw. apply in_map_iff in Hw as [x [<- Hx]].
    apply counter_item, Hin, Hx.
  - rewrite length_map, length_firstn.
    rewrite (Permutation_length Hperm), <- counter_keys.
    unfold Dict.keys. rewrite length_map. reflexivity.
  - apply (StronglySorted_map_in _ _
             (item_before (fun w => index_of w kept))).
    + intros x y Hx Hy. apply item_before_outranks; apply Hin; assumption.
    + apply StronglySorted_firstn, counter_sorted.
  - intros a b Ha Hb Hnb.
    apply in_map_iff in Ha as [x [<- Hx]].
    assert (Hkey : In b (Dict.keys c)).
    { rewrite counter_keys. apply pyset_update_In. right. exact Hb. }
    apply in_map_iff in Hkey as [y [<- Hy]].
    apply item_before_outranks; [apply Hin; exact Hx | exact Hy |].
    apply (Permutation_in _ (Permutation_sym Hperm)) in Hy.
    rewrite <- (firstn_skipn n (sorted_desc c)) in Hy.
    apply in_app_or in Hy as [Hy | Hy].
    + exfalso. apply Hnb. apply in_map. exact Hy.
    + apply (StronglySorted_app_inv _ _ (firstn n (sorted_desc c))
               (skipn n (sorted_desc c))); [| exact Hx | exact Hy].
      rewrite firstn_skipn. apply counter_sorted.
Qed.

(** Two distinct kept tokens are always ordered: ties in the count are
    broken by the first occurrence. *)
Lemma outranks_total :
  forall a b,
    In a kept -> In b kept -> a <> b ->
    outranks kept a b \/ outranks kept b a.
Proof.
  intros a b Ha Hb Hne. unfold outranks.
  assert (index_of a kept <> index_of b kept).
  { intros E. apply Hne. apply (index_of_inj a b kept Ha E). }
  lia.
Qed.

End Ranked.

(** C6, as the code has it.  With keyword extraction enabled, the list
    [_extract_keywords] returns consists of distinct tokens of the
    normalized text that are longer than two characters and neither stop
    words nor lowercase forms of the caller's exclusion words; it holds the
    [keyword_count] best of them (all, when there are fewer), ordered by
    decreasing frequency with ties broken by first occurrence, and every
    token left out ranks after every token returned.  That ranking orders
    any two distinct tokens, so the result is determined under tied
    counts.  The constructor's defaults are extraction enabled and
    [keyword_count = 10].  An extractor built with
    [extract_keywords=False] returns the empty list for every text and
    every exclusion list. *)
Theorem extract_keywords_ranked :
  (forall self text exclude_words,
     RepresentationExtractor.extract_keywords self = true ->
     let kept := kept_tokens text exclude_words in
     let out := _extract_keywords self text exclude_words in
     NoDup out
     /\ (forall w, In w out -> In w kept)
     /\ List.length out
        = Nat.min (Z.to_nat (RepresentationExtractor.keyword_count self))
                  (List.length (PySet.of_list kept))
     /\ StronglySorted (outranks kept) out
     /\ (forall a b, In a out -> In b kept -> ~ In b out -> outranks kept a b)
     /\ (forall a b,
           In a kept -> In b kept -> a <> b ->
           outranks kept a b \/ outranks kept b a))
  /\ (forall env,
        let self := RepresentationExtractor__init__ env no_extractor_args in
        RepresentationExtractor.extract_keywords self = true
        /\ RepresentationExtractor.keyword_count self = 10%Z)
  /\ (forall self text exclude_words,
        RepresentationExtractor.extract_keywords self = false ->
        _extract_keywords self text exclude_words = []).
Proof.
  split; [| split].
  - intros self text exclude_words Hon kept out. subst out.
    rewrite (extract_keywords_unfold self text exclude_words Hon).
    fold kept.
    destruct (ranked_properties kept
                (Z.to_nat (RepresentationExtractor.keyword_count self)))
      as [H1 [H2 [H3 [H4 H5]]]].
    repeat split; try assumption.
    apply outranks_total.
  - intros env. unfold RepresentationExtractor__init__. cbn.
    destruct (EMBEDDINGS_AVAILABLE env); [| split; reflexivity].
    destruct (SentenceTransformer env _); split; reflexivity.
  - intros self text exclude_words Hoff. unfold _extract_keywords.
    rewrite Hoff. reflexivity.
Qed.

(** C6 as stated fails twice: an exclusion word with a capital letter
    removes the lowercase token, which is not in the exclusion list, and
    an extractor built with [extract_keywords=False] returns nothing. *)
Lemma extract_keywords_counterexample :
  _extract_keywords default_extractor "Wage growth lifts the wage floor."
                    (Some ["Wage"])
  = ["growth"; "lifts"; "floor"]
  /\ keywords_as_claimed 10 "Wage growth lifts the wage floor." ["Wage"]
     = ["wage"; "growth"; "lifts"; "floor"]
  /\ _extract_keywords disabled_extractor "Wage growth lifts the wage floor."
                       None
     = []
  /\ keywords_as_claimed 10 "Wage growth lifts the wage floor." []
     = ["wage"; "growth"; "lifts"; "floor"].
Proof.
  repeat split; vm_compute; reflexivity.
Qed.

Lemma extract_keywords_ranked_witness :
  let kept := kept_tokens "Tax cuts and tax credits and wage growth." None in
  let out :=
    _extract_keywords default_extractor
                      "Tax cuts and tax credits and wage growth." None in
  out = ["tax"; "cuts"; "credits"; "wage"; "growth"]
  /\ StronglySorted (outranks kept) out
  /\ _extract_keywords disabled_extractor
                       "Tax cuts and tax credits and wage growth."
                       (Some ["wage"])
     = [].
Proof.
  cbn zeta. split; [vm_compute; reflexivity |]. split.
  - apply (proj1 extract_keywords_ranked default_extractor
             "Tax cuts and tax credits and wage growth." None).
    reflexivity.
  - apply (proj2 (proj2 extract_keywords_ranked) disabled_extractor
             "Tax cuts and tax credits and wage growth." (Some ["wage"])).
    reflexivity.
Defined.

(* ================================================================== *)
(** * Supporting facts *)

(** No instance that [assign_concept] emits carries a document id, so
    none joins until the id is added from the segment table, as
    [save_concept_instances] and [run_analysis.load_data] do. *)
Lemma assigned_instance_never_joins :
  forall self cache text_segment concept instance cache' documents_df,
    assign_concept self cache text_segment concept = (Some instance, cache') ->
    join_document instance documents_df = None.
Proof.
  intros self cache text_segment concept instance cache' docs H.
  rewrite assign_concept_unfold in H.
  destruct (Rlt_dec _ _); [discriminate |].
  injection H as <- _. reflexivity.
Qed.

(** Averaged embeddings of different lengths make [np.dot] raise: the
    result theorem of the similarity metric needs its length condition. *)
Lemma ragged_embeddings_raise :
  calculate_source_similarity ragged_representations
    [loaded_instance "s1" "d1"; loaded_instance "s2" "d2"]
    two_documents "c1"
  = Raise (ValueError "shapes not aligned").
Proof. reflexivity. Qed.

(** In binary64 arithmetic the docstring example also ends in the float
    0.75. *)
Module Binary64Facts.

Import PrimFloat.

Lemma example_score_exact : eqb Binary64.example_score 0.75%float = true.
Proof. vm_compute. reflexivity. Qed.

End Binary64Facts.

(** Through the pipeline the metadata join is the join through the
    segment: an instance saved by [save_concept_instances] and reloaded by
    [load_data] carries the [document_id] of the segment it refers to, and
    none when the segment is missing. *)
Lemma reloaded_instance_joins_through_segment :
  forall text_segments documents_df instance,
    join_document (loaded_row (saved_row text_segments instance)) documents_df
    = match Dict.get (ConceptInstance.text_segment_id instance)
                     (segment_lookup_of text_segments) with
      | None => None
      | Some segment =>
          let doc_id := TextSegment.document_id segment in
          if String.eqb doc_id "" then None
          else
            match filter (fun row => String.eqb (Document.id row) doc_id)
                         documents_df with
            | [] => None
            | row :: _ => Some (doc_id, row)
            end
      end.
Proof.
  intros segs docs instance. unfold join_document, loaded_row, saved_row.
  cbn [ConceptInstance.metadata row_document_id Dict.get String.eqb
       Ascii.eqb Bool.eqb].
  destruct (Dict.get (ConceptInstance.text_segment_id instance) _);
    reflexivity.
Qed.

(* ================================================================== *)
(** * Further properties of the concept assigner *)

(** ** Normalization *)

Lemma str_map_map :
  forall f g s, Str.map f (Str.map g s) = Str.map (fun c => f (g c)) s.
Proof.
  intros f g s. induction s as [| c s IH]; cbn; [reflexivity |].
  rewrite IH. reflexivity.
Qed.

Lemma str_map_ext :
  forall f g s, (forall c, f c = g c) -> Str.map f s = Str.map g s.
Proof.
  intros f g s H. induction s as [| c s IH]; cbn; [reflexivity |].
  rewrite H, IH. reflexivity.
Qed.

Lemma normalize_as_map :
  forall text,
    _normalize_text_for_keywords text = Str.map normalize_char text.
Proof.
  intros text. unfold _normalize_text_for_keywords, Str.sub_punct, Str.lower.
  rewrite str_map_map. reflexivity.
Qed.

Ltac all_chars c :=
  destruct c as [[] [] [] [] [] [] [] []]; vm_compute; reflexivity.


Lemma normalize_char_idempotent :
  forall c, normalize_char (normalize_char c) = normalize_char c.
Proof. intros c. all_chars c. Qed.


Lemma lower_normalize_char :
  forall c, Str.lower_char (normalize_char c) = normalize_char c.
Proof. intros c. all_chars c. Qed.

Lemma normalize_char_clean :
  forall c,
    (if Str.is_word_char (normalize_char c)
        || Str.is_space_char (normalize_char c)
     then normalize_char c else " "%char) = normalize_char c.
Proof. intros c. all_chars c. Qed.


(** X1.  Normalization is idempotent: its result is a fixed point of
    lowercasing, of the punctuation substitution and of normalization
    itself; the extractor and the assigner normalize alike.  (Nothing is
    said of the length of the result, which lowercasing can change
    outside the characters modelled.) *)
Theorem normalize_text_idempotent :
  forall text,
    let n := _normalize_text_for_keywords text in
    Str.lower n = n
    /\ Str.sub_punct n = n
    /\ _normalize_text_for_keywords n = n
    /\ _normalize_text text = n.
Proof.
  intros text n. subst n. rewrite !normalize_as_map.
  split; [unfold Str.lower; rewrite str_map_map; apply str_map_ext;
          apply lower_normalize_char |].
  split; [unfold Str.sub_punct; rewrite str_map_map; apply str_map_ext;
          apply normalize_char_clean |].
  split; [rewrite str_map_map; apply str_map_ext;
          apply normalize_char_idempotent |].
  reflexivity.
Qed.

(** ** Case and punctuation in the keyword score *)





(** ** Shape of the keyword score *)

Lemma keyword_score_as_counts :
  forall text concept,
    _keyword_match_score text concept
    = if (List.length (Concept.seed_terms concept) =? 0)%nat then 0%Q
      else score_of_matches
             (effective_matches (fst (match_counts text concept))
                                (snd (match_counts text concept)))
             (List.length (Concept.seed_terms concept)).
Proof.
  intros text concept. unfold _keyword_match_score, match_counts.
  destruct (List.length (Concept.seed_terms concept) =? 0)%nat;
    [reflexivity |].
  destruct (fold_left _ _ _) as [pm sw]. reflexivity.
Qed.

Lemma effective_matches_zero :
  forall phrase_matches word_matches,
    (effective_matches phrase_matches word_matches == 0)%Q
    <-> phrase_matches = 0%nat /\ word_matches = 0%nat.
Proof.
  intros pm wm. unfold effective_matches.
  destruct pm as [| pm].
  - destruct wm as [| [| wm]]; cbn; split; intros H;
      try (split; reflexivity); try discriminate H;
      destruct H as [_ H]; discriminate H.
  - cbn [Nat.eqb andb]. split.
    + intros H. unfold Qeq in H. cbn in H. lia.
    + intros [H _]. discriminate H.
Qed.

Lemma base_score_table_floor :
  forall matches, (0 <= matches)%Q -> (15 # 100 <= base_score_table matches)%Q.
Proof.
  intros m Hm. unfold base_score_table.
  repeat (destruct (Qeq_bool m _); [discriminate |]).
  assert (H : (- (65 # 100) <= Qmin (2 # 10) ((m - 4) * (5 # 100)))%Q).
  { apply Q.min_glb; lra. }
  lra.
Qed.

Lemma score_of_matches_floor :
  forall matches total_terms,
    (0 <= matches)%Q -> ~ (matches == 0)%Q ->
    (15 # 100 <= score_of_matches matches total_terms)%Q.
Proof.
  intros m n Hm Hnz. unfold score_of_matches.
  destruct (Qeq_bool m 0) eqn:E; [apply Qeq_bool_eq in E; contradiction |].
  pose proof (base_score_table_floor m Hm) as Hb.
  set (b := base_score_table m) in *.
  destruct (Qle_bool _ _).
  - apply Q.min_glb; lra.
  - apply Q.min_glb; [lra |]. apply Q.min_glb; lra.
Qed.

Lemma score_of_matches_zero :
  forall matches total_terms,
    (matches == 0)%Q -> score_of_matches matches total_terms = 0%Q.
Proof.
  intros m n H. unfold score_of_matches.
  apply Qeq_bool_iff in H. rewrite H. reflexivity.
Qed.

Lemma keyword_score_floor :
  forall text concept,
    (_keyword_match_score text concept == 0)%Q
    \/ (15 # 100 <= _keyword_match_score text concept)%Q.
Proof.
  intros text concept. rewrite keyword_score_as_counts.
  destruct (Concept.seed_terms concept) as [| t ts]; [left; reflexivity |].
  cbn [List.length Nat.eqb].
  destruct (match_counts text concept) as [pm wm]. cbn [fst snd].
  destruct (Qeq_dec (effective_matches pm wm) 0) as [E | E].
  - rewrite (score_of_matches_zero _ _ E). left. reflexivity.
  - right. apply score_of_matches_floor;
      [apply effective_matches_nonneg | exact E].
Qed.

(** X3.  The keyword score is 0 exactly when the concept has no seed
    terms or neither loop found anything (no phrase match, no seed word in
    the text); every other score is at least 0.15. *)
Theorem keyword_score_zero_or_floor :
  forall text concept,
    ((_keyword_match_score text concept == 0)%Q
     <-> Concept.seed_terms concept = []
         \/ match_counts text concept = (0%nat, 0%nat))
    /\ ((_keyword_match_score text concept == 0)%Q
        \/ (15 # 100 <= _keyword_match_score text concept)%Q).
Proof.
  intros text concept. rewrite keyword_score_as_counts.
  destruct (Concept.seed_terms concept) as [| t ts] eqn:Et.
  - cbn. split; [| left; reflexivity].
    split; [left; reflexivity | reflexivity].
  - cbn [List.length Nat.eqb].
    destruct (match_counts text concept) as [pm wm]. cbn [fst snd].
    pose proof (effective_matches_nonneg pm wm) as Hnn.
    pose proof (effective_matches_zero pm wm) as Hz.
    destruct (Qeq_dec (effective_matches pm wm) 0) as [E | E].
    + rewrite (score_of_matches_zero _ _ E).
      split; [| left; reflexivity].
      split; [| reflexivity].
      intros _. right. apply Hz in E. destruct E as [-> ->]. reflexivity.
    + pose proof (score_of_matches_floor _ (S (List.length ts)) Hnn E) as Hf.
      split; [| right; exact Hf].
      split.
      * intros H0. exfalso. lra.
      * intros [H | H]; [discriminate H |].
        exfalso. apply E, Hz. injection H as -> ->. split; reflexivity.
Qed.

(** ** Monotonicity of the score table *)

Lemma inject_succ :
  forall n, (inject_Z (Z.of_nat (S n)) == inject_Z (Z.of_nat n) + 1)%Q.
Proof.
  intros n. rewrite Nat2Z.inj_succ. unfold Z.succ.
  rewrite inject_Z_plus. reflexivity.
Qed.

Lemma inject_nat_nonneg : forall n, (0 <= inject_Z (Z.of_nat n))%Q.
Proof. intros n. unfold Qle. cbn. lia. Qed.

Lemma base_score_table_from_four :
  forall n,
    (4 <= n)%nat ->
    base_score_table (inject_Z (Z.of_nat n))
    = ((8 # 10)
       + Qmin (2 # 10) ((inject_Z (Z.of_nat n) - 4) * (5 # 100)))%Q.
Proof.
  intros n Hn. unfold base_score_table.
  repeat (destruct (Qeq_bool _ _) eqn:?E;
          [apply Qeq_bool_eq in E; unfold Qeq in E; cbn in E; lia | clear E]).
  reflexivity.
Qed.

Lemma base_score_table_step :
  forall n,
    (1 <= n)%nat ->
    (base_score_table (inject_Z (Z.of_nat n))
     <= base_score_table (inject_Z (Z.of_nat (S n))))%Q.
Proof.
  intros n Hn.
  destruct n as [| [| [| [| n]]]]; [lia | | | |];
    try (vm_compute; discriminate).
  rewrite !base_score_table_from_four by lia.
  pose proof (inject_succ (S (S (S (S n))))) as Hs.
  apply Qplus_le_r. apply Q.min_le_compat_l.
  rewrite Hs. lra.
Qed.

Lemma score_of_matches_step :
  forall n total_terms,
    (score_of_matches (inject_Z (Z.of_nat n)) total_terms
     <= score_of_matches (inject_Z (Z.of_nat (S n))) total_terms)%Q.
Proof.
  intros n t.
  destruct n as [| n].
  - rewrite (score_of_matches_zero (inject_Z (Z.of_nat 0))) by reflexivity.
    apply score_of_matches_bounds, inject_nat_nonneg.
  - unfold score_of_matches.
    destruct (Qeq_bool (inject_Z (Z.of_nat (S n))) 0) eqn:E1;
      [apply Qeq_bool_eq in E1; unfold Qeq in E1; cbn in E1; lia |].
    destruct (Qeq_bool (inject_Z (Z.of_nat (S (S n)))) 0) eqn:E2;
      [apply Qeq_bool_eq in E2; unfold Qeq in E2; cbn in E2; lia |].
    pose proof (base_score_table_step (S n) ltac:(lia)) as Hb.
    pose proof (inject_succ (S n)) as Hs.
    pose proof (inject_nat_nonneg t) as Ht.
    set (b1 := base_score_table (inject_Z (Z.of_nat (S n)))) in *.
    set (b2 := base_score_table (inject_Z (Z.of_nat (S (S n))))) in *.
    set (m1 := inject_Z (Z.of_nat (S n))) in *.
    set (m2 := inject_Z (Z.of_nat (S (S n)))) in *.
    set (tq := inject_Z (Z.of_nat t)) in *.
    assert (Hratio : (m1 / tq <= m2 / tq)%Q).
    { unfold Qdiv. apply Qmult_le_compat_r; [rewrite Hs; lra |].
      apply Qinv_le_0_compat. exact Ht. }
    destruct (Qle_bool (m2 / tq) (1 # 10)) eqn:R2.
    + apply Qle_bool_iff in R2.
      assert (R1 : Qle_bool (m1 / tq) (1 # 10) = true).
      { apply Qle_bool_iff. lra. }
      rewrite R1. apply Q.min_le_compat_l. exact Hb.
    + pose proof (Q.le_min_r 1 b1) as Hr.
      destruct (Qle_bool (m1 / tq) (1 # 10)).
      * apply Q.min_glb; [apply Q.le_min_l |].
        apply Q.min_glb; [apply Q.le_min_l | lra].
      * apply Q.min_le_compat_l. apply Q.min_le_compat_l. lra.
Qed.

Lemma score_of_matches_monotone :
  forall n m total_terms,
    (n <= m)%nat ->
    (score_of_matches (inject_Z (Z.of_nat n)) total_terms
     <= score_of_matches (inject_Z (Z.of_nat m)) total_terms)%Q.
Proof.
  intros n m t Hle. induction Hle as [| m Hle IH]; [apply Qle_refl |].
  eapply Qle_trans; [exact IH | apply score_of_matches_step].
Qed.

(** X4.  The score table is monotone: with the number of seed terms
    fixed, more phrase matches never give a lower score, and the half
    match of a single seed word never scores above one phrase match. *)
Theorem score_table_monotone :
  forall total_terms,
    (forall n more,
       (score_of_matches (inject_Z (Z.of_nat n)) total_terms
        <= score_of_matches (inject_Z (Z.of_nat (n + more))) total_terms)%Q)
    /\ (score_of_matches (5 # 10) total_terms
        <= score_of_matches 1 total_terms)%Q.
Proof.
  intros t. split.
  - intros n more. apply score_of_matches_monotone. lia.
  - unfold score_of_matches.
    change (Qeq_bool (5 # 10) 0) with false.
    change (Qeq_bool 1 0) with false. cbv iota.
    change (base_score_table (5 # 10)) with (15 # 100)%Q.
    change (base_score_table 1) with (3 # 10)%Q.
    pose proof (inject_nat_nonneg t) as Ht.
    set (tq := inject_Z (Z.of_nat t)) in *.
    assert (Hratio : ((5 # 10) / tq <= 1 / tq)%Q).
    { unfold Qdiv. apply Qmult_le_compat_r; [lra |].
      apply Qinv_le_0_compat. exact Ht. }
    pose proof (Q.le_min_r 1 (15 # 100)) as Hr.
    destruct (Qle_bool (1 / tq) (1 # 10)) eqn:R2.
    + apply Qle_bool_iff in R2.
      assert (R1 : Qle_bool ((5 # 10) / tq) (1 # 10) = true).
      { apply Qle_bool_iff. lra. }
      rewrite R1. apply Q.min_le_compat_l. lra.
    + destruct (Qle_bool ((5 # 10) / tq) (1 # 10)).
      * apply Q.min_glb; [apply Q.le_min_l |].
        apply Q.min_glb; [apply Q.le_min_l | lra].
      * apply Q.min_le_compat_l. apply Q.min_le_compat_l. lra.
Qed.

(** ** Construction *)

(** X5.  After construction, of an assigner or of an extractor,
    [use_embeddings] is set exactly when a model is stored: that takes the
    request, the import of the library and the loading of the model to all
    succeed, and any failure leaves keyword-only mode without a model. *)
Theorem init_model_iff_use_embeddings :
  forall env,
    (forall args,
       let self := fst (ConceptAssigner__init__ env args) in
       ConceptAssigner.use_embeddings self
       = is_some (ConceptAssigner.embedding_model self)
       /\ ConceptAssigner.use_embeddings self
          = or_default (arg_use_embeddings args) true
            && EMBEDDINGS_AVAILABLE env
            && is_some (SentenceTransformer env
                          (or_default (arg_embedding_model_name args)
                                      "all-MiniLM-L6-v2"))
       /\ snd (ConceptAssigner__init__ env args) = [])
    /\ (forall args,
          let self := RepresentationExtractor__init__ env args in
          RepresentationExtractor.use_embeddings self
          = is_some (RepresentationExtractor.embedding_model self)
          /\ RepresentationExtractor.use_embeddings self
             = or_default (xarg_use_embeddings args) true
               && EMBEDDINGS_AVAILABLE env
               && is_some (SentenceTransformer env
                             (or_default (xarg_embedding_model_name args)
                                         "all-MiniLM-L6-v2"))).
Proof.
  intros env. split.
  - intros [name kw ew mc ue]. cbn zeta.
    unfold ConceptAssigner__init__.
    cbn [arg_embedding_model_name arg_keyword_weight arg_embedding_weight
         arg_min_confidence arg_use_embeddings].
    destruct (or_default ue true && EMBEDDINGS_AVAILABLE env);
      [| repeat split; reflexivity].
    destruct (SentenceTransformer env _); repeat split; reflexivity.
  - intros [name ue ek kc]. cbn zeta.
    unfold RepresentationExtractor__init__.
    cbn [xarg_embedding_model_name xarg_use_embeddings xarg_extract_keywords
         xarg_keyword_count].
    destruct (or_default ue true && EMBEDDINGS_AVAILABLE env);
      [| repeat split; reflexivity].
    destruct (SentenceTransformer env _); repeat split; reflexivity.
Qed.

(** ** Keyword-only assignment *)

Lemma Q2R_0 : Q2R 0 = 0%R.
Proof. unfold Q2R. cbn. lra. Qed.

(** X6.  In keyword-only mode with a threshold in (0, 0.15], a segment
    is assigned to a concept exactly when its keyword score is not 0, that
    is when some seed term or seed word occurs in it. *)
Theorem keyword_only_assigns_any_match :
  forall self cache text_segment concept,
    ConceptAssigner.use_embeddings self = false ->
    (0 < ConceptAssigner.min_confidence self <= 15 / 100)%R ->
    (fst (assign_concept self cache text_segment concept) = None
     <-> (_keyword_match_score (TextSegment.text text_segment) concept == 0)%Q).
Proof.
  intros self cache seg concept Huse [Hpos Hmax].
  rewrite assign_concept_unfold. cbn [fst].
  unfold combined_score. rewrite Huse.
  set (k := _keyword_match_score (TextSegment.text seg) concept).
  destruct (keyword_score_floor (TextSegment.text seg) concept)
    as [Hz | Hf]; fold k in Hz || fold k in Hf.
  - pose proof (Qeq_eqR _ _ Hz) as HR. rewrite Q2R_0 in HR.
    destruct (Rlt_dec _ _) as [_ | Hn]; [tauto |].
    exfalso. apply Hn. lra.
  - pose proof (Qle_Rle _ _ Hf) as HR.
    replace (Q2R (15 # 100)) with (15 / 100)%R in HR
      by (unfold Q2R; cbn; lra).
    destruct (Rlt_dec _ _) as [Hlt | _]; [exfalso; lra |].
    split; [discriminate |]. intros Hz. exfalso. lra.
Qed.

Lemma keyword_only_assigns_any_match_witness :
  fst (assign_concept keyword_only_assigner [] one_term_segment
                      one_term_concept) = None
  <-> (_keyword_match_score (TextSegment.text one_term_segment)
                            one_term_concept == 0)%Q.
Proof.
  apply (keyword_only_assigns_any_match keyword_only_assigner []
           one_term_segment one_term_concept).
  - reflexivity.
  - cbn. lra.
Defined.

(** ** The concept-embedding cache *)

Lemma cache_extends_refl : forall c, cache_extends c c.
Proof. intros c k v H. exact H. Qed.

Lemma cache_extends_trans :
  forall a b c, cache_extends a b -> cache_extends b c -> cache_extends a c.
Proof. intros a b c H1 H2 k v H. apply H2, H1, H. Qed.

Lemma cache_extends_set :
  forall (cache : Cache) k v,
    Dict.get k cache = None -> cache_extends cache (Dict.set k v cache).
Proof.
  intros cache k v Hnone k' v' H.
  destruct (string_dec k k') as [<- | Hne]; [congruence |].
  rewrite dict_get_set_other by exact Hne. exact H.
Qed.

Lemma get_concept_embedding_extends :
  forall self cache concept,
    cache_extends cache (snd (_get_concept_embedding self cache concept)).
Proof.
  intros self cache concept. unfold _get_concept_embedding.
  destruct (Dict.get (Concept.id concept) cache) eqn:E;
    [apply cache_extends_refl |].
  destruct (negb _); [apply cache_extends_refl |].
  destruct (encode self _); [| apply cache_extends_refl].
  cbn [snd]. apply cache_extends_set. exact E.
Qed.

Lemma embedding_score_extends :
  forall self cache text concept,
    cache_extends cache
      (snd (_embedding_similarity_score self cache text concept)).
Proof.
  intros self cache text concept. unfold _embedding_similarity_score.
  destruct (negb _); [apply cache_extends_refl |].
  destruct (encode self text) as [te |]; [| apply cache_extends_refl].
  pose proof (get_concept_embedding_extends self cache concept) as H.
  destruct (_get_concept_embedding self cache concept) as [[ce | ex] cache'];
    cbn [snd] in *; [| exact H].
  destruct (cosine te ce) as [[sim |] | ex]; exact H.
Qed.

Lemma cache_after_extends :
  forall self cache text concept,
    cache_extends cache (cache_after self cache text concept).
Proof.
  intros self cache text concept. unfold cache_after.
  destruct (ConceptAssigner.use_embeddings self);
    [apply embedding_score_extends | apply cache_extends_refl].
Qed.

Lemma assign_segment_cache :
  forall self text_segment st concept,
    snd (assign_segment self text_segment st concept)
    = cache_after self (snd st) (TextSegment.text text_segment) concept.
Proof.
  intros self seg [instances cache] concept. unfold assign_segment.
  rewrite assign_concept_unfold. destruct (Rlt_dec _ _); reflexivity.
Qed.

Lemma assign_concepts_extends :
  forall self text_segment concepts st,
    cache_extends (snd st)
      (snd (fold_left (assign_segment self text_segment) concepts st)).
Proof.
  intros self seg concepts.
  induction concepts as [| c cs IH]; intros st; [apply cache_extends_refl |].
  cbn [fold_left]. eapply cache_extends_trans; [| apply IH].
  rewrite assign_segment_cache. apply cache_after_extends.
Qed.

Lemma assign_segments_extends :
  forall self concepts text_segments st,
    cache_extends (snd st)
      (snd (fold_left
              (fun st segment =>
                 fold_left (assign_segment self segment) concepts st)
              text_segments st)).
Proof.
  intros self concepts segs.
  induction segs as [| s ss IH]; intros st; [apply cache_extends_refl |].
  cbn [fold_left]. eapply cache_extends_trans; [| apply IH].
  apply assign_concepts_extends.
Qed.

(** X7.  The concept-embedding cache only grows: scoring a pair, or
    running a whole batch, keeps every entry the cache held before with
    the same vector. *)
Theorem cache_only_grows :
  forall self cache,
    (forall text concept,
       cache_extends cache
         (snd (_embedding_similarity_score self cache text concept)))
    /\ (forall text_segment concept,
          cache_extends cache
            (snd (assign_concept self cache text_segment concept)))
    /\ (forall text_segments concept_ids,
          cache_extends cache
            (snd (assign_all_concepts self cache text_segments concept_ids))).
Proof.
  intros self cache. split; [| split].
  - intros text concept. apply embedding_score_extends.
  - intros seg concept. rewrite assign_concept_unfold. cbn [snd].
    apply cache_after_extends.
  - intros segs ids. unfold assign_all_concepts.
    destruct (resolve_concepts ids) as [concepts | e];
      [| apply cache_extends_refl].
    pose proof (assign_segments_extends self concepts segs ([], cache)) as H.
    destruct (fold_left _ segs ([], cache)) as [instances cache'].
    exact H.
Qed.

(** X8.  The cache is keyed by the concept id alone: once an id is
    cached, any concept carrying that id is scored against the cached
    vector, whatever its own description and seed terms, and the cache is
    left as it is. *)
Theorem cached_id_decides_embedding :
  forall self cache text concept1 concept2 e,
    Dict.get (Concept.id concept1) cache = Some e ->
    Concept.id concept2 = Concept.id concept1 ->
    _embedding_similarity_score self cache text concept2
    = _embedding_similarity_score self cache text concept1
    /\ snd (_embedding_similarity_score self cache text concept1) = cache.
Proof.
  intros self cache text c1 c2 e Hget Hid.
  unfold _embedding_similarity_score, _get_concept_embedding.
  rewrite Hid, Hget.
  destruct (negb _); [split; reflexivity |].
  destruct (encode self text) as [te |]; [| split; reflexivity].
  destruct (cosine te e) as [[sim |] | ex]; split; reflexivity.
Qed.

Lemma cached_id_decides_embedding_witness :
  _embedding_similarity_score hybrid_assigner warm_cache "Rain tomorrow."
                              other_concept_same_id
  = _embedding_similarity_score hybrid_assigner warm_cache "Rain tomorrow."
                                one_term_concept
  /\ snd (_embedding_similarity_score hybrid_assigner warm_cache
                                      "Rain tomorrow." one_term_concept)
     = warm_cache.
Proof.
  apply (cached_id_decides_embedding hybrid_assigner warm_cache
           "Rain tomorrow." one_term_concept other_concept_same_id
           [0%R; 1%R]).
  - reflexivity.
  - reflexivity.
Defined.

(** ** What a batch returns *)

Lemma resolve_concepts_ok :
  forall concept_ids concepts,
    resolve_concepts concept_ids = Return concepts ->
    Forall2 (fun cid c => get_concept_by_id cid = Return c)
            concept_ids concepts.
Proof.
  induction concept_ids as [| cid rest IH]; intros concepts H.
  - cbn in H. injection H as <-. constructor.
  - cbn [resolve_concepts] in H.
    destruct (get_concept_by_id cid) as [c | e] eqn:Ec; [| discriminate].
    destruct (resolve_concepts rest) as [cs | e]; [| discriminate].
    injection H as <-. constructor; [exact Ec | apply IH; reflexivity].
Qed.

Lemma resolve_concepts_raise :
  forall concept_ids e,
    resolve_concepts concept_ids = Raise e ->
    exists cid, In cid concept_ids /\ get_concept_by_id cid = Raise e.
Proof.
  induction concept_ids as [| cid rest IH]; intros e H; [discriminate |].
  cbn [resolve_concepts] in H.
  destruct (get_concept_by_id cid) as [c | e'] eqn:Ec.
  - destruct (resolve_concepts rest) as [cs | e'']; [discriminate |].
    injection H as <-. destruct (IH e'' eq_refl) as [cid' [Hin Hr]].
    exists cid'. split; [right; exact Hin | exact Hr].
  - injection H as <-. exists cid. split; [left; reflexivity | exact Ec].
Qed.

Section Batch.

Variable self : ConceptAssigner.t.
Variable text_segments : list TextSegment.t.
Variable concepts : list Concept.t.

Lemma assign_segment_ok :
  forall segment st concept,
    In segment text_segments -> In concept concepts ->
    Forall (emitted_ok self text_segments concepts) (fst st) ->
    Forall (emitted_ok self text_segments concepts) (fst (assign_segment self segment st concept))
    /\ (List.length (fst (assign_segment self segment st concept))
        <= S (List.length (fst st)))%nat.
Proof.
  intros segment [instances cache] concept Hs Hc Hall.
  unfold assign_segment. rewrite assign_concept_unfold.
  destruct (Rlt_dec _ _) as [Hlt | Hge]; cbn [fst] in *.
  - split; [exact Hall | lia].
  - split; [| rewrite length_app; cbn; lia].
    apply Forall_app. split; [exact Hall |].
    constructor; [| constructor]. unfold emitted_ok, instance_of.
    cbn [ConceptInstance.text_segment_id ConceptInstance.concept_id
         ConceptInstance.confidence].
    split; [apply in_map; exact Hs |].
    split; [apply in_map; exact Hc | lra].
Qed.

Lemma assign_concepts_ok :
  forall segment cs st,
    In segment text_segments -> incl cs concepts ->
    Forall (emitted_ok self text_segments concepts) (fst st) ->
    let st' := fold_left (assign_segment self segment) cs st in
    Forall (emitted_ok self text_segments concepts) (fst st')
    /\ (List.length (fst st') <= List.length (fst st) + List.length cs)%nat.
Proof.
  intros segment cs. induction cs as [| c cs IH]; intros st Hs Hincl Hall;
    cbn zeta; cbn [fold_left List.length].
  - split; [exact Hall | lia].
  - destruct (assign_segment_ok segment st c Hs
                (Hincl c (or_introl eq_refl)) Hall) as [Hall' Hlen'].
    destruct (IH (assign_segment self segment st c) Hs
                (fun x Hx => Hincl x (or_intror Hx)) Hall') as [H1 H2].
    split; [exact H1 | lia].
Qed.

Lemma assign_segments_ok :
  forall segs st,
    incl segs text_segments ->
    Forall (emitted_ok self text_segments concepts) (fst st) ->
    let st' :=
      fold_left (fun st segment =>
                   fold_left (assign_segment self segment) concepts st)
                segs st in
    Forall (emitted_ok self text_segments concepts) (fst st')
    /\ (List.length (fst st')
        <= List.length (fst st)
           + List.length segs * List.length concepts)%nat.
Proof.
  intros segs. induction segs as [| s ss IH]; intros st Hincl Hall;
    cbn zeta; cbn [fold_left List.length].
  - split; [exact Hall | lia].
  - destruct (assign_concepts_ok s concepts st
                (Hincl s (or_introl eq_refl)) (incl_refl _) Hall)
      as [Hall' Hlen'].
    destruct (IH _ (fun x Hx => Hincl x (or_intror Hx)) Hall') as [H1 H2].
    split; [exact H1 | cbn zeta in *; lia].
Qed.

End Batch.

Lemma subsequence_nil_l :
  forall (A : Type) (l : list A), subsequence [] l.
Proof.
  intros A l. induction l as [| x l IH]; constructor; exact IH.
Qed.

Lemma subsequence_app :
  forall (A : Type) (a b c d : list A),
    subsequence a b -> subsequence c d -> subsequence (a ++ c) (b ++ d).
Proof.
  intros A a b c d Hab Hcd. induction Hab as [| x a b _ IH | x a b _ IH];
    cbn [app]; [exact Hcd | |]; constructor; exact IH.
Qed.

Lemma subsequence_length :
  forall (A : Type) (a b : list A),
    subsequence a b -> (List.length a <= List.length b)%nat.
Proof.
  intros A a b H. induction H; cbn [List.length]; lia.
Qed.

Lemma subsequence_In :
  forall (A : Type) (a b : list A) (x : A),
    subsequence a b -> In x a -> In x b.
Proof.
  intros A a b x H. induction H as [| y a b _ IH | y a b _ IH]; intros Hin.
  - exact Hin.
  - right. exact (IH Hin).
  - destruct Hin as [-> | Hin]; [left; reflexivity | right; exact (IH Hin)].
Qed.

Lemma subsequence_NoDup :
  forall (A : Type) (a b : list A),
    subsequence a b -> NoDup b -> NoDup a.
Proof.
  intros A a b H. induction H as [| y a b _ IH | y a b Hsub IH]; intros Hnd.
  - exact Hnd.
  - inversion Hnd; subst. apply IH. assumption.
  - inversion Hnd as [| y' b' Hnotin Hnd']; subst. constructor.
    + intros Hin. apply Hnotin. exact (subsequence_In _ _ _ _ Hsub Hin).
    + apply IH. exact Hnd'.
Qed.

Lemma batch_pairs_length :
  forall text_segments concepts,
    List.length (batch_pairs text_segments concepts)
    = (List.length text_segments * List.length concepts)%nat.
Proof.
  intros segs concepts. unfold batch_pairs.
  induction segs as [| s ss IH]; cbn [flat_map List.length]; [reflexivity |].
  rewrite length_app, length_map, IH. cbn. lia.
Qed.

(** One pass of the inner loop appends, for some of the concepts in their
    order, the instance of the pair (segment, concept). *)
Lemma assign_concepts_pairs :
  forall self segment cs st,
    exists added,
      fst (fold_left (assign_segment self segment) cs st) = fst st ++ added
      /\ subsequence
           (List.map instance_pair added)
           (List.map (fun concept => (TextSegment.id segment, Concept.id concept))
                     cs).
Proof.
  intros self segment cs. induction cs as [| c cs IH]; intros st;
    cbn [fold_left List.map].
  - exists []. rewrite app_nil_r. split; [reflexivity | constructor].
  - destruct st as [instances cache].
    assert (Hstep :
      fst (assign_segment self segment (instances, cache) c) = instances
      \/ fst (assign_segment self segment (instances, cache) c)
         = instances ++ [instance_of self cache segment c]).
    { unfold assign_segment. rewrite assign_concept_unfold.
      destruct (Rlt_dec _ _); [left | right]; reflexivity. }
    destruct (IH (assign_segment self segment (instances, cache) c))
      as [added [Hfst Hsub]].
    cbn [fst]. destruct Hstep as [Hstep | Hstep]; rewrite Hstep in Hfst.
    + exists added. split; [exact Hfst | constructor; exact Hsub].
    + exists (instance_of self cache segment c :: added).
      split; [rewrite Hfst, <- app_assoc; reflexivity |].
      cbn [List.map]. apply subsequence_take. exact Hsub.
Qed.

(** The two loops append instances for a subsequence of the pairs they
    visit. *)
Lemma assign_segments_pairs :
  forall self concepts segs st,
    exists added,
      fst (fold_left (fun st segment =>
                        fold_left (assign_segment self segment) concepts st)
                     segs st)
      = fst st ++ added
      /\ subsequence (List.map instance_pair added)
                     (batch_pairs segs concepts).
Proof.
  intros self concepts segs. induction segs as [| s ss IH]; intros st;
    cbn [fold_left].
  - exists []. rewrite app_nil_r. split; [reflexivity | constructor].
  - destruct (assign_concepts_pairs self s concepts st) as [a1 [H1 S1]].
    destruct (IH (fold_left (assign_segment self s) concepts st))
      as [a2 [H2 S2]].
    exists (a1 ++ a2). split.
    + rewrite H2, H1, <- app_assoc. reflexivity.
    + unfold batch_pairs. cbn [flat_map]. rewrite map_app.
      apply subsequence_app; assumption.
Qed.

(** X9.  A batch that succeeds returns at most one instance per visited
    (segment, concept) pair: the pairs of the returned instances, in the
    order returned, are the pairs the two loops visit (segments outside,
    the concepts resolved from the requested ids inside) with some left
    out, so an instance is there at most as often as its pair is visited,
    no pair is repeated when the visited pairs are distinct, and there are
    at most [len(text_segments) * len(concept_ids)] instances.  Each
    instance refers to one of the given segments and to a concept resolved
    from the requested ids, and its confidence is not below the threshold.
    A batch that fails raises the error of [get_concept_by_id] on one of
    the requested ids and leaves the cache as it was. *)
Theorem batch_output :
  forall self cache text_segments concept_ids,
    match assign_all_concepts self cache text_segments concept_ids with
    | (Return instances, _) =>
        (exists concepts,
           Forall2 (fun cid c => get_concept_by_id cid = Return c)
                   concept_ids concepts
           /\ subsequence (List.map instance_pair instances)
                          (batch_pairs text_segments concepts)
           /\ (NoDup (batch_pairs text_segments concepts) ->
               NoDup (List.map instance_pair instances)))
        /\ (List.length instances
            <= List.length text_segments * List.length concept_ids)%nat
        /\ Forall
             (fun instance =>
                In (ConceptInstance.text_segment_id instance)
                   (List.map TextSegment.id text_segments)
                /\ (exists cid c,
                      In cid concept_ids
                      /\ get_concept_by_id cid = Return c
                      /\ ConceptInstance.concept_id instance = Concept.id c)
                /\ (ConceptAssigner.min_confidence self
                    <= ConceptInstance.confidence instance)%R)
             instances
    | (Raise e, cache') =>
        cache' = cache
        /\ exists cid, In cid concept_ids /\ get_concept_by_id cid = Raise e
    end.
Proof.
  intros self cache segs ids. unfold assign_all_concepts.
  destruct (resolve_concepts ids) as [concepts | e] eqn:Er.
  - pose proof (resolve_concepts_ok ids concepts Er) as Hres.
    pose proof (assign_segments_ok self segs concepts segs ([], cache)
                  (incl_refl _) (Forall_nil _)) as H.
    destruct (assign_segments_pairs self concepts segs ([], cache))
      as [added [Hadded Hsub]].
    cbn zeta in H.
    destruct (fold_left _ segs ([], cache)) as [instances cache'].
    cbn [fst List.length app] in H, Hadded. subst added.
    destruct H as [Hall Hlen].
    split.
    { exists concepts. split; [exact Hres |]. split; [exact Hsub |].
      apply subsequence_NoDup. exact Hsub. }
    split; [rewrite (Forall2_length Hres); lia |].
    apply (Forall_impl _ (P := emitted_ok self segs concepts));
      [| exact Hall].
    intros i [H1 [H2 H3]]. split; [exact H1 |]. split; [| exact H3].
    apply in_map_iff in H2 as [c [Hc Hin]].
    clear - Hres Hc Hin. induction Hres as [| cid c' ids' cs' Hget _ IH].
    + destruct Hin.
    + destruct Hin as [-> | Hin].
      * exists cid, c. split; [left; reflexivity |]. split; [exact Hget |].
        symmetry. exact Hc.
      * destruct (IH Hin) as [cid' [c'' [Hi [Hg He]]]].
        exists cid', c''. split; [right; exact Hi |]. split; assumption.
  - split; [reflexivity |]. apply resolve_concepts_raise. exact Er.
Qed.

(* ================================================================== *)
(** * Further properties of the comparative analyzer *)

(** ** Coverage *)

Lemma dict_sum_set :
  forall (V : Type) (f : V -> nat) k v (d : Dict.t V),
    (dict_sum f (Dict.set k v d)
     + match Dict.get k d with Some o => f o | None => 0 end
     = dict_sum f d + f v)%nat.
Proof.
  intros V f k v d. unfold dict_sum, list_sum.
  induction d as [| [k' v'] d IH]; cbn [Dict.set Dict.get].
  - cbn. lia.
  - destruct (String.eqb k k'); cbn [List.map fold_right snd] in *; lia.
Qed.

Lemma source_stats_sum :
  forall documents_df concept_instances acc,
    dict_sum segments
      (fold_left
         (fun source_stats instance =>
            match join_document instance documents_df with
            | None => source_stats
            | Some (doc_id, doc) =>
                let source_id := Document.source_id doc in
                let stats :=
                  or_default (Dict.get source_id source_stats) new_stats in
                Dict.set source_id
                  {| documents := PySet.add doc_id (documents stats);
                     segments := S (segments stats);
                     confidences :=
                       confidences stats
                       ++ [ConceptInstance.confidence instance] |}
                  source_stats
            end)
         concept_instances acc)
    = (dict_sum segments acc
       + List.length (filter (joins documents_df) concept_instances))%nat.
Proof.
  intros docs insts.
  induction insts as [| i insts IH]; intros acc; cbn [fold_left filter].
  - cbn. lia.
  - rewrite IH. unfold joins at 2.
    destruct (join_document i docs) as [[doc_id doc] |]; [| reflexivity].
    cbn zeta. cbn [List.length].
    pose proof (dict_sum_set _ segments (Document.source_id doc)
                  {| documents :=
                       PySet.add doc_id
                         (documents
                            (or_default
                               (Dict.get (Document.source_id doc) acc)
                               new_stats));
                     segments :=
                       S (segments
                            (or_default
                               (Dict.get (Document.source_id doc) acc)
                               new_stats));
                     confidences :=
                       confidences
                         (or_default (Dict.get (Document.source_id doc) acc)
                                     new_stats)
                       ++ [ConceptInstance.confidence i] |} acc) as H.
    cbn [segments] in H.
    destruct (Dict.get (Document.source_id doc) acc) as [o |];
      cbn [or_default new_stats segments] in *; lia.
Qed.

Lemma coverage_values_map :
  forall concept_instances documents_df concept_id,
    coverage_values (analyze_coverage concept_instances documents_df
                                      concept_id)
    = List.map (fun '(k, v) => (k, coverage_entry v))
               (source_stats_of concept_instances documents_df).
Proof.
  intros insts docs cid.
  unfold analyze_coverage, coverage_values. cbn [ComparisonResult.values].
  rewrite (fold_set_map _ _ coverage_entry); [reflexivity |].
  cbn [Dict.keys List.map app]. apply source_stats_NoDup.
Qed.

(** X10.  Coverage is complete: the segment counts of all sources add up
    to the number of instances whose join succeeded, and the sources
    listed are exactly the keys of the values, without repetition. *)
Theorem coverage_counts_joined_instances :
  forall concept_instances documents_df concept_id,
    let r := analyze_coverage concept_instances documents_df concept_id in
    dict_sum segment_count (coverage_values r)
    = List.length (filter (joins documents_df) concept_instances)
    /\ ComparisonResult.sources r = Dict.keys (coverage_values r)
    /\ NoDup (ComparisonResult.sources r).
Proof.
  intros insts docs cid r. subst r. rewrite coverage_values_map.
  split; [| split].
  - unfold dict_sum. rewrite map_map.
    rewrite (map_ext _ (fun kv : string * SourceStats => segments (snd kv)))
      by (intros [k v]; reflexivity).
    fold (dict_sum segments (source_stats_of insts docs)).
    unfold source_stats_of. rewrite source_stats_sum. reflexivity.
  - rewrite dict_keys_map. reflexivity.
  - apply source_stats_NoDup.
Qed.

Lemma pyset_add_length :
  forall x s,
    (List.length s <= List.length (PySet.add x s) <= S (List.length s))%nat
    /\ (0 < List.length (PySet.add x s))%nat.
Proof.
  intros x s. unfold PySet.add. destruct (Str.mem x s) eqn:E.
  - split; [lia |]. apply mem_In in E. destruct s; [destruct E | cbn; lia].
  - rewrite length_app. cbn. lia.
Qed.

Lemma grow_stats_ok :
  forall documents_df instances stats,
    stats_ok stats -> stats_ok (grow_stats documents_df stats instances).
Proof.
  intros docs instances. unfold grow_stats.
  induction instances as [| i l IH]; intros stats H; [exact H |].
  cbn [fold_left]. apply IH. destruct H as [H1 [H2 H3]].
  unfold stats_ok. cbn [confidences segments documents].
  pose proof (pyset_add_length (joined_doc_id docs i) (documents stats)).
  rewrite length_app. cbn [List.length]. repeat split; lia.
Qed.

Lemma grow_stats_confidences :
  forall documents_df instances stats,
    confidences (grow_stats documents_df stats instances)
    = confidences stats ++ List.map ConceptInstance.confidence instances.
Proof.
  intros docs instances. unfold grow_stats.
  induction instances as [| i l IH]; intros stats;
    cbn [fold_left List.map].
  - rewrite app_nil_r. reflexivity.
  - rewrite IH. cbn [confidences]. rewrite <- app_assoc. reflexivity.
Qed.

Lemma fold_min_le :
  forall l x,
    (fold_left Rmin l x <= x)%R
    /\ Forall (fun y => fold_left Rmin l x <= y)%R l.
Proof.
  induction l as [| y l IH]; intros x; cbn [fold_left].
  - split; [lra | constructor].
  - destruct (IH (Rmin x y)) as [H1 H2].
    pose proof (Rmin_l x y). pose proof (Rmin_r x y).
    split; [lra |]. constructor; [lra | exact H2].
Qed.

Lemma fold_max_ge :
  forall l x,
    (x <= fold_left Rmax l x)%R
    /\ Forall (fun y => y <= fold_left Rmax l x)%R l.
Proof.
  induction l as [| y l IH]; intros x; cbn [fold_left].
  - split; [lra | constructor].
  - destruct (IH (Rmax x y)) as [H1 H2].
    pose proof (Rmax_l x y). pose proof (Rmax_r x y).
    split; [lra |]. constructor; [lra | exact H2].
Qed.

(** [min] and [max] return an element of the list. *)
Lemma fold_min_in :
  forall l x, In (fold_left Rmin l x) (x :: l).
Proof.
  induction l as [| y l IH]; intros x; cbn [fold_left];
    [left; reflexivity |].
  destruct (IH (Rmin x y)) as [H | H]; [| right; right; exact H].
  rewrite <- H. unfold Rmin. destruct (Rle_dec x y);
    [left; reflexivity | right; left; reflexivity].
Qed.

Lemma fold_max_in :
  forall l x, In (fold_left Rmax l x) (x :: l).
Proof.
  induction l as [| y l IH]; intros x; cbn [fold_left];
    [left; reflexivity |].
  destruct (IH (Rmax x y)) as [H | H]; [| right; right; exact H].
  rewrite <- H. unfold Rmax. destruct (Rle_dec x y);
    [right; left; reflexivity | left; reflexivity].
Qed.

(** X11.  In every coverage entry the statistics are consistent: at
    least one document and no more documents than segments; one segment
    per instance joined to the source; the minimum and the maximum
    confidence are confidences of such instances, and the confidence of
    every one of them lies between the two.  (The average is computed in
    floating point, and nothing is said of it.) *)
Theorem coverage_entries_consistent :
  forall concept_instances documents_df concept_id,
    Forall
      (fun kv =>
         let e := snd kv in
         let joined :=
           List.map ConceptInstance.confidence
                    (filter (from_source documents_df (fst kv))
                            concept_instances) in
         (1 <= document_count e <= segment_count e)%nat
         /\ segment_count e = List.length joined
         /\ In (min_confidence e) joined
         /\ In (max_confidence e) joined
         /\ Forall (fun c => min_confidence e <= c <= max_confidence e)%R
                   joined)
      (coverage_values
         (analyze_coverage concept_instances documents_df concept_id)).
Proof.
  intros insts docs cid. rewrite coverage_values_map.
  apply Forall_forall. intros [k e] Hin. cbn zeta. cbn [fst snd].
  apply in_map_iff in Hin as [[k' st] [Heq Hin]].
  injection Heq as -> <-.
  pose proof (dict_In_get _ k st _ (source_stats_NoDup insts docs) Hin)
    as Hget.
  unfold source_stats_of in Hget. rewrite source_stats_group in Hget.
  cbn [Dict.get] in Hget.
  destruct (filter (from_source docs k) insts) as [| i members] eqn:Em;
    [discriminate |].
  assert (Hst : grow_stats docs new_stats (i :: members) = st).
  { unfold extend in Hget. cbn [or_default] in Hget. congruence. }
  clear Hget.
  assert (Hok : stats_ok st).
  { rewrite <- Hst. apply grow_stats_ok. unfold stats_ok, new_stats.
    cbn. lia. }
  pose proof (grow_stats_segments docs (i :: members) new_stats) as Hseg.
  rewrite Hst in Hseg.
  change (segments new_stats) with 0%nat in Hseg.
  pose proof (grow_stats_confidences docs (i :: members) new_stats) as Hconf.
  rewrite Hst in Hconf.
  change (confidences new_stats) with (@nil R) in Hconf.
  cbn [app] in Hconf.
  destruct Hok as [H1 [H2 H3]].
  unfold coverage_entry.
  cbn [document_count segment_count min_confidence max_confidence].
  rewrite Hconf.
  set (joined := List.map ConceptInstance.confidence (i :: members)) in *.
  split; [rewrite Hseg in *; cbn [List.length] in *; lia |].
  split; [rewrite Hseg; unfold joined; rewrite length_map; reflexivity |].
  unfold joined. cbn [List.map].
  set (x := ConceptInstance.confidence i).
  set (l := List.map ConceptInstance.confidence members).
  cbn [py_min py_max].
  destruct (fold_min_le l x) as [Hm1 Hm2].
  destruct (fold_max_ge l x) as [HM1 HM2].
  split; [apply fold_min_in |]. split; [apply fold_max_in |].
  constructor; [lra |].
  rewrite Forall_forall in *. intros y Hy.
  specialize (Hm2 y Hy). specialize (HM2 y Hy). lra.
Qed.

(** ** Lexical patterns *)

Lemma source_keywords_NoDup :
  forall representations concept_instances documents_df,
    NoDup (Dict.keys (source_keywords_of representations concept_instances
                                         documents_df)).
Proof.
  intros reps insts docs. unfold source_keywords_of.
  apply fold_set_NoDup; [| constructor].
  intros acc x.
  destruct (Dict.get _ _) as [rep |]; [| left; reflexivity].
  destruct (Representation.keywords rep); [left; reflexivity |].
  destruct (join_document x docs) as [[doc_id doc] |];
    [| left; reflexivity].
  right. eexists. eexists. reflexivity.
Qed.

Lemma lexical_values_map :
  forall representations concept_instances documents_df concept_id,
    lexical_values (analyze_lexical_patterns representations
                      concept_instances documents_df concept_id)
    = List.map (fun '(k, v) => (k, lexical_entry v))
               (source_keywords_of representations concept_instances
                                   documents_df).
Proof.
  intros reps insts docs cid.
  unfold analyze_lexical_patterns, lexical_values.
  cbn [ComparisonResult.values].
  change (fold_left _ (source_keywords_of reps insts docs) [])
    with (fold_left (fun acc '(k, v) => Dict.set k (lexical_entry v) acc)
                    (source_keywords_of reps insts docs) []).
  rewrite (fold_set_map _ _ lexical_entry); [reflexivity |].
  cbn [Dict.keys List.map app]. apply source_keywords_NoDup.
Qed.

(** X12.  For every source of the lexical result, the top keywords are
    the (at most ten) most frequent keywords pooled from the
    representations of the instances grouped under that source, most
    frequent first, ties broken by first occurrence in the pool; they are
    listed without repetition, [keyword_counts] holds exactly these
    keywords in the same order, each with its number of occurrences in the
    pool, and every pooled keyword left out ranks after every keyword
    listed. *)
Theorem lexical_top_keywords_ranked :
  forall representations concept_instances documents_df concept_id,
    Forall
      (fun kv =>
         let e := snd kv in
         let pool :=
           pooled_keywords representations concept_instances documents_df
                           (fst kv) in
         top_keywords e = List.map fst (keyword_counts e)
         /\ List.length (top_keywords e)
            = Nat.min 10 (List.length (PySet.of_list pool))
         /\ NoDup (top_keywords e)
         /\ StronglySorted (outranks pool) (top_keywords e)
         /\ (forall w n,
               In (w, n) (keyword_counts e) ->
               n = count_occ string_dec pool w /\ (1 <= n)%nat)
         /\ (forall a b,
               In a (top_keywords e) -> In b pool ->
               ~ In b (top_keywords e) -> outranks pool a b))
      (lexical_values
         (analyze_lexical_patterns representations concept_instances
            documents_df concept_id)).
Proof.
  intros reps insts docs cid. rewrite lexical_values_map.
  apply Forall_forall. intros [k e] Hin. cbn zeta. cbn [fst snd].
  apply in_map_iff in Hin as [[k' counts] [Heq Hin]].
  injection Heq as -> <-.
  pose proof (dict_In_get _ k counts _
                (source_keywords_NoDup reps insts docs) Hin) as Hget.
  unfold source_keywords_of in Hget. rewrite source_keywords_group in Hget.
  cbn [Dict.get] in Hget. fold (pooled_keywords reps insts docs k) in Hget.
  set (pool := pooled_keywords reps insts docs k) in *.
  assert (Hc : counts = Counter pool).
  { unfold extend in Hget. destruct pool; [discriminate |].
    cbn [or_default] in Hget. unfold Counter. congruence. }
  subst counts. clear Hget Hin.
  destruct (ranked_properties pool 10) as [H1 [H2 [H3 [H4 H5]]]].
  unfold lexical_entry. cbn [top_keywords keyword_counts].
  split; [reflexivity |]. split; [exact H3 |]. split; [exact H1 |].
  split; [exact H4 |]. split; [| exact H5].
  intros w n Hwn.
  apply firstn_incl in Hwn.
  apply (Permutation_in _ (sorted_desc_perm (Counter pool))) in Hwn.
  destruct (counter_item pool (w, n) Hwn) as [Hn Hw]. cbn [fst snd] in *.
  split; [exact Hn |].
  rewrite Hn. apply (count_occ_In string_dec) in Hw. lia.
Qed.

(* ================================================================== *)
(** * Properties of the representation extractor and of the pipeline *)

(** ** Dictionaries built by a comprehension *)

Lemma find_app_first :
  forall (A : Type) (p : A -> bool) (l1 l2 : list A),
    find p (l1 ++ l2) = match find p l1 with
                        | Some x => Some x
                        | None => find p l2
                        end.
Proof.
  intros A p l1 l2. induction l1 as [| a l1 IH]; cbn; [reflexivity |].
  destruct (p a); [reflexivity | exact IH].
Qed.

Lemma find_last_snoc :
  forall (A : Type) (p : A -> bool) (l : list A) (a : A),
    find_last p (l ++ [a]) = if p a then Some a else find_last p l.
Proof.
  intros A p l a. unfold find_last. rewrite rev_app_distr. reflexivity.
Qed.

Lemma keyed_fold_snoc :
  forall (V : Type) (key : V -> string) (l : list V) (a : V) (d : Dict.t V),
    fold_left (fun d x => Dict.set (key x) x d) (l ++ [a]) d
    = Dict.set (key a) a (fold_left (fun d x => Dict.set (key x) x d) l d).
Proof. intros V key l a d. rewrite fold_left_app. reflexivity. Qed.

(** A comprehension [{key(x): x for x in l}] maps a key to the last
    element carrying it. *)
Lemma keyed_lookup_last :
  forall (V : Type) (key : V -> string) (l : list V) (k : string),
    Dict.get k (fold_left (fun d x => Dict.set (key x) x d) l [])
    = find_last (fun x => String.eqb (key x) k) l.
Proof.
  intros V key l k. induction l as [| a l IH] using rev_ind;
    [reflexivity |].
  rewrite keyed_fold_snoc, find_last_snoc.
  destruct (String.eqb (key a) k) eqn:E.
  - apply String.eqb_eq in E. subst k. apply dict_get_set_same.
  - apply String.eqb_neq in E. rewrite dict_get_set_other by exact E.
    exact IH.
Qed.

Lemma find_none_not_in :
  forall (V : Type) (key : V -> string) (l : list V) (k : string),
    ~ In k (List.map key l) ->
    find (fun x => String.eqb (key x) k) l = None.
Proof.
  intros V key l k H. induction l as [| a l IH]; cbn; [reflexivity |].
  destruct (String.eqb (key a) k) eqn:E.
  - apply String.eqb_eq in E. exfalso. apply H. left. exact E.
  - apply IH. intros Hin. apply H. right. exact Hin.
Qed.

(** With unique keys the last element carrying a key is the first. *)
Lemma find_last_unique :
  forall (V : Type) (key : V -> string) (l : list V) (k : string),
    NoDup (List.map key l) ->
    find_last (fun x => String.eqb (key x) k) l
    = find (fun x => String.eqb (key x) k) l.
Proof.
  intros V key l k. unfold find_last.
  induction l as [| a l IH]; intros Hnd; [reflexivity |].
  cbn [List.map] in Hnd. apply NoDup_cons_iff in Hnd as [Hfresh Hnd].
  cbn [rev find]. rewrite find_app_first, (IH Hnd).
  destruct (String.eqb (key a) k) eqn:E.
  - apply String.eqb_eq in E. subst k.
    rewrite (find_none_not_in V key l (key a) Hfresh).
    cbn [find]. rewrite String.eqb_refl. reflexivity.
  - destruct (find _ l); [reflexivity |].
    cbn [find]. rewrite E. reflexivity.
Qed.

Lemma find_some_exists :
  forall (A : Type) (p : A -> bool) (l : list A) (x : A),
    In x l -> p x = true -> exists y, find p l = Some y.
Proof.
  intros A p l x Hin Hp. induction l as [| a l IH]; [destruct Hin |].
  cbn [find]. destruct (p a) eqn:E; [exists a; reflexivity |].
  destruct Hin as [-> | Hin]; [congruence | apply IH; exact Hin].
Qed.

Lemma filter_head_find :
  forall (A : Type) (p : A -> bool) (l : list A),
    match filter p l with [] => None | x :: _ => Some x end = find p l.
Proof.
  intros A p l. induction l as [| a l IH]; cbn; [reflexivity |].
  destruct (p a); [reflexivity | exact IH].
Qed.

(** ** Extraction *)

Lemma extract_all_flat_map :
  forall self concept_instances text_segments,
    extract_all_representations self concept_instances text_segments
    = flat_map (representation_for self text_segments) concept_instances.
Proof.
  intros self insts segs. unfold extract_all_representations.
  assert (H : forall acc,
             fold_left
               (fun representations instance =>
                  match Dict.get (ConceptInstance.text_segment_id instance)
                                 (segment_lookup_of segs) with
                  | None => representations
                  | Some segment =>
                      representations
                      ++ [extract_representation self instance segment]
                  end) insts acc
             = acc ++ flat_map (representation_for self segs) insts).
  { induction insts as [| i insts IH]; intros acc; cbn [fold_left flat_map].
    - rewrite app_nil_r. reflexivity.
    - rewrite IH. unfold representation_for at 2.
      destruct (Dict.get _ _); [| reflexivity].
      rewrite <- app_assoc. reflexivity. }
  apply (H []).
Qed.

(** X14.  The representations come out in the order of the instances,
    one for every instance whose segment is in the segment table and none
    for the others; each is identified by the segment id of its instance,
    not by the concept, and its metadata report the number of keywords and
    the presence of the embedding it carries. *)
Theorem extract_all_in_instance_order :
  forall self concept_instances text_segments,
    let representations :=
      extract_all_representations self concept_instances text_segments in
    List.map Representation.concept_instance_id representations
    = filter (segment_found text_segments)
             (List.map ConceptInstance.text_segment_id concept_instances)
    /\ Forall
         (fun rep =>
            Dict.get "keyword_count" (Representation.metadata rep)
            = Some (PyInt (Z.of_nat
                             (List.length (Representation.keywords rep))))
            /\ Dict.get "has_embedding" (Representation.metadata rep)
               = Some (py_bool (is_some (Representation.embedding rep)))
            /\ Representation.frame_summary rep = None)
         representations.
Proof.
  intros self insts segs. cbv zeta. rewrite extract_all_flat_map. split.
  - induction insts as [| i insts IH]; [reflexivity |].
    cbn [flat_map List.map filter]. rewrite map_app, IH.
    unfold representation_for, segment_found.
    destruct (Dict.get _ _); reflexivity.
  - apply Forall_forall. intros rep Hin.
    apply in_flat_map in Hin as [i [_ Hin]].
    unfold representation_for in Hin.
    destruct (Dict.get _ _) as [segment |]; [| destruct Hin].
    destruct Hin as [<- | []].
    unfold extract_representation.
    cbn [Representation.metadata Representation.keywords
         Representation.embedding Representation.frame_summary].
    repeat split.
Qed.

Lemma extracted_lookup_last :
  forall self text_segments concept_instances k segment,
    Dict.get k (segment_lookup_of text_segments) = Some segment ->
    Dict.get k
      (rep_lookup_of
         (extract_all_representations self concept_instances text_segments))
    = option_map
        (fun last => extract_representation self last segment)
        (find_last
           (fun j => String.eqb (ConceptInstance.text_segment_id j) k)
           concept_instances).
Proof.
  intros self segs insts k segment Hseg. rewrite extract_all_flat_map.
  induction insts as [| a insts IH] using rev_ind; [reflexivity |].
  rewrite flat_map_app, find_last_snoc. cbn [flat_map].
  rewrite app_nil_r. unfold representation_for at 2.
  destruct (String.eqb (ConceptInstance.text_segment_id a) k) eqn:E.
  - apply String.eqb_eq in E. subst k. rewrite Hseg.
    unfold rep_lookup_of. rewrite keyed_fold_snoc.
    change (Representation.concept_instance_id
              (extract_representation self a segment))
      with (ConceptInstance.text_segment_id a).
    rewrite dict_get_set_same. reflexivity.
  - destruct (Dict.get (ConceptInstance.text_segment_id a) _) as [seg_a |].
    + unfold rep_lookup_of. rewrite keyed_fold_snoc.
      change (Representation.concept_instance_id
                (extract_representation self a seg_a))
        with (ConceptInstance.text_segment_id a).
      apply String.eqb_neq in E. rewrite dict_get_set_other by exact E.
      exact IH.
    + rewrite app_nil_r. exact IH.
Qed.

(** X15.  Looking an instance up among the extracted representations
    finds the representation extracted for the last instance of the list
    with the same segment id: its metadata (concept id, confidence) are
    those of that last instance, while the keywords and the embedding the
    analyzer reads, which depend on the segment alone, are the ones
    extracted for the instance itself. *)
Theorem extracted_lookup :
  forall self concept_instances text_segments instance segment,
    In instance concept_instances ->
    Dict.get (ConceptInstance.text_segment_id instance)
             (segment_lookup_of text_segments) = Some segment ->
    let representations :=
      extract_all_representations self concept_instances text_segments in
    exists last,
      find_last
        (fun j => String.eqb (ConceptInstance.text_segment_id j)
                             (ConceptInstance.text_segment_id instance))
        concept_instances = Some last
      /\ Dict.get (ConceptInstance.text_segment_id instance)
                  (rep_lookup_of representations)
         = Some (extract_representation self last segment)
      /\ keywords_of representations instance
         = Representation.keywords
             (extract_representation self instance segment)
      /\ embedding_of representations instance
         = match Representation.embedding
                   (extract_representation self instance segment) with
           | Some e => [e]
           | None => []
           end.
Proof.
  intros self insts segs instance segment Hin Hseg. cbv zeta.
  pose proof (extracted_lookup_last self segs insts _ segment Hseg) as Hget.
  destruct (find_some_exists _
              (fun j => String.eqb (ConceptInstance.text_segment_id j)
                                   (ConceptInstance.text_segment_id instance))
              (rev insts) instance) as [last Hlast].
  { apply in_rev in Hin. exact Hin. }
  { apply String.eqb_refl. }
  fold (find_last
          (fun j => String.eqb (ConceptInstance.text_segment_id j)
                               (ConceptInstance.text_segment_id instance))
          insts) in Hlast.
  rewrite Hlast in Hget. cbn [option_map] in Hget.
  exists last. split; [exact Hlast |]. split; [exact Hget |].
  unfold keywords_of, embedding_of. rewrite Hget. split; reflexivity.
Qed.

Lemma extracted_lookup_witness :
  let self := RepresentationExtractor.mk false true 10 None in
  let segment := TextSegment.mk "s1" "d1" "wealth gap and wealth tax" 0 in
  let instance := ConceptInstance.mk "wealth" "s1" 1 "keyword" [] in
  let other := ConceptInstance.mk "taxation" "s1" (1 / 2) "keyword" [] in
  let concept_instances := [instance; other] in
  exists last,
    find_last
      (fun j => String.eqb (ConceptInstance.text_segment_id j) "s1")
      concept_instances = Some last
    /\ Dict.get "s1"
         (rep_lookup_of
            (extract_all_representations self concept_instances [segment]))
       = Some (extract_representation self last segment)
    /\ keywords_of
         (extract_all_representations self concept_instances [segment])
         instance
       = Representation.keywords
           (extract_representation self instance segment)
    /\ embedding_of
         (extract_all_representations self concept_instances [segment])
         instance
       = match Representation.embedding
                 (extract_representation self instance segment) with
         | Some e => [e]
         | None => []
         end.
Proof.
  intros self segment instance other concept_instances.
  apply (extracted_lookup self concept_instances [segment] instance segment).
  - left. reflexivity.
  - reflexivity.
Defined.

(** ** From assignment to analysis *)

Lemma segment_lookup_find :
  forall text_segments k,
    NoDup (List.map TextSegment.id text_segments) ->
    Dict.get k (segment_lookup_of text_segments)
    = find (fun seg => String.eqb (TextSegment.id seg) k) text_segments.
Proof.
  intros segs k Hnd. unfold segment_lookup_of.
  rewrite keyed_lookup_last. apply find_last_unique. exact Hnd.
Qed.

(** X16.  Through the pipeline the source an instance is grouped under
    is the source of the document of its segment: when segment ids are
    unique and no segment has an empty document id, an instance saved by
    [save_concept_instances] and reloaded by [load_data] is joined by the
    metrics to the same source as the join through the segment table. *)
Theorem reloaded_source_is_segment_source :
  forall text_segments documents_df instance,
    NoDup (List.map TextSegment.id text_segments) ->
    (forall seg, In seg text_segments -> TextSegment.document_id seg <> "") ->
    metadata_source documents_df
      (loaded_row (saved_row text_segments instance))
    = segment_join text_segments documents_df instance.
Proof.
  intros segs docs instance Hnd Hdoc.
  unfold metadata_source, segment_join.
  rewrite reloaded_instance_joins_through_segment.
  rewrite (segment_lookup_find segs _ Hnd).
  destruct (find _ segs) as [seg |] eqn:Ef; [| reflexivity].
  apply find_some in Ef as [Hin _]. cbv zeta.
  pose proof (Hdoc seg Hin) as Hne. apply String.eqb_neq in Hne.
  rewrite Hne.
  rewrite <- (filter_head_find _
                (fun row => String.eqb (Document.id row)
                                       (TextSegment.document_id seg)) docs).
  destruct (filter _ docs); reflexivity.
Qed.

Lemma reloaded_source_is_segment_source_witness :
  let segment := TextSegment.mk "s1" "d1" "wealth gap" 0 in
  let instance := ConceptInstance.mk "c" "s1" 1 "keyword" [] in
  let documents_df := [Document.mk "d1" "outlet"] in
  metadata_source documents_df (loaded_row (saved_row [segment] instance))
  = segment_join [segment] documents_df instance.
Proof.
  intros segment instance documents_df.
  apply (reloaded_source_is_segment_source [segment] documents_df instance).
  - constructor; [intros [] | constructor].
  - intros seg [<- | []]. discriminate.
Defined.

(** X17.  Saving and reloading is idempotent: an instance that went
    through [save_concept_instances] and [load_data] once comes back
    unchanged from a second round trip over the same segments.  The first
    round trip keeps the concept id, the segment id and the confidence,
    and leaves exactly four metadata keys: the text preview is dropped
    and the document id is added. *)
Theorem save_load_idempotent :
  forall text_segments instance,
    let reloaded := loaded_row (saved_row text_segments instance) in
    loaded_row (saved_row text_segments reloaded) = reloaded
    /\ ConceptInstance.concept_id reloaded
       = ConceptInstance.concept_id instance
    /\ ConceptInstance.text_segment_id reloaded
       = ConceptInstance.text_segment_id instance
    /\ ConceptInstance.confidence reloaded
       = ConceptInstance.confidence instance
    /\ Dict.keys (ConceptInstance.metadata reloaded)
       = ["keyword_score"; "embedding_score"; "text_length"; "document_id"].
Proof.
  intros segs instance. cbv zeta. split; [| repeat split].
  unfold loaded_row, saved_row.
  cbn [row_concept_id row_text_segment_id row_document_id row_confidence
       row_assignment_method row_keyword_score row_embedding_score
       row_text_length ConceptInstance.concept_id
       ConceptInstance.text_segment_id ConceptInstance.confidence
       ConceptInstance.assignment_method ConceptInstance.metadata].
  change (Dict.get "keyword_score" (("keyword_score", ?v) :: _))
    with (Some v).
  f_equal. f_equal.
  - f_equal.
    destruct (Dict.get "keyword_score" (ConceptInstance.metadata instance))
      as [[| r | z | s] |]; reflexivity.
  - f_equal.
    + f_equal.
      destruct (Dict.get "embedding_score"
                  (ConceptInstance.metadata instance))
        as [[| r | z | s] |]; reflexivity.
    + f_equal. f_equal.
      destruct (Dict.get "text_length" (ConceptInstance.metadata instance))
        as [[| r | z | s] |]; reflexivity.
Qed.


(** ** The loop of [main] *)

Lemma find_last_filter :
  forall (A : Type) (p q : A -> bool) (l : list A),
    (forall x, p x = true -> q x = true) ->
    find_last p (filter q l) = find_last p l.
Proof.
  intros A p q l Hpq. induction l as [| a l IH] using rev_ind;
    [reflexivity |].
  rewrite filter_app, find_last_snoc. cbn [filter].
  destruct (q a) eqn:Eq.
  - rewrite find_last_snoc. destruct (p a); [reflexivity | exact IH].
  - rewrite app_nil_r, IH.
    destruct (p a) eqn:Ep; [| reflexivity].
    rewrite (Hpq a Ep) in Eq. discriminate Eq.
Qed.

Lemma rep_lookup_filter :
  forall representations concept_insts instance,
    In instance concept_insts ->
    Dict.get (ConceptInstance.text_segment_id instance)
             (rep_lookup_of (concept_reps_of representations concept_insts))
    = Dict.get (ConceptInstance.text_segment_id instance)
               (rep_lookup_of representations).
Proof.
  intros reps ci instance Hin. unfold rep_lookup_of, concept_reps_of.
  rewrite !keyed_lookup_last. apply find_last_filter.
  intros rep Hp. apply String.eqb_eq in Hp.
  apply existsb_exists. exists instance. split; [exact Hin |].
  rewrite Hp. apply String.eqb_refl.
Qed.

Lemma fold_left_ext_In :
  forall (A X : Type) (f g : A -> X -> A) (l : list X),
    (forall a x, In x l -> f a x = g a x) ->
    forall a, fold_left f l a = fold_left g l a.
Proof.
  intros A X f g l. induction l as [| x l IH]; intros H a; [reflexivity |].
  cbn [fold_left]. rewrite (H a x (or_introl eq_refl)).
  apply IH. intros a' x' Hin. apply H. right. exact Hin.
Qed.

Lemma source_embeddings_filter :
  forall representations concept_insts documents_df,
    _get_source_embeddings (concept_reps_of representations concept_insts)
                           concept_insts documents_df
    = _get_source_embeddings representations concept_insts documents_df.
Proof.
  intros reps ci docs. unfold _get_source_embeddings. cbv zeta.
  apply fold_left_ext_In. intros acc instance Hin.
  rewrite (rep_lookup_filter reps ci instance Hin). reflexivity.
Qed.

Lemma source_keywords_filter :
  forall representations concept_insts documents_df,
    source_keywords_of (concept_reps_of representations concept_insts)
                       concept_insts documents_df
    = source_keywords_of representations concept_insts documents_df.
Proof.
  intros reps ci docs. unfold source_keywords_of. cbv zeta.
  apply fold_left_ext_In. intros acc instance Hin.
  rewrite (rep_lookup_filter reps ci instance Hin). reflexivity.
Qed.

(** X18.  The filter [main] applies to the representations before each
    metric changes no result: the metrics look representations up by the
    segment ids of the concept's instances, and the filter keeps every
    representation with such an id, so the similarity and the lexical
    metric, and with them the whole result list of the concept, are the
    same on the unfiltered list. *)
Theorem representation_filter_redundant :
  forall representations documents_df concept_id,
    (forall concept_insts,
       calculate_source_similarity
         (concept_reps_of representations concept_insts) concept_insts
         documents_df concept_id
       = calculate_source_similarity representations concept_insts
           documents_df concept_id
       /\ analyze_lexical_patterns
            (concept_reps_of representations concept_insts) concept_insts
            documents_df concept_id
          = analyze_lexical_patterns representations concept_insts
              documents_df concept_id)
    /\ (forall concept_instances,
          analyze_concept representations concept_instances documents_df
                          concept_id
          = analyze_concept_unfiltered representations concept_instances
              documents_df concept_id).
Proof.
  intros reps docs cid.
  assert (H : forall ci,
             calculate_source_similarity (concept_reps_of reps ci) ci docs cid
             = calculate_source_similarity reps ci docs cid
             /\ analyze_lexical_patterns (concept_reps_of reps ci) ci docs cid
                = analyze_lexical_patterns reps ci docs cid).
  { intros ci. split.
    - unfold calculate_source_similarity.
      rewrite source_embeddings_filter. reflexivity.
    - unfold analyze_lexical_patterns.
      rewrite source_keywords_filter. reflexivity. }
  split; [exact H |].
  intros insts. unfold analyze_concept, analyze_concept_unfiltered.
  cbv zeta. destruct (H (concept_insts_of insts cid)) as [Hs Hl].
  rewrite Hs, Hl. reflexivity.
Qed.

(** ** Without an embedding backend *)

Lemma extracted_without_embeddings :
  forall self concept_instances text_segments rep,
    RepresentationExtractor.use_embeddings self = false ->
    In rep (extract_all_representations self concept_instances text_segments) ->
    Representation.embedding rep = None.
Proof.
  intros self insts segs rep Hoff Hin. rewrite extract_all_flat_map in Hin.
  apply in_flat_map in Hin as [i [_ Hin]].
  unfold representation_for in Hin.
  destruct (Dict.get _ _) as [segment |]; [| destruct Hin].
  destruct Hin as [<- | []].
  unfold extract_representation. cbn [Representation.embedding].
  rewrite Hoff. reflexivity.
Qed.

(** X19.  An extractor with embeddings switched off yields no
    similarity result: every representation it extracts has no embedding,
    no source collects any, and [calculate_source_similarity] returns
    [None] whatever the instances and documents it is given. *)
Theorem no_embeddings_no_similarity :
  forall self concept_instances text_segments analysed documents_df
         concept_id,
    RepresentationExtractor.use_embeddings self = false ->
    let representations :=
      extract_all_representations self concept_instances text_segments in
    Forall (fun rep => Representation.embedding rep = None) representations
    /\ calculate_source_similarity representations analysed documents_df
                                   concept_id = Return None.
Proof.
  intros self insts segs analysed docs cid Hoff. cbv zeta.
  assert (Hnone : forall rep,
             In rep (extract_all_representations self insts segs) ->
             Representation.embedding rep = None).
  { intros rep. apply extracted_without_embeddings. exact Hoff. }
  split; [apply Forall_forall; exact Hnone |].
  unfold calculate_source_similarity.
  assert (Hskip : forall acc,
             fold_left
               (fun source_embeddings instance =>
                  match Dict.get (ConceptInstance.text_segment_id instance)
                          (rep_lookup_of
                             (extract_all_representations self insts segs))
                  with
                  | None => source_embeddings
                  | Some rep =>
                      match Representation.embedding rep with
                      | None => source_embeddings
                      | Some embedding =>
                          match join_document instance docs with
                          | None => source_embeddings
                          | Some (_, doc) =>
                              let source_id := Document.source_id doc in
                              Dict.set source_id
                                (or_default
                                   (Dict.get source_id source_embeddings) []
                                 ++ [embedding])
                                source_embeddings
                          end
                      end
                  end) analysed acc = acc).
  { induction analysed as [| i analysed IH]; intros acc; [reflexivity |].
    cbn [fold_left].
    destruct (Dict.get (ConceptInstance.text_segment_id i) _) as [rep |]
      eqn:Eg; [| apply IH].
    rewrite (Hnone rep (rep_lookup_In _ _ _ Eg)). apply IH. }
  unfold _get_source_embeddings. cbv zeta. rewrite Hskip. reflexivity.
Qed.

Lemma no_embeddings_no_similarity_witness :
  let self := RepresentationExtractor.mk false true 10 None in
  let segment := TextSegment.mk "s1" "d1" "wealth gap and wealth tax" 0 in
  let instance := ConceptInstance.mk "c" "s1" 1 "keyword" [] in
  let representations :=
    extract_all_representations self [instance] [segment] in
  Forall (fun rep => Representation.embedding rep = None) representations
  /\ calculate_source_similarity representations [instance]
       [Document.mk "d1" "outlet"] "c" = Return None.
Proof.
  intros self segment instance.
  apply (no_embeddings_no_similarity self [instance] [segment] [instance]
           [Document.mk "d1" "outlet"] "c").
  reflexivity.
Defined.

(* ================================================================== *)
(** * Properties of the canonicalizer *)

Lemma total_length_app :
  forall l1 l2,
    total_length (l1 ++ l2) = (total_length l1 + total_length l2)%Z.
Proof.
  intros l1 l2. unfold total_length.
  induction l1 as [| s l1 IH]; cbn [app fold_right]; [lia |].
  rewrite IH. lia.
Qed.

Lemma py_len_append :
  forall s1 s2, py_len (s1 ++ s2) = (py_len s1 + py_len s2)%Z.
Proof.
  intros s1 s2. unfold py_len.
  induction s1 as [| c s1 IH]; cbn [String.append String.length]; lia.
Qed.

Lemma py_len_join :
  forall l,
    l <> [] ->
    py_len (Str.join " " l)
    = (total_length l + Z.of_nat (List.length l) - 1)%Z.
Proof.
  induction l as [| p l IH]; intros Hne; [congruence |].
  destruct l as [| q l].
  - cbn [Str.join total_length fold_right List.length]. lia.
  - change (Str.join " " (p :: q :: l))
      with (p ++ " " ++ Str.join " " (q :: l))%string.
    rewrite !py_len_append, IH by discriminate.
    change (py_len " ") with 1%Z.
    change (total_length (p :: q :: l))
      with (py_len p + total_length (q :: l))%Z.
    change (List.length (p :: q :: l)) with (S (List.length (q :: l))).
    lia.
Qed.

Section Segmentation.

Variable self : TextCanonicalizer.t.
Variable hashlib : Hashlib.
Variable document_id : string.
Variable paragraphs : list string.

Local Abbreviation ok := (segments_ok self hashlib document_id paragraphs).
Local Abbreviation origin := (segment_origin self paragraphs).

Lemma append_segment_ok :
  forall idx text segs,
    ok segs ->
    (TextCanonicalizer.min_segment_length self <= py_len text)%Z ->
    origin text ->
    ok (append_segment hashlib document_id idx text segs).
Proof.
  intros idx text segs Hok Hmin Horigin n seg Hn.
  unfold append_segment in Hn. cbv zeta in Hn.
  destruct (Nat.lt_ge_cases n (List.length segs)) as [Hlt | Hge].
  - rewrite nth_error_app1 in Hn by exact Hlt. apply Hok. exact Hn.
  - rewrite nth_error_app2 in Hn by exact Hge.
    destruct (n - List.length segs)%nat as [| k] eqn:Ek.
    + assert (n = List.length segs) by lia. subst n.
      cbn [nth_error] in Hn. injection Hn as <-.
      unfold segment_ok.
      cbn [TextSegment.position TextSegment.document_id TextSegment.id
           TextSegment.text].
      repeat split; try assumption. exists idx. reflexivity.
    + cbn [nth_error] in Hn. destruct k; discriminate Hn.
Qed.

Lemma save_chunk_ok :
  forall idx current_chunk segs,
    ok segs ->
    ((TextCanonicalizer.min_segment_length self
      <= py_len (Str.join " " current_chunk))%Z ->
     origin (Str.join " " current_chunk)) ->
    ok (save_chunk self hashlib document_id idx current_chunk segs).
Proof.
  intros idx chunk segs Hok Horigin. unfold save_chunk. cbv zeta.
  destruct (Z.leb_spec (TextCanonicalizer.min_segment_length self)
              (py_len (Str.join " " chunk))) as [Hle | Hlt];
    [| exact Hok].
  apply append_segment_ok; [exact Hok | exact Hle | apply Horigin; exact Hle].
Qed.

Section Chunks.

Variable idx : nat.
Variable para : string.
Hypothesis para_in : In para (List.map strip paragraphs).
Hypothesis para_long :
  (TextCanonicalizer.max_segment_length self < py_len para)%Z.

Lemma chunk_origin :
  forall before current_chunk after,
    current_chunk <> [] ->
    before ++ current_chunk ++ after = stripped_sentences para ->
    (List.length current_chunk = 1%nat
     \/ (total_length current_chunk
         <= TextCanonicalizer.max_segment_length self)%Z) ->
    origin (Str.join " " current_chunk).
Proof.
  intros before chunk after Hne Hsub Hbound.
  exists para. split; [exact para_in |]. right.
  split; [exact para_long |].
  exists chunk. split; [exact Hne |].
  split; [exists before, after; exact Hsub |].
  split; [reflexivity |]. split; [exact Hbound |].
  apply py_len_join. exact Hne.
Qed.

Lemma chunk_step_inv :
  forall done sentence todo st,
    split_sentences para = done ++ sentence :: todo ->
    chunk_inv self hashlib document_id paragraphs done st ->
    chunk_inv self hashlib document_id paragraphs (done ++ [sentence])
              (chunk_step self hashlib document_id idx st sentence).
Proof.
  intros done sentence todo [[segs chunk] len] Hall
         [Hok [Hlen [[before Hbefore] Hbound]]].
  assert (Hfilter : filter nonempty (List.map strip (done ++ [sentence]))
                    = filter nonempty (List.map strip done)
                      ++ (if nonempty (strip sentence)
                          then [strip sentence] else [])).
  { rewrite map_app, filter_app. cbn [List.map filter].
    destruct (nonempty (strip sentence)); reflexivity. }
  assert (Hrest : stripped_sentences para
                  = filter nonempty (List.map strip done)
                    ++ (if nonempty (strip sentence)
                        then [strip sentence] else [])
                    ++ filter nonempty (List.map strip todo)).
  { unfold stripped_sentences. rewrite Hall.
    rewrite map_app, filter_app. cbn [List.map filter].
    destruct (nonempty (strip sentence)); reflexivity. }
  unfold chunk_step. cbv zeta.
  destruct (strip sentence) as [| c s] eqn:Es.
  - cbn [nonempty] in Hfilter. rewrite app_nil_r in Hfilter.
    unfold chunk_inv. rewrite Hfilter.
    split; [exact Hok |]. split; [exact Hlen |].
    split; [exists before; exact Hbefore | exact Hbound].
  - cbn [nonempty] in Hfilter, Hrest. rewrite <- Es in *.
    destruct (Z.ltb_spec (TextCanonicalizer.max_segment_length self)
                (len + py_len (strip sentence))) as [Hover | Hfits];
      cbn [andb].
    + destruct chunk as [| s0 chunk0] eqn:Ec.
      * unfold chunk_inv. rewrite Hfilter.
        split; [exact Hok |].
        cbn [app total_length fold_right].
        split; [subst len; cbn [total_length fold_right]; lia |].
        split; [exists before; rewrite app_nil_r in Hbefore;
                rewrite <- Hbefore; reflexivity |].
        right. left. reflexivity.
      * rewrite <- Ec in *.
        unfold chunk_inv. rewrite Hfilter.
        split.
        { apply save_chunk_ok; [exact Hok |]. intros _.
          apply (chunk_origin before chunk
                   ([strip sentence]
                    ++ filter nonempty (List.map strip todo))).
          - subst chunk. discriminate.
          - rewrite Hrest, <- Hbefore, <- app_assoc. reflexivity.
          - destruct Hbound as [Hb | Hb]; [subst chunk; discriminate Hb |].
            exact Hb. }
        split; [cbn [total_length fold_right]; lia |].
        split; [exists (before ++ chunk); rewrite <- Hbefore;
                reflexivity |].
        right. left. reflexivity.
    + unfold chunk_inv. rewrite Hfilter.
      split; [exact Hok |].
      split.
      { rewrite total_length_app. cbn [total_length fold_right]. lia. }
      split.
      { exists before. rewrite app_assoc, Hbefore. reflexivity. }
      destruct chunk as [| s0 chunk0] eqn:Ec.
      * right. left. reflexivity.
      * right. right. rewrite <- Ec in *.
        rewrite total_length_app. cbn [total_length fold_right]. lia.
Qed.

Lemma chunk_fold_inv :
  forall todo done st,
    split_sentences para = done ++ todo ->
    chunk_inv self hashlib document_id paragraphs done st ->
    chunk_inv self hashlib document_id paragraphs (split_sentences para)
              (fold_left (chunk_step self hashlib document_id idx) todo st).
Proof.
  induction todo as [| sentence todo IH]; intros done st Hall Hinv.
  - rewrite app_nil_r in Hall. rewrite Hall. exact Hinv.
  - cbn [fold_left]. apply (IH (done ++ [sentence])).
    + rewrite <- app_assoc. exact Hall.
    + apply (chunk_step_inv done sentence todo); assumption.
Qed.

End Chunks.

Lemma paragraph_step_ok :
  forall segs idx para,
    In para paragraphs ->
    ok segs ->
    ok (paragraph_step self hashlib document_id segs (idx, para)).
Proof.
  intros segs idx para Hin Hok. unfold paragraph_step. cbv zeta.
  assert (Hin' : In (strip para) (List.map strip paragraphs)).
  { apply in_map. exact Hin. }
  destruct (Z.ltb_spec (py_len (strip para))
              (TextCanonicalizer.min_segment_length self)) as [Hshort | Hmin];
    [exact Hok |].
  destruct (Z.ltb_spec (TextCanonicalizer.max_segment_length self)
              (py_len (strip para))) as [Hlong | Hmax].
  - pose proof (chunk_fold_inv idx (strip para) Hin' Hlong
                  (split_sentences (strip para)) [] (segs, [], 0%Z)
                  eq_refl) as Hinv.
    destruct (fold_left _ (split_sentences (strip para)) (segs, [], 0%Z))
      as [[segs' chunk] len].
    assert (Hstart : chunk_inv self hashlib document_id paragraphs []
                               (segs, [], 0%Z)).
    { unfold chunk_inv. split; [exact Hok |]. split; [reflexivity |].
      split; [exists []; reflexivity | left; reflexivity]. }
    destruct (Hinv Hstart) as [Hok' [_ [[before Hbefore] Hbound]]].
    destruct chunk as [| s0 chunk0] eqn:Ec; [exact Hok' |].
    rewrite <- Ec in *.
    apply save_chunk_ok; [exact Hok' |]. intros _.
    apply (chunk_origin (strip para) Hin' Hlong before chunk []).
    + subst chunk. discriminate.
    + rewrite app_nil_r. exact Hbefore.
    + destruct Hbound as [Hb | Hb]; [subst chunk; discriminate Hb |].
      exact Hb.
  - apply append_segment_ok; [exact Hok | exact Hmin |].
    exists (strip para). split; [exact Hin' |]. left.
    split; [reflexivity | lia].
Qed.

Lemma paragraphs_fold_ok :
  forall entries segs,
    (forall entry, In entry entries -> In (snd entry) paragraphs) ->
    ok segs ->
    ok (fold_left (paragraph_step self hashlib document_id) entries segs).
Proof.
  induction entries as [| [idx para] entries IH]; intros segs Hin Hok;
    [exact Hok |].
  cbn [fold_left]. apply IH.
  - intros entry He. apply Hin. right. exact He.
  - apply paragraph_step_ok; [| exact Hok].
    apply (Hin (idx, para)). left. reflexivity.
Qed.

End Segmentation.

Lemma segment_by_paragraphs_ok :
  forall self hashlib text document_id,
    segments_ok self hashlib document_id
      (split_paragraphs (normalize_whitespace text))
      (segment_by_paragraphs self hashlib text document_id).
Proof.
  intros self hashlib text document_id. unfold segment_by_paragraphs.
  cbv zeta. apply paragraphs_fold_ok.
  - intros [idx para] Hin. unfold enumerate in Hin.
    apply in_combine_r in Hin. exact Hin.
  - intros n seg Hn. destruct n; discriminate Hn.
Qed.

Lemma positions_of_ok :
  forall self hashlib document_id paragraphs segs,
    segments_ok self hashlib document_id paragraphs segs ->
    List.map TextSegment.position segs
    = List.map Z.of_nat (seq 0 (List.length segs)).
Proof.
  intros self hashlib document_id paragraphs segs.
  induction segs as [| seg segs IH] using rev_ind; intros Hok;
    [reflexivity |].
  rewrite length_app, Nat.add_comm. cbn [List.length Nat.add].
  rewrite seq_S, !map_app. cbn [List.map Nat.add].
  rewrite IH.
  - f_equal. f_equal.
    destruct (Hok (List.length segs) seg) as [Hpos _]; [| exact Hpos].
    rewrite nth_error_app2 by lia. rewrite Nat.sub_diag. reflexivity.
  - intros n s Hn. apply Hok. rewrite nth_error_app1; [exact Hn |].
    apply nth_error_Some. rewrite Hn. discriminate.
Qed.

(** X20.  The segments of a document are numbered 0, 1, 2, ... in the
    order they are cut; each carries the document id it was cut from, a
    text of at least [min_segment_length] characters, and as id the
    digest of a key made of the document id, a paragraph index and its
    own position. *)
Theorem segments_numbered_and_long_enough :
  forall self hashlib text document_id,
    let segs := segment_by_paragraphs self hashlib text document_id in
    List.map TextSegment.position segs
    = List.map Z.of_nat (seq 0 (List.length segs))
    /\ Forall
         (fun seg =>
            TextSegment.document_id seg = document_id
            /\ (TextCanonicalizer.min_segment_length self
                <= py_len (TextSegment.text seg))%Z
            /\ exists idx,
                 TextSegment.id seg
                 = _generate_segment_id hashlib document_id idx
                     (Z.to_nat (TextSegment.position seg)))
         segs.
Proof.
  intros self hashlib text document_id. cbv zeta.
  pose proof (segment_by_paragraphs_ok self hashlib text document_id) as Hok.
  split; [apply (positions_of_ok _ _ _ _ _ Hok) |].
  apply Forall_forall. intros seg Hin.
  apply In_nth_error in Hin as [n Hn].
  destruct (Hok n seg Hn) as [Hpos [Hdoc [[idx Hid] [Hmin _]]]].
  split; [exact Hdoc |]. split; [exact Hmin |].
  exists idx. rewrite Hpos, Nat2Z.id. exact Hid.
Qed.

(** X21.  The text of every segment is either a whole paragraph,
    stripped, whose length lies between the two bounds, or a chunk of a
    longer paragraph: consecutive stripped, non-empty sentences joined by
    single spaces.  [max_segment_length] bounds the summed lengths of the
    sentences of a chunk of several sentences, not the chunk: the text is
    longer than that sum by one space per joint, and a chunk of a single
    sentence is not bounded at all. *)
Theorem segment_text_origin :
  forall self hashlib text document_id,
    Forall
      (fun seg =>
         segment_origin self (split_paragraphs (normalize_whitespace text))
                        (TextSegment.text seg))
      (segment_by_paragraphs self hashlib text document_id).
Proof.
  intros self hashlib text document_id.
  pose proof (segment_by_paragraphs_ok self hashlib text document_id) as Hok.
  apply Forall_forall. intros seg Hin.
  apply In_nth_error in Hin as [n Hn].
  destruct (Hok n seg Hn) as [_ [_ [_ [_ Horigin]]]]. exact Horigin.
Qed.


(** ** From the documents to the sources of the reloaded instances *)

Lemma canonicalize_documents_ids :
  forall hashlib df seg,
    In seg (canonicalize_documents hashlib df) ->
    In (TextSegment.document_id seg)
       (List.map (fun row => Document.id (fst row)) df).
Proof.
  intros hashlib df seg. unfold canonicalize_documents. cbv zeta.
  assert (H : forall acc,
             In seg
               (fold_left
                  (fun all_segments row =>
                     all_segments
                     ++ canonicalize_document
                          (TextCanonicalizer__init__ None None) hashlib
                          (Document.id (fst row)) (snd row)) df acc) ->
             In seg acc
             \/ In (TextSegment.document_id seg)
                   (List.map (fun row => Document.id (fst row)) df)).
  { induction df as [| row df IH]; intros acc Hin; [left; exact Hin |].
    cbn [fold_left] in Hin. cbn [List.map].
    destruct (IH _ Hin) as [Hacc | Hrest]; [| right; right; exact Hrest].
    apply in_app_or in Hacc as [Hacc | Hnew]; [left; exact Hacc |].
    right. left. unfold canonicalize_document in Hnew.
    apply In_nth_error in Hnew as [n Hn].
    destruct (segment_by_paragraphs_ok _ _ _ _ n seg Hn)
      as [_ [Hdoc _]].
    symmetry. exact Hdoc. }
  intros Hin. destruct (H [] Hin) as [[] | Hdoc]. exact Hdoc.
Qed.

Lemma segment_lookup_in :
  forall text_segments k,
    In k (List.map TextSegment.id text_segments) ->
    exists seg,
      Dict.get k (segment_lookup_of text_segments) = Some seg
      /\ In seg text_segments.
Proof.
  intros segs k Hin. unfold segment_lookup_of. rewrite keyed_lookup_last.
  apply in_map_iff in Hin as [seg0 [Hk Hin]].
  destruct (find_some_exists _
              (fun seg => String.eqb (TextSegment.id seg) k)
              (rev segs) seg0) as [seg Hfind].
  { apply in_rev in Hin. exact Hin. }
  { rewrite Hk. apply String.eqb_refl. }
  exists seg. split; [exact Hfind |].
  apply find_some in Hfind as [Hin' _]. apply in_rev. exact Hin'.
Qed.

(** X22.  End to end, no assigned instance is lost to the join: when the
    documents have non-empty ids, every instance assigned on the segments
    canonicalized from them, saved and reloaded, is grouped by the metrics
    under the source of a document of the frame. *)
Theorem pipeline_instances_have_sources :
  forall env hashlib df concept_ids min_confidence use_embeddings,
    (forall row, In row df -> Document.id (fst row) <> "") ->
    let text_segments := canonicalize_documents hashlib df in
    match assign_concepts_to_segments env text_segments concept_ids
            min_confidence use_embeddings with
    | Return instances =>
        Forall
          (fun instance =>
             exists row,
               In row (List.map fst df)
               /\ metadata_source (List.map fst df)
                    (loaded_row (saved_row text_segments instance))
                  = Some (Document.source_id row))
          instances
    | Raise _ => True
    end.
Proof.
  intros env hashlib df ids mc ue Hids. cbv zeta.
  unfold assign_concepts_to_segments. cbv zeta.
  destruct (ConceptAssigner__init__ env _) as [assigner cache].
  unfold assign_all_concepts.
  destruct (resolve_concepts ids) as [concepts | e]; [| exact I].
  pose proof (assign_segments_ok assigner (canonicalize_documents hashlib df)
                concepts (canonicalize_documents hashlib df) ([], cache)
                (incl_refl _) (Forall_nil _)) as H.
  cbv zeta in H.
  destruct (fold_left _ (canonicalize_documents hashlib df) ([], cache))
    as [instances cache'].
  cbn [fst] in *. destruct H as [Hall _].
  apply (Forall_impl _ (P := emitted_ok assigner
                               (canonicalize_documents hashlib df) concepts));
    [| exact Hall].
  intros instance [Hseg _].
  destruct (segment_lookup_in _ _ Hseg) as [seg [Hget Hin]].
  pose proof (canonicalize_documents_ids hashlib df seg Hin) as Hdoc.
  apply in_map_iff in Hdoc as [row [Hrow Hin_row]].
  unfold metadata_source.
  rewrite reloaded_instance_joins_through_segment, Hget. cbv zeta.
  pose proof (Hids row Hin_row) as Hne. rewrite Hrow in Hne.
  apply String.eqb_neq in Hne. rewrite Hne.
  destruct (filter (fun r => String.eqb (Document.id r)
                                        (TextSegment.document_id seg))
                   (List.map fst df)) as [| first rest] eqn:Ef.
  - exfalso.
    assert (Hf : In (fst row)
                    (filter (fun r => String.eqb (Document.id r)
                                        (TextSegment.document_id seg))
                            (List.map fst df))).
    { apply filter_In. split; [apply in_map; exact Hin_row |].
      rewrite Hrow. apply String.eqb_refl. }
    rewrite Ef in Hf. destruct Hf.
  - exists first. split; [| reflexivity].
    assert (Hf : In first
                    (filter (fun r => String.eqb (Document.id r)
                                        (TextSegment.document_id seg))
                            (List.map fst df))).
    { rewrite Ef. left. reflexivity. }
    apply filter_In in Hf as [Hf _]. exact Hf.
Qed.

Lemma pipeline_instances_have_sources_witness :
  let env := {| EMBEDDINGS_AVAILABLE := false;
                SentenceTransformer := fun _ => None |} in
  let hashlib := {| md5_hexdigest := fun key => key |} in
  let df :=
    [(Document.mk "d1" "outlet",
      ("The wealth gap keeps growing: income inequality and the wage gap "
       ++ "widen while the top 1% holds most of the wealth.")%string)] in
  let text_segments := canonicalize_documents hashlib df in
  match assign_concepts_to_segments env text_segments
          ["income_wealth_inequality"] None None with
  | Return instances =>
      Forall
        (fun instance =>
           exists row,
             In row (List.map fst df)
             /\ metadata_source (List.map fst df)
                  (loaded_row (saved_row text_segments instance))
                = Some (Document.source_id row))
        instances
  | Raise _ => True
  end.
Proof.
  intros env hashlib df.
  apply (pipeline_instances_have_sources env hashlib df
           ["income_wealth_inequality"] None None).
  intros row [<- | []]. discriminate.
Defined.

(** ** The choice of concepts *)

Lemma resolve_defined :
  forall concept_ids,
    Forall (fun cid => Str.mem cid (Dict.keys CONCEPTS) = true) concept_ids ->
    exists concepts, resolve_concepts concept_ids = Return concepts.
Proof.
  induction concept_ids as [| cid rest IH]; intros Hall.
  - exists []. reflexivity.
  - apply Forall_cons_iff in Hall as [Hcid Hrest].
    destruct (IH Hrest) as [cs Hcs].
    rewrite mem_keys_get in Hcid.
    cbn [resolve_concepts]. unfold get_concept_by_id.
    destruct (Dict.get cid CONCEPTS) as [c |]; [| discriminate Hcid].
    rewrite Hcs. exists (c :: cs). reflexivity.
Qed.

Lemma selected_defined :
  forall concept_ids use_all_concepts selected,
    select_concept_ids concept_ids use_all_concepts = Return selected ->
    selected <> []
    /\ Forall (fun cid => Str.mem cid (Dict.keys CONCEPTS) = true) selected.
Proof.
  intros ids use_all selected H. unfold select_concept_ids in H.
  cbv zeta in H.
  assert (Hall : Forall (fun cid => Str.mem cid (Dict.keys CONCEPTS) = true)
                        all_concept_ids).
  { repeat constructor. }
  destruct ids as [ids |].
  - destruct (or_default use_all true).
    + injection H as <-. split; [discriminate | exact Hall].
    + destruct (filter _ ids) as [| cid rest] eqn:Ef; [discriminate H |].
      injection H as <-. split; [discriminate |].
      rewrite <- Ef. apply Forall_forall. intros x Hx.
      apply filter_In in Hx as [_ Hx]. exact Hx.
  - injection H as <-. split; [discriminate | exact Hall].
Qed.

(** X23.  The concept ids [run_concept_assignment] hands to the batch
    assignment are never unknown: it either stops with ['No valid concepts
    to assign'] or selects a non-empty list of defined ids, on which the
    batch assignment returns instead of raising.  With [use_all_concepts]
    left at its default the caller's list is ignored and every defined
    concept is selected; with it switched off the defined ids of the list
    are kept, in order and with their repetitions. *)
Theorem selected_concepts_never_fail :
  forall concept_ids use_all_concepts,
    match select_concept_ids concept_ids use_all_concepts with
    | Return selected =>
        selected <> []
        /\ Forall (fun cid => exists c, get_concept_by_id cid = Return c)
                  selected
        /\ (forall env text_segments min_confidence use_embeddings,
              exists instances,
                assign_concepts_to_segments env text_segments selected
                  min_confidence use_embeddings = Return instances)
    | Raise e => e = ValueError "No valid concepts to assign"
    end
    /\ select_concept_ids concept_ids None = Return all_concept_ids
    /\ (forall ids,
          select_concept_ids (Some ids) (Some false)
          = match filter (fun cid => Str.mem cid (Dict.keys CONCEPTS)) ids
            with
            | [] => Raise (ValueError "No valid concepts to assign")
            | kept => Return kept
            end).
Proof.
  intros ids use_all. split; [| split].
  - destruct (select_concept_ids ids use_all) as [selected | e] eqn:Es.
    + destruct (selected_defined ids use_all selected Es) as [Hne Hall].
      split; [exact Hne |]. split.
      * apply (Forall_impl _ (P := fun cid =>
                                     Str.mem cid (Dict.keys CONCEPTS) = true));
          [| exact Hall].
        intros cid Hcid. rewrite mem_keys_get in Hcid.
        unfold get_concept_by_id.
        destruct (Dict.get cid CONCEPTS) as [c |]; [| discriminate Hcid].
        exists c. reflexivity.
      * intros env segs mc ue.
        destruct (resolve_defined selected Hall) as [concepts Hres].
        unfold assign_concepts_to_segments. cbv zeta.
        destruct (ConceptAssigner__init__ env _) as [assigner cache].
        unfold assign_all_concepts. rewrite Hres.
        destruct (fold_left _ segs ([], cache)) as [instances cache'].
        exists instances. reflexivity.
    + unfold select_concept_ids in Es. cbv zeta in Es.
      destruct ids as [ids |]; [| discriminate Es].
      destruct (or_default use_all true); [discriminate Es |].
      destruct (filter _ ids); [| discriminate Es].
      injection Es as <-. reflexivity.
  - destruct ids; reflexivity.
  - intros l. unfold select_concept_ids. cbv zeta. cbn [or_default].
    destruct (filter _ l); reflexivity.
Qed.

(* ================================================================== *)
(** * Properties of the ingestion *)

Lemma dedup_step_inv :
  forall known docs ids row,
    dedup_inv known (docs, ids) ->
    dedup_inv known
      (if Str.mem (row_id row) ids then (docs, ids)
       else (docs ++ [row], PySet.add (row_id row) ids)).
Proof.
  intros known docs ids row [Hids [Hnd Hnew]]. cbn [fst snd] in *.
  destruct (Str.mem (row_id row) ids) eqn:Em;
    [split; [exact Hids | split; [exact Hnd | exact Hnew]] |].
  assert (Hfresh : ~ In (row_id row) ids).
  { intros Hin. apply mem_In in Hin. congruence. }
  unfold dedup_inv. cbn [fst snd]. rewrite map_app. cbn [List.map].
  split; [| split].
  - intros x. unfold PySet.add. rewrite Em.
    rewrite !in_app_iff, Hids. cbn [In]. tauto.
  - apply NoDup_app; [exact Hnd | constructor; [intros [] | constructor] |].
    intros x Hx [<- | []]. apply Hfresh. apply Hids. right. exact Hx.
  - intros x Hx. apply in_app_or in Hx as [Hx | [<- | []]];
      [apply Hnew; exact Hx |].
    intros Hk. apply Hfresh. apply Hids. left. exact Hk.
Qed.

Lemma ingest_source_inv :
  forall hashlib source_id known articles before ids,
    dedup_inv known (before, ids) ->
    let '(new_docs, ids') := ingest_source hashlib source_id articles ids in
    dedup_inv known (before ++ new_docs, ids')
    /\ Forall (fun row => exists article,
                 In article articles
                 /\ row = create_document hashlib article source_id)
              new_docs.
Proof.
  intros hashlib source_id known articles before ids Hinv.
  unfold ingest_source.
  assert (H : forall todo done new_docs ids0,
             dedup_inv known (before ++ new_docs, ids0) ->
             Forall (fun row => exists article,
                       In article (done ++ todo)
                       /\ row = create_document hashlib article source_id)
                    new_docs ->
             let '(new_docs', ids') :=
               fold_left
                 (fun '(new_documents, existing_ids) article =>
                    let document :=
                      create_document hashlib article source_id in
                    if Str.mem (Document.id (fst document)) existing_ids
                    then (new_documents, existing_ids)
                    else (new_documents ++ [document],
                          PySet.add (Document.id (fst document))
                                    existing_ids))
                 todo (new_docs, ids0) in
             dedup_inv known (before ++ new_docs', ids')
             /\ Forall (fun row => exists article,
                          In article (done ++ todo)
                          /\ row = create_document hashlib article source_id)
                       new_docs').
  { induction todo as [| article todo IH]; intros done new_docs ids0 Hi Hall.
    - cbn [fold_left]. split; assumption.
    - cbn [fold_left]. cbv zeta.
      pose proof (dedup_step_inv known (before ++ new_docs) ids0
                    (create_document hashlib article source_id) Hi) as Hstep.
      unfold row_id in Hstep.
      replace (done ++ article :: todo) with ((done ++ [article]) ++ todo)
        in * by (rewrite <- app_assoc; reflexivity).
      destruct (Str.mem (Document.id
                           (fst (create_document hashlib article source_id)))
                        ids0).
      + apply (IH (done ++ [article])); assumption.
      + apply (IH (done ++ [article])).
        * rewrite app_assoc. exact Hstep.
        * apply Forall_app. split; [exact Hall |].
          constructor; [| constructor].
          exists article. split; [| reflexivity].
          apply in_or_app. left. apply in_or_app. right. left. reflexivity. }
  specialize (H articles [] [] ids).
  rewrite app_nil_r in H. cbn [app] in H.
  apply H; [exact Hinv | constructor].
Qed.

(** X24.  Ingestion never duplicates a document: the frame returned is
    the stored frame, untouched and in front, followed by the new
    documents; each new document is made from a fetched article of its
    source, the ids of the new documents are pairwise distinct, and none
    of them is the id of a stored document. *)
Theorem ingestion_adds_only_new_ids :
  forall hashlib existing_documents fetched,
    exists new_documents,
      ingest_all_sources hashlib existing_documents fetched
      = existing_documents ++ new_documents
      /\ NoDup (List.map row_id new_documents)
      /\ (forall row,
            In row new_documents ->
            ~ In (row_id row) (List.map row_id existing_documents))
      /\ Forall (ingested_from hashlib fetched) new_documents.
Proof.
  intros hashlib stored fetched. unfold ingest_all_sources. cbv zeta.
  set (known := PySet.of_list
                  (List.map (fun row => Document.id (fst row)) stored)).
  assert (H : forall todo done all_new ids,
             dedup_inv known (all_new, ids) ->
             Forall (ingested_from hashlib (done ++ todo)) all_new ->
             let '(all_new', ids') :=
               fold_left
                 (fun '(all_new_documents, existing_ids)
                      '(source_id, articles) =>
                    let '(new_docs, existing_ids) :=
                      ingest_source hashlib source_id articles existing_ids in
                    (all_new_documents ++ new_docs, existing_ids))
                 todo (all_new, ids) in
             dedup_inv known (all_new', ids')
             /\ Forall (ingested_from hashlib (done ++ todo)) all_new').
  { induction todo as [| [source_id articles] todo IH];
      intros done all_new ids Hinv Hall.
    - cbn [fold_left]. split; assumption.
    - cbn [fold_left].
      pose proof (ingest_source_inv hashlib source_id known articles
                    all_new ids Hinv) as Hsrc.
      destruct (ingest_source hashlib source_id articles ids)
        as [new_docs ids'].
      destruct Hsrc as [Hinv' Hfrom].
      replace (done ++ (source_id, articles) :: todo)
        with ((done ++ [(source_id, articles)]) ++ todo)
        in * by (rewrite <- app_assoc; reflexivity).
      apply (IH (done ++ [(source_id, articles)])); [exact Hinv' |].
      apply Forall_app. split; [exact Hall |].
      apply (Forall_impl _ (P := fun row => exists article,
                                   In article articles
                                   /\ row = create_document hashlib article
                                              source_id));
        [| exact Hfrom].
      intros row [article [Hin Hrow]].
      exists source_id, articles, article.
      split; [| split; assumption].
      apply in_or_app. left. apply in_or_app. right. left. reflexivity. }
  specialize (H fetched [] [] known).
  cbn [app] in H.
  destruct (fold_left _ fetched ([], known)) as [all_new ids].
  destruct H as [[Hids [Hnd Hnew]] Hfrom].
  { unfold dedup_inv. cbn [fst snd List.map].
    split; [intros x; cbn [In]; tauto |].
    split; [constructor | intros x []]. }
  { constructor. }
  cbn [fst snd] in *.
  exists all_new. split; [reflexivity |]. split; [exact Hnd |].
  split; [| exact Hfrom].
  intros row Hin Hstored. apply (Hnew (row_id row)).
  - apply in_map. exact Hin.
  - unfold known, PySet.of_list. apply pyset_update_In. right. exact Hstored.
Qed.

(* ================================================================== *)
(** * Properties of the views *)

(** ** Keys of the similarity matrix *)

Lemma pair_key_injective :
  forall a a' b b',
    space_free a = true -> space_free a' = true ->
    pair_key a b = pair_key a' b' -> a = a' /\ b = b'.
Proof.
  unfold pair_key.
  induction a as [| c a IH]; intros [| c' a'] b b' Ha Ha' Heq;
    cbn [String.append space_free] in *.
  - injection Heq as ->. split; reflexivity.
  - injection Heq as <- _. discriminate Ha'.
  - injection Heq as -> _. discriminate Ha.
  - injection Heq as -> Heq.
    apply andb_prop in Ha as [_ Ha]. apply andb_prop in Ha' as [_ Ha'].
    destruct (IH a' b b' Ha Ha' Heq) as [-> ->]. split; reflexivity.
Qed.

Lemma in_pairs_of :
  forall l a b, In (a, b) (pairs_of l) -> In a l /\ In b l.
Proof.
  induction l as [| x later IH]; intros a b Hin; [destruct Hin |].
  cbn [pairs_of] in Hin. apply in_app_or in Hin as [Hin | Hin].
  - apply in_map_iff in Hin as [y [Heq Hy]]. injection Heq as <- <-.
    split; [left; reflexivity | right; exact Hy].
  - destruct (IH a b Hin) as [Ha Hb]. split; right; assumption.
Qed.

Lemma pairs_of_one_way :
  forall l a b,
    NoDup l -> In (a, b) (pairs_of l) ->
    a <> b /\ ~ In (b, a) (pairs_of l).
Proof.
  induction l as [| x later IH]; intros a b Hnd Hin; [destruct Hin |].
  apply NoDup_cons_iff in Hnd as [Hx Hnd].
  cbn [pairs_of] in *. apply in_app_or in Hin as [Hin | Hin].
  - apply in_map_iff in Hin as [y [Heq Hy]]. injection Heq as <- <-.
    split; [intros ->; exact (Hx Hy) |].
    intros Hba. apply in_app_or in Hba as [Hba | Hba].
    + apply in_map_iff in Hba as [z [Heq Hz]]. injection Heq as <- _.
      exact (Hx Hy).
    + apply in_pairs_of in Hba as [_ Hxl]. exact (Hx Hxl).
  - destruct (IH a b Hnd Hin) as [Hne Hnot]. split; [exact Hne |].
    intros Hba. apply in_app_or in Hba as [Hba | Hba]; [| exact (Hnot Hba)].
    apply in_map_iff in Hba as [z [Heq Hz]]. injection Heq as <- <-.
    apply in_pairs_of in Hin as [_ Hxl]. exact (Hx Hxl).
Qed.

(** A matrix that is returned holds one assignment per pair, in loop
    order. *)
Lemma similarity_row_return :
  forall avg source1 later m m',
    similarity_row avg source1 later m = Return m' ->
    m' = fold_left (set_pair avg) (List.map (pair source1) later) m.
Proof.
  intros avg source1 later.
  induction later as [| source2 rest IH]; intros m m' H;
    cbn [similarity_row List.map fold_left] in *.
  - injection H as <-. reflexivity.
  - destruct (Dict.get source1 avg) as [emb1 |] eqn:G1; [| discriminate H].
    destruct (Dict.get source2 avg) as [emb2 |] eqn:G2; [| discriminate H].
    destruct (cosine emb1 emb2) as [sim | e] eqn:Ec; [| discriminate H].
    rewrite (IH _ _ H). f_equal.
    unfold set_pair, cosine_between. cbn [fst snd]. rewrite G1, G2.
    cbn [or_default]. f_equal.
    unfold cosine, np_dot in Ec.
    destruct (List.length emb1 =? List.length emb2)%nat; [| discriminate Ec].
    injection Ec as <-. reflexivity.
Qed.

Lemma similarity_rows_return :
  forall avg sources m m',
    similarity_rows avg sources m = Return m' ->
    m' = fold_left (set_pair avg) (pairs_of sources) m.
Proof.
  intros avg sources.
  induction sources as [| source1 later IH]; intros m m' H;
    cbn [similarity_rows pairs_of] in *.
  - injection H as <-. reflexivity.
  - destruct (similarity_row avg source1 later m) as [m1 | e] eqn:Er;
      [| discriminate H].
    rewrite fold_left_app, <- (similarity_row_return _ _ _ _ _ Er).
    apply IH. exact H.
Qed.

Lemma average_sources_keys :
  forall items acc avg,
    average_sources items acc = Return avg ->
    NoDup (Dict.keys acc) ->
    NoDup (Dict.keys avg)
    /\ incl (Dict.keys avg) (Dict.keys acc ++ Dict.keys items).
Proof.
  induction items as [| [k group] items IH]; intros acc avg H Hnd;
    cbn [average_sources] in H.
  - injection H as <-. split; [exact Hnd |].
    intros x Hx. apply in_or_app. left. exact Hx.
  - assert (Hweak : forall acc',
               NoDup (Dict.keys acc') ->
               incl (Dict.keys acc') (Dict.keys acc ++ [k]) ->
               average_sources items acc' = Return avg ->
               NoDup (Dict.keys avg)
               /\ incl (Dict.keys avg)
                       (Dict.keys acc ++ Dict.keys ((k, group) :: items))).
    { intros acc' Hnd' Hincl H'.
      destruct (IH acc' avg H' Hnd') as [H1 H2]. split; [exact H1 |].
      intros x Hx. apply H2 in Hx. apply in_app_or in Hx as [Hx | Hx].
      - apply Hincl in Hx. apply in_app_or in Hx as [Hx | [<- | []]].
        + apply in_or_app. left. exact Hx.
        + apply in_or_app. right. left. reflexivity.
      - apply in_or_app. right. right. exact Hx. }
    destruct group as [| v vs].
    + apply (Hweak acc Hnd); [| exact H].
      intros x Hx. apply in_or_app. left. exact Hx.
    + destruct (np_mean_axis0 (v :: vs)) as [mean |]; [| discriminate H].
      apply (Hweak (Dict.set k mean acc)); [| | exact H].
      * rewrite dict_keys_set. apply pyset_add_NoDup. exact Hnd.
      * rewrite dict_keys_set. intros x Hx.
        apply pyset_add_In in Hx as [Hx | ->]; apply in_or_app;
          [left; exact Hx | right; left; reflexivity].
Qed.

Lemma embedding_sources_in_frame :
  forall representations concept_instances documents_df s,
    In s (embedding_sources representations concept_instances documents_df) ->
    In s (List.map Document.source_id documents_df).
Proof.
  intros reps insts docs s Hin. unfold embedding_sources in Hin.
  apply in_flat_map in Hin as [i [_ Hin]].
  destruct (embedding_of reps i); [destruct Hin |].
  destruct (metadata_source docs i) as [s' |] eqn:Em; [| destruct Hin].
  destruct Hin as [<- | []].
  unfold metadata_source, join_document in Em.
  destruct (Dict.get "document_id" _) as [[| | | doc_id] |];
    try discriminate Em.
  destruct (String.eqb doc_id ""); [discriminate Em |].
  destruct (filter _ docs) as [| row rest] eqn:Ef; [discriminate Em |].
  cbn [option_map snd] in Em. injection Em as <-.
  apply in_map.
  assert (Hrow : In row (filter (fun r => String.eqb (Document.id r) doc_id)
                                docs)).
  { rewrite Ef. left. reflexivity. }
  apply filter_In in Hrow as [Hrow _]. exact Hrow.
Qed.

(** ** Rows of the similarity table *)

Lemma table_row_get :
  forall values source1 sources row k,
    Dict.get k
      (fold_left
         (fun row source2 =>
            if String.eqb source1 source2
            then Dict.set source2 (FloatCell (Some 1%R)) row
            else Dict.set source2
                   (FloatCell (similarity_cell values source1 source2)) row)
         sources row)
    = if Str.mem k sources
      then Some (if String.eqb source1 k then FloatCell (Some 1%R)
                 else FloatCell (similarity_cell values source1 k))
      else Dict.get k row.
Proof.
  intros values source1 sources.
  induction sources as [| s sources IH] using rev_ind; intros row k;
    [reflexivity |].
  rewrite fold_left_app. cbn [fold_left].
  assert (Hmem : Str.mem k (sources ++ [s])
                 = String.eqb k s || Str.mem k sources).
  { unfold Str.mem. rewrite existsb_app. cbn [existsb].
    rewrite orb_false_r. apply orb_comm. }
  rewrite Hmem.
  destruct (String.eqb k s) eqn:E.
  - apply String.eqb_eq in E. subst s. cbn [orb].
    destruct (String.eqb source1 k); apply dict_get_set_same.
  - cbn [orb]. apply String.eqb_neq in E.
    assert (E' : s <> k) by congruence.
    destruct (String.eqb source1 s);
      rewrite (dict_get_set_other _ s k _ _ E'); apply IH.
Qed.

Lemma find_row_of :
  forall (f : string -> Dict.t Cell) sources s,
    (forall x, In x sources -> Dict.get "source" (f x) = Some (TextCell x)) ->
    In s sources ->
    find (fun row =>
            match Dict.get "source" row with
            | Some (TextCell x) => String.eqb x s
            | _ => false
            end) (List.map f sources) = Some (f s).
Proof.
  intros f sources s Hf. induction sources as [| x sources IH];
    intros Hin; [destruct Hin |].
  cbn [List.map find]. rewrite (Hf x (or_introl eq_refl)).
  destruct (String.eqb x s) eqn:E.
  - apply String.eqb_eq in E. subst x. reflexivity.
  - apply String.eqb_neq in E. destruct Hin as [-> | Hin]; [congruence |].
    assert (Hf' : forall y, In y sources ->
                            Dict.get "source" (f y) = Some (TextCell y)).
    { intros y Hy. apply Hf. right. exact Hy. }
    clear Hf. revert Hin. generalize Hf'. clear. intros Hf' Hin.
    induction sources as [| y sources IH]; [destruct Hin |].
    cbn [List.map find]. rewrite (Hf' y (or_introl eq_refl)).
    destruct (String.eqb y s) eqn:E.
    + apply String.eqb_eq in E. subst y. reflexivity.
    + apply String.eqb_neq in E. destruct Hin as [-> | Hin]; [congruence |].
      apply IH; [intros z Hz; apply Hf'; right; exact Hz | exact Hin].
Qed.

Lemma similarity_cell_either :
  forall values a b v,
    (Dict.get (pair_key a b) values = Some v
     /\ Dict.get (pair_key b a) values = None)
    \/ (Dict.get (pair_key a b) values = None
        /\ Dict.get (pair_key b a) values = Some v) ->
    similarity_cell values a b = v.
Proof.
  intros values a b v H. unfold similarity_cell. cbv zeta.
  assert (Hfalsy : (if float_truthy v then v else Some 0%R) = v).
  { unfold float_truthy. destruct v as [r |]; [| reflexivity].
    destruct (Req_dec_T r 0) as [-> | _]; reflexivity. }
  destruct H as [[H1 H2] | [H1 H2]]; rewrite H1, H2.
  - destruct (float_truthy v); [reflexivity | exact Hfalsy].
  - exact Hfalsy.
Qed.

Lemma source_embeddings_nonempty :
  forall representations concept_instances documents_df k group,
    In (k, group)
       (_get_source_embeddings representations concept_instances
                               documents_df) ->
    group <> [].
Proof.
  intros reps insts docs k group Hin.
  assert (Hnd : NoDup (Dict.keys (_get_source_embeddings reps insts docs))).
  { rewrite source_embeddings_keys. apply pyset_update_NoDup. constructor. }
  pose proof (dict_In_get _ k group _ Hnd Hin) as Hget.
  unfold _get_source_embeddings in Hget.
  rewrite source_embeddings_group in Hget.
  cbn [Dict.get] in Hget. unfold extend in Hget.
  destruct (flat_map _ _) as [| e l]; [discriminate |].
  cbn [or_default app] in Hget. injection Hget as <-. discriminate.
Qed.

Lemma average_sources_keeps :
  forall items acc avg,
    (forall k g, In (k, g) items -> g <> []) ->
    average_sources items acc = Return avg ->
    forall k,
      In k (Dict.keys acc) \/ In k (Dict.keys items) ->
      In k (Dict.keys avg).
Proof.
  induction items as [| [k0 g0] items IH]; intros acc avg Hne H k Hk;
    cbn [average_sources] in H.
  - injection H as <-. destruct Hk as [Hk | []]. exact Hk.
  - destruct g0 as [| v vs];
      [exfalso; apply (Hne k0 []); [left; reflexivity | reflexivity] |].
    destruct (np_mean_axis0 (v :: vs)) as [mean |]; [| discriminate H].
    apply (IH (Dict.set k0 mean acc) avg);
      [intros k' g' Hin; apply (Hne k' g'); right; exact Hin | exact H |].
    rewrite dict_keys_set. cbn [Dict.keys List.map fst In] in Hk.
    destruct Hk as [Hk | [Hk | Hk]].
    + left. apply pyset_add_In. left. exact Hk.
    + left. apply pyset_add_In. right. symmetry. exact Hk.
    + right. exact Hk.
Qed.

(** With a row to index, the table is built. *)
Lemma generate_similarity_table_return :
  forall r,
    ComparisonResult.metric_type r = "source_similarity" ->
    ComparisonResult.sources r <> [] ->
    generate_similarity_table r
    = Return (List.map
                (similarity_table_row (similarity_values r)
                                      (ComparisonResult.sources r))
                (ComparisonResult.sources r)).
Proof.
  intros r Ht Hs. unfold generate_similarity_table. rewrite Ht.
  change (negb (String.eqb "source_similarity" "source_similarity"))
    with false. cbv iota zeta.
  destruct (ComparisonResult.sources r) as [| s0 rest]; [congruence |].
  reflexivity.
Qed.


(** X25.  When the source names of the frame have no space and none is
    ['source'], the similarity table shows the matrix symmetrically: it
    has one row per source, the diagonal is 1.0, and for every pair of
    sources the two mirrored cells both hold the one value the matrix
    stores for the pair, a zero and a nan included. *)
Theorem similarity_table_shows_matrix :
  forall representations concept_instances documents_df concept_id,
    Forall (fun row => plain_source (Document.source_id row) = true)
           documents_df ->
    match calculate_source_similarity representations concept_instances
            documents_df concept_id with
    | Return (Some r) =>
        exists table,
          generate_similarity_table r = Return table
          /\ List.length table = List.length (ComparisonResult.sources r)
          /\ (forall s,
                In s (ComparisonResult.sources r) ->
                table_cell table s s = Some (FloatCell (Some 1%R)))
          /\ (forall a b,
                In (a, b) (pairs_of (ComparisonResult.sources r)) ->
                exists v,
                  Dict.get (pair_key a b) (similarity_values r) = Some v
                  /\ table_cell table a b = Some (FloatCell v)
                  /\ table_cell table b a = Some (FloatCell v))
    | _ => True
    end.
Proof.
  intros reps insts docs cid Hplain.
  unfold calculate_source_similarity.
  destruct (List.length _ <? 2)%nat eqn:El; [exact I |].
  destruct (average_sources _ []) as [avg | e] eqn:Ea; [| exact I].
  destruct (similarity_rows avg (Dict.keys avg) []) as [m | e] eqn:Er;
    [| exact I].
  apply similarity_rows_return in Er.
  destruct (average_sources_keys _ _ _ Ea (NoDup_nil _)) as [Hnd Hincl].
  assert (Hsome : Dict.keys avg <> []).
  { pose proof (average_sources_keeps _ _ _
                  (source_embeddings_nonempty reps insts docs) Ea) as Hk.
    destruct (_get_source_embeddings reps insts docs) as [| [k g] rest];
      [discriminate El |].
    intros Hempty.
    specialize (Hk k (or_intror (or_introl eq_refl))).
    rewrite Hempty in Hk. destruct Hk. }
  set (sources := Dict.keys avg) in *.
  assert (Hsrc : forall s, In s sources -> plain_source s = true).
  { intros s Hs. apply Hincl in Hs. cbn [Dict.keys List.map app] in Hs.
    rewrite source_embeddings_keys in Hs.
    apply pyset_update_In in Hs as [[] | Hs].
    apply embedding_sources_in_frame in Hs.
    apply in_map_iff in Hs as [row [<- Hrow]].
    rewrite Forall_forall in Hplain. apply Hplain. exact Hrow. }
  assert (Hfree : forall s, In s sources -> space_free s = true).
  { intros s Hs. apply Hsrc in Hs. apply andb_prop in Hs as [Hs _].
    exact Hs. }
  assert (Hcol : forall s, In s sources -> s <> "source").
  { intros s Hs. apply Hsrc in Hs. apply andb_prop in Hs as [_ Hs].
    apply negb_true_iff in Hs. apply String.eqb_neq. exact Hs. }
  assert (Hkeys : forall k, In k (Dict.keys m)
                            <-> In k (List.map key_of (pairs_of sources))).
  { intros k. rewrite Er, set_pairs_keys, pyset_update_In.
    cbn [Dict.keys List.map]. unfold key_of. cbn [In]. tauto. }
  assert (Hcolumn : ~ In "source" sources).
  { intros Hin. exact (Hcol _ Hin eq_refl). }
  assert (Hrow_source :
            forall x, In x sources ->
                      Dict.get "source" (similarity_table_row m sources x)
                      = Some (TextCell x)).
  { intros x _. unfold similarity_table_row. rewrite table_row_get.
    destruct (Str.mem "source" sources) eqn:Em;
      [apply mem_In in Em; contradiction | reflexivity]. }
  assert (Hcell : forall a b,
             In a sources -> In b sources ->
             table_cell (List.map (similarity_table_row m sources) sources)
                        a b
             = Some (if String.eqb a b then FloatCell (Some 1%R)
                     else FloatCell (similarity_cell m a b))).
  { intros a b Ha Hb. unfold table_cell.
    rewrite (find_row_of _ sources a Hrow_source Ha).
    unfold similarity_table_row. rewrite table_row_get.
    apply mem_In in Hb. rewrite Hb. reflexivity. }
  exists (List.map (similarity_table_row m sources) sources).
  split; [apply generate_similarity_table_return;
          [reflexivity | exact Hsome] |].
  cbn [ComparisonResult.metric_type ComparisonResult.sources
       similarity_values ComparisonResult.values].
  split; [apply length_map |]. split.
  - intros s Hs. rewrite (Hcell s s Hs Hs), String.eqb_refl. reflexivity.
  - intros a b Hab.
    destruct (in_pairs_of _ _ _ Hab) as [Ha Hb].
    destruct (pairs_of_one_way _ _ _ Hnd Hab) as [Hne Hnot].
    assert (Hin : In (pair_key a b) (Dict.keys m)).
    { apply Hkeys. apply in_map_iff. exists (a, b).
      split; [reflexivity | exact Hab]. }
    assert (Hout : Dict.get (pair_key b a) m = None).
    { apply dict_get_None. intros Hk. apply Hkeys in Hk.
      apply in_map_iff in Hk as [[a' b'] [Hk Hp]].
      unfold key_of in Hk. cbn [fst snd] in Hk.
      destruct (in_pairs_of _ _ _ Hp) as [Ha' _].
      destruct (pair_key_injective a' b b' a (Hfree _ Ha') (Hfree _ Hb) Hk)
        as [-> ->].
      exact (Hnot Hp). }
    apply mem_In in Hin. rewrite mem_keys_get in Hin.
    destruct (Dict.get (pair_key a b) m) as [v |] eqn:Eg;
      [| discriminate Hin].
    exists v. split; [reflexivity |].
    rewrite (Hcell a b Ha Hb), (Hcell b a Hb Ha).
    assert (Eab : String.eqb a b = false) by (apply String.eqb_neq; exact Hne).
    assert (Eba : String.eqb b a = false)
      by (apply String.eqb_neq; congruence).
    rewrite Eab, Eba.
    rewrite (similarity_cell_either m a b v) by (left; split; assumption).
    rewrite (similarity_cell_either m b a v) by (right; split; assumption).
    split; reflexivity.
Qed.

Lemma similarity_table_shows_matrix_witness :
  let documents_df := [Document.mk "d1" "BBC"; Document.mk "d2" "Guardian"] in
  let instances :=
    [ConceptInstance.mk "c" "s1" 1 "keyword" [("document_id", PyStr "d1")];
     ConceptInstance.mk "c" "s2" 1 "keyword" [("document_id", PyStr "d2")]] in
  let representations :=
    [Representation.mk "s1" (Some [1%R; 0%R]) [] None [];
     Representation.mk "s2" (Some [1%R; 1%R]) [] None []] in
  match calculate_source_similarity representations instances documents_df
          "c" with
  | Return (Some r) =>
      exists table,
        generate_similarity_table r = Return table
        /\ List.length table = List.length (ComparisonResult.sources r)
        /\ (forall s,
              In s (ComparisonResult.sources r) ->
              table_cell table s s = Some (FloatCell (Some 1%R)))
        /\ (forall a b,
              In (a, b) (pairs_of (ComparisonResult.sources r)) ->
              exists v,
                Dict.get (pair_key a b) (similarity_values r) = Some v
                /\ table_cell table a b = Some (FloatCell v)
                /\ table_cell table b a = Some (FloatCell v))
  | _ => True
  end.
Proof.
  intros documents_df instances representations.
  apply (similarity_table_shows_matrix representations instances documents_df
           "c").
  repeat constructor.
Defined.


(** ** Files written by [save_tables] *)








(** ** The lexical table *)

Lemma lexical_entry_of_source :
  forall representations concept_instances documents_df concept_id k e,
    In (k, e)
       (lexical_values
          (analyze_lexical_patterns representations concept_instances
             documents_df concept_id)) ->
    e = lexical_entry
          (Counter (pooled_keywords representations concept_instances
                      documents_df k)).
Proof.
  intros reps insts docs cid k e Hin. rewrite lexical_values_map in Hin.
  apply in_map_iff in Hin as [[k' counts] [Heq Hin]].
  injection Heq as -> <-.
  pose proof (dict_In_get _ k counts _
                (source_keywords_NoDup reps insts docs) Hin) as Hget.
  unfold source_keywords_of in Hget. rewrite source_keywords_group in Hget.
  cbn [Dict.get] in Hget. fold (pooled_keywords reps insts docs k) in Hget.
  unfold extend in Hget.
  destruct (pooled_keywords reps insts docs k); [discriminate |].
  cbn [or_default] in Hget. unfold Counter. congruence.
Qed.

Lemma enumerate_columns :
  forall (A : Type) (l : list A) (start : nat),
    List.map fst (combine (seq start (List.length l)) l)
    = seq start (List.length l)
    /\ List.map snd (combine (seq start (List.length l)) l) = l.
Proof.
  intros A l. induction l as [| x l IH]; intros start;
    [split; reflexivity |].
  cbn [List.length seq combine List.map fst snd].
  destruct (IH (S start)) as [H1 H2]. rewrite H1, H2. split; reflexivity.
Qed.

(** X27.  The lexical table lists, source after source, the top keywords
    of the lexical result in their order, ranked 1, 2, ...; the count
    shown beside a keyword is the number of its occurrences among the
    keywords pooled for the source, so the default 0 of the lookup never
    shows. *)
Theorem lexical_table_rows_ranked :
  forall representations concept_instances documents_df concept_id,
    let r :=
      analyze_lexical_patterns representations concept_instances
                               documents_df concept_id in
    generate_lexical_table r
    = Return (flat_map (fun kv => lexical_table_rows (fst kv) (snd kv))
                       (lexical_values r))
    /\ Forall
         (fun kv =>
            let rows := lexical_table_rows (fst kv) (snd kv) in
            let pool :=
              pooled_keywords representations concept_instances documents_df
                              (fst kv) in
            List.map lexical_keyword rows = top_keywords (snd kv)
            /\ List.map lexical_rank rows
               = seq 1 (List.length (top_keywords (snd kv)))
            /\ List.map lexical_count rows
               = List.map (count_occ string_dec pool) (top_keywords (snd kv))
            /\ Forall (fun row => lexical_source row = fst kv
                                  /\ (1 <= lexical_count row)%nat) rows)
         (lexical_values r).
Proof.
  intros reps insts docs cid. cbv zeta. split.
  - unfold generate_lexical_table.
    change (ComparisonResult.metric_type
              (analyze_lexical_patterns reps insts docs cid))
      with "lexical_patterns".
    change (negb (String.eqb "lexical_patterns" "lexical_patterns"))
      with false. cbv iota.
    f_equal. apply flat_map_ext. intros [k e]. reflexivity.
  - apply Forall_forall. intros [k e] Hin. cbn [fst snd].
    apply lexical_entry_of_source in Hin. subst e.
    set (pool := pooled_keywords reps insts docs k).
    destruct (ranked_properties pool 10) as [Hnd [Hkept [Hlen _]]].
    set (ranked := firstn 10 (sorted_desc (Counter pool))) in *.
    assert (Hshort : firstn 10 (List.map fst ranked) = List.map fst ranked).
    { apply firstn_all2. rewrite Hlen. apply Nat.le_min_l. }
    assert (Hcount : forall w,
               In w (List.map fst ranked) ->
               Dict.get w ranked = Some (count_occ string_dec pool w)
               /\ (1 <= count_occ string_dec pool w)%nat).
    { intros w Hw. apply in_map_iff in Hw as [[w' n] [Hw Hx]].
      cbn [fst] in Hw. subst w'.
      pose proof (dict_In_get _ w n ranked Hnd Hx) as Hget.
      apply firstn_incl in Hx.
      apply (Permutation_in _ (sorted_desc_perm (Counter pool))) in Hx.
      destruct (counter_item pool (w, n) Hx) as [Hn Hk].
      cbn [fst snd] in Hn, Hk. subst n.
      split; [exact Hget |].
      apply (count_occ_In string_dec) in Hk. lia. }
    unfold lexical_table_rows, lexical_entry, enumerate. cbv zeta.
    cbn [top_keywords keyword_counts]. fold ranked. rewrite Hshort.
    destruct (enumerate_columns _ (List.map fst ranked) 0) as [Hfst Hsnd].
    set (entries := combine (seq 0 (List.length (List.map fst ranked)))
                            (List.map fst ranked)) in *.
    split; [| split; [| split]].
    + rewrite <- Hsnd, map_map. apply map_ext. intros [i w]. reflexivity.
    + rewrite <- seq_shift, <- Hfst, !map_map.
      apply map_ext. intros [i w]. reflexivity.
    + rewrite <- Hsnd, !map_map.
      apply map_ext_in. intros [i w] Hiw. cbn [lexical_count snd].
      assert (Hw : In w (List.map fst ranked)).
      { rewrite <- Hsnd. apply in_map_iff. exists (i, w).
        split; [reflexivity | exact Hiw]. }
      destruct (Hcount w Hw) as [Hget _]. rewrite Hget. reflexivity.
    + apply Forall_forall. intros row Hrow.
      apply in_map_iff in Hrow as [[i w] [<- Hiw]].
      cbn [lexical_source lexical_count].
      split; [reflexivity |].
      assert (Hw : In w (List.map fst ranked)).
      { rewrite <- Hsnd. apply in_map_iff. exists (i, w).
        split; [reflexivity | exact Hiw]. }
      destruct (Hcount w Hw) as [Hget Hpos]. rewrite Hget. exact Hpos.
Qed.


(* ================================================================== *)
(** * What of a concept the assigner reads *)

(** X28.  The exclusion criteria of a concept are never applied, and
    neither its name nor its inclusion criteria after the third are read:
    two concepts with the same id, description, seed terms and first
    three inclusion criteria get the same keyword score, the same
    embedding text and the same assignment on every segment and from
    every cache. *)
Theorem exclusion_criteria_never_applied :
  forall self c c',
    same_for_assignment c c' ->
    (forall text, _check_exclusion_criteria text c = false)
    /\ (forall text, _keyword_match_score text c' = _keyword_match_score text c)
    /\ concept_text c' = concept_text c
    /\ (forall cache text_segment,
          assign_concept self cache text_segment c'
          = assign_concept self cache text_segment c).
Proof.
  intros self c c' [Hid [Hdesc [Hseed Hincl]]].
  assert (Hkw : forall text,
             _keyword_match_score text c' = _keyword_match_score text c).
  { intros text. unfold _keyword_match_score. rewrite Hseed. reflexivity. }
  assert (Htext : concept_text c' = concept_text c).
  { unfold concept_text. rewrite Hdesc, Hseed, Hincl. reflexivity. }
  split; [reflexivity |]. split; [exact Hkw |]. split; [exact Htext |].
  intros cache seg. unfold assign_concept, _check_exclusion_criteria.
  cbv zeta. rewrite Hkw.
  assert (Hemb : _embedding_similarity_score self cache
                   (TextSegment.text seg) c'
                 = _embedding_similarity_score self cache
                     (TextSegment.text seg) c).
  { unfold _embedding_similarity_score, _get_concept_embedding.
    rewrite Hid, Htext. reflexivity. }
  rewrite Hemb, Hid. reflexivity.
Qed.

Lemma exclusion_criteria_never_applied_witness :
  let c := income_wealth_inequality in
  let c' :=
    Concept.mk (Concept.id c) "Renamed" (Concept.description c)
               (firstn 3 (Concept.inclusion_criteria c) ++ ["Anything else"])
               ["Everything about wealth"] (Concept.seed_terms c) in
  let self :=
    ConceptAssigner.mk (4 / 10)%R (6 / 10)%R (5 / 10)%R false None in
  (forall text, _check_exclusion_criteria text c = false)
  /\ (forall text, _keyword_match_score text c' = _keyword_match_score text c)
  /\ concept_text c' = concept_text c
  /\ (forall cache text_segment,
        assign_concept self cache text_segment c'
        = assign_concept self cache text_segment c).
Proof.
  intros c c' self.
  apply (exclusion_criteria_never_applied self c c').
  repeat split.
Defined.
